(** * Users / Tasks REST service: the bidirectional synchronizer

    A shallow embedding of the route handlers of the service (the file
    that mounts [/api/users] and [/api/tasks]) together with the two
    mongoose schemas they work on.

    Conventions of the embedding.
    - A collection is a finite map from the string form of the
      document's [_id] to the document; [String(doc._id)] is the key
      itself.
    - A request body is a record of optional fields: [None] is a field
      the JSON object does not carry ([undefined]); a field that is
      present carries a value of the type its schema path declares.
      A missing body ([req.body || {}]) is the body with no field.
    - The handlers are [async] functions that await one store call after
      the other; they are written in a state-and-exception monad over the
      two collections.  Every store call leaves an event in a trace, and
      every document that a call matches for writing leaves one more, so
      that "reads nothing" and "does not rewrite" can be stated.
    - The store calls follow mongoose and the server behind it: an
      update document without operators is a [$set] of the paths it
      carries, [$push] under a [$ne] filter appends when the value is
      absent, [$pull] removes every occurrence, [unique] on [email] is a
      unique index, and [_id] is unique.
    - The casts mongoose applies before it calls the server are part of
      the model: a string that is not the string form of an ObjectId in
      a query on [_id], and a number outside the range of [Date] on a
      [Date] path, raise [CastError] (or fail validation on [save])
      before the store is called.
    - Failures of the connection are not part of the model.
    - The two routes that read one document by id come last, with the
      store's verdict on a selection as a parameter. *)

From stdpp Require Import gmap strings list fin_maps.
From Stdlib Require Import ZArith Ascii.

Local Open Scope Z_scope.
Local Open Scope string_scope.

(** ** JavaScript truthiness of the values the handlers test *)

Class Truthy (A : Type) := truthy : A → bool.
Global Hint Mode Truthy ! : typeclass_instances.

Global Instance string_truthy : Truthy string :=
  λ s, match s with EmptyString => false | String _ _ => true end.
Global Instance Z_truthy : Truthy Z := λ n, negb (n =? 0)%Z.
Global Instance bool_truthy : Truthy bool := λ b, b.
Global Instance option_truthy {A} `{Truthy A} : Truthy (option A) :=
  λ o, match o with Some a => truthy a | None => false end.

(** ** Strings: [toLowerCase] and [trim] on ASCII text *)

Definition lower_ascii (c : ascii) : ascii :=
  let n := nat_of_ascii c in
  if ((65 <=? n) && (n <=? 90))%nat then ascii_of_nat (n + 32) else c.

Fixpoint toLowerCase (s : string) : string :=
  match s with
  | EmptyString => EmptyString
  | String c r => String (lower_ascii c) (toLowerCase r)
  end.

Definition is_space (c : ascii) : bool :=
  let n := nat_of_ascii c in
  ((n =? 32) || ((9 <=? n) && (n <=? 13)))%nat.

Fixpoint trimStart (s : string) : string :=
  match s with
  | EmptyString => EmptyString
  | String c r => if is_space c then trimStart r else s
  end.

Definition trim (s : string) : string :=
  String.rev (trimStart (String.rev (trimStart s))).

(** ** Identifiers and dates as mongoose casts them *)

(** The schemas declare no [_id] path, so [_id] is an ObjectId and a
    query on it casts the string it is given.  [String(doc._id)], the
    form in which the service hands identifiers out and stores them in
    [assignedUser] and [pendingTasks], is 24 lower-case hexadecimal
    digits; the model takes this form only, and refuses any other
    string as the cast refuses an ill-formed one. *)
Definition is_hex_digit (c : ascii) : bool :=
  let n := nat_of_ascii c in
  (((48 <=? n) && (n <=? 57)) || ((97 <=? n) && (n <=? 102)))%nat.

Fixpoint all_hex (s : string) : bool :=
  match s with
  | EmptyString => true
  | String c r => is_hex_digit c && all_hex r
  end.

Definition isObjectId (s : string) : bool :=
  (String.length s =? 24)%nat && all_hex s.

(** A [Date] holds a number of milliseconds within 8.64e15 of the
    epoch; [new Date(n)] is invalid beyond, and the cast to [Date]
    refuses an invalid date. *)
Definition isDate (n : Z) : bool :=
  ((-8640000000000000 <=? n) && (n <=? 8640000000000000))%Z.

(** [new Set(xs)] keeps the first occurrence of every element, in
    insertion order; [[...set]] lists them in that order. *)
Fixpoint set_add_all (seen xs : list string) : list string :=
  match xs with
  | [] => seen
  | x :: r => if bool_decide (x ∈ seen) then set_add_all seen r
              else set_add_all (seen ++ [x]) r
  end.
Definition new_Set (xs : list string) : list string := set_add_all [] xs.
Definition has (s : list string) (x : string) : bool := bool_decide (x ∈ s).

(** ** The schemas *)

Module UserSchema.
Record doc := mk {
  name : string;
  email : string;
  pendingTasks : list string;
  dateCreated : Z
}.
End UserSchema.

Module TaskSchema.
Record doc := mk {
  name : string;
  description : string;
  deadline : Z;
  completed : bool;
  assignedUser : string;
  assignedUserName : string;
  dateCreated : Z
}.
End TaskSchema.

(** ** Request bodies *)

Module UserBody.
Record t := mk {
  name : option string;
  email : option string;
  pendingTasks : option (list string);
  dateCreated : option Z
}.
Definition empty : t := mk None None None None.
End UserBody.

Module TaskBody.
Record t := mk {
  name : option string;
  description : option string;
  deadline : option Z;
  completed : option bool;
  assignedUser : option string;
  assignedUserName : option string;
  dateCreated : option Z
}.
Definition empty : t := mk None None None None None None None.
(** [{ ...body, assignedUserName }] *)
Definition with_assignedUserName (b : t) (n : string) : t :=
  mk (name b) (description b) (deadline b) (completed b)
     (assignedUser b) (Some n) (dateCreated b).
End TaskBody.

(** ** The document store and the monad of the handlers *)

Inductive Coll := Users | Tasks.

Inductive Event :=
| Access (c : Coll)                 (* one call to the store *)
| Written (c : Coll) (id : string). (* a document matched for writing *)

Record Store := mkStore {
  users : gmap string UserSchema.doc;
  tasks : gmap string TaskSchema.doc;
  trace : list Event
}.

Inductive Exn := DuplicateKey | ValidationError | CastError | TypeError | BadValue.

Inductive Res (A : Type) := Ok (a : A) | Throw (e : Exn).
Arguments Ok {A} a.
Arguments Throw {A} e.

Definition M (A : Type) : Type := Store → Res A * Store.

Global Instance M_ret : MRet M := λ A a s, (Ok a, s).
Global Instance M_bind : MBind M := λ A B f m s,
  match m s with
  | (Ok a, s') => f a s'
  | (Throw e, s') => (Throw e, s')
  end.

Definition throw {A} (e : Exn) : M A := λ s, (Throw e, s).
Definition try_catch {A} (body : M A) (handler : Exn → M A) : M A := λ s,
  match body s with
  | (Ok a, s') => (Ok a, s')
  | (Throw e, s') => handler e s'
  end.

Definition log (e : Event) : M unit :=
  λ s, (Ok tt, mkStore (users s) (tasks s) (trace s ++ [e])).
Definition logs (es : list Event) : M unit :=
  λ s, (Ok tt, mkStore (users s) (tasks s) (trace s ++ es)).
Definition get_users : M (gmap string UserSchema.doc) := λ s, (Ok (users s), s).
Definition get_tasks : M (gmap string TaskSchema.doc) := λ s, (Ok (tasks s), s).
Definition put_users (us : gmap string UserSchema.doc) : M unit :=
  λ s, (Ok tt, mkStore us (tasks s) (trace s)).
Definition put_tasks (ts : gmap string TaskSchema.doc) : M unit :=
  λ s, (Ok tt, mkStore (users s) ts (trace s)).
Definition when (b : bool) (m : M unit) : M unit := if b then m else mret tt.

(** A query casts the identifiers it carries for [_id] before anything
    is sent: an ill-formed one raises [CastError] and the store is not
    called. *)
Definition casting {A} (ids : list string) (m : M A) : M A :=
  if forallb isObjectId ids then m else throw CastError.

(** ** The [User] model *)

Module User.
Import UserSchema.

(** The unique index on [email]: some document other than [self]
    already holds [e]. *)
Definition email_taken (us : gmap string doc) (self : string) (e : string) : bool :=
  bool_decide (Exists (λ kv, kv.1 ≠ self ∧ email kv.2 = e) (map_to_list us)).

Definition findById (id : string) : M (option doc) :=
  casting [id] (_ ← log (Access Users); us ← get_users; mret (us !! id)).

Definition findOne_email (e : string) : M (option (string * doc)) :=
  _ ← log (Access Users); us ← get_users;
  mret (head (filter (λ kv, email kv.2 = e) (map_to_list us))).

(** [new User(fields)] followed by the validation [save] runs: required
    paths, the cast of [dateCreated], schema defaults, and the [trim]
    and [lowercase] setters of [email].  [None] is a document that
    fails validation. *)
Definition new (b : UserBody.t) (now : Z) : option doc :=
  match UserBody.name b, UserBody.email b with
  | Some n, Some e =>
      if truthy n && truthy (toLowerCase (trim e))
         && from_option isDate true (UserBody.dateCreated b) then
        Some (mk n (toLowerCase (trim e))
                 (default [] (UserBody.pendingTasks b))
                 (default now (UserBody.dateCreated b)))
      else None
  | _, _ => None
  end.

(** [save] validates first; only a valid document reaches the store. *)
Definition save (id : string) (d : option doc) : M unit :=
  match d with
  | None => throw ValidationError
  | Some d =>
      _ ← log (Access Users);
      us ← get_users;
      if bool_decide (is_Some (us !! id)) || email_taken us id (email d)
      then throw DuplicateKey
      else _ ← put_users (<[id := d]> us); log (Written Users id)
  end.

(** [findByIdAndUpdate(id, { name, email, pendingTasks }, { new: true })] *)
Definition findByIdAndUpdate (id : string) (n e : string) (p : list string)
  : M (option doc) :=
  casting [id]
    (_ ← log (Access Users); us ← get_users;
     match us !! id with
     | None => mret None
     | Some u =>
         let e' := toLowerCase (trim e) in
         if email_taken us id e' then throw DuplicateKey
         else
           let u' := mk n e' p (dateCreated u) in
           _ ← put_users (<[id := u']> us);
           _ ← log (Written Users id);
           mret (Some u')
     end).

Definition findByIdAndDelete (id : string) : M (option doc) :=
  casting [id]
    (_ ← log (Access Users); us ← get_users;
     match us !! id with
     | None => mret None
     | Some u =>
         _ ← put_users (delete id us);
         _ ← log (Written Users id);
         mret (Some u)
     end).

Definition set_pendingTasks (u : doc) (p : list string) : doc :=
  mk (name u) (email u) p (dateCreated u).

(** The documents after
    [updateOne({ _id: userId, pendingTasks: { $ne: taskId } },
               { $push: { pendingTasks: taskId } })]. *)
Definition push (userId taskId : string) (us : gmap string doc) : gmap string doc :=
  match us !! userId with
  | Some u =>
      if bool_decide (taskId ∈ pendingTasks u) then us
      else <[userId := set_pendingTasks u (pendingTasks u ++ [taskId])]> us
  | None => us
  end.

Definition updateOne_push (userId taskId : string) : M unit :=
  casting [userId]
    (_ ← log (Access Users); us ← get_users;
     _ ← put_users (push userId taskId us);
     match us !! userId with
     | Some u => if bool_decide (taskId ∈ pendingTasks u) then mret tt
                 else log (Written Users userId)
     | None => mret tt
     end).

(** [$pull] removes every occurrence. *)
Definition without (taskId : string) (p : list string) : list string :=
  filter (λ x, x ≠ taskId) p.

(** The documents after
    [updateOne({ _id: userId }, { $pull: { pendingTasks: taskId } })]. *)
Definition pull (userId taskId : string) (us : gmap string doc) : gmap string doc :=
  match us !! userId with
  | Some u => <[userId := set_pendingTasks u (without taskId (pendingTasks u))]> us
  | None => us
  end.

Definition updateOne_pull (userId taskId : string) : M unit :=
  casting [userId]
    (_ ← log (Access Users); us ← get_users;
     _ ← put_users (pull userId taskId us);
     match us !! userId with
     | Some u => log (Written Users userId)
     | None => mret tt
     end).
End User.

(** ** The [Task] model *)

Module Task.
Import TaskSchema.

Definition findById (id : string) : M (option doc) :=
  casting [id] (_ ← log (Access Tasks); ts ← get_tasks; mret (ts !! id)).

(** The [Date] paths a body carries are within the range of [Date]. *)
Definition dates_cast (b : TaskBody.t) : bool :=
  from_option isDate true (TaskBody.deadline b)
  && from_option isDate true (TaskBody.dateCreated b).

(** [new Task(fields)] followed by the validation [save] runs: required
    paths, the casts of [deadline] and [dateCreated], and schema
    defaults.  [None] is a document that fails validation. *)
Definition new (b : TaskBody.t) (now : Z) : option doc :=
  match TaskBody.name b, TaskBody.deadline b with
  | Some n, Some d =>
      if truthy n && dates_cast b then
        Some (mk n (default "" (TaskBody.description b)) d
                 (default false (TaskBody.completed b))
                 (default "" (TaskBody.assignedUser b))
                 (default "unassigned" (TaskBody.assignedUserName b))
                 (default now (TaskBody.dateCreated b)))
      else None
  | _, _ => None
  end.

(** [save] validates first; only a valid document reaches the store. *)
Definition save (id : string) (d : option doc) : M unit :=
  match d with
  | None => throw ValidationError
  | Some d =>
      _ ← log (Access Tasks);
      ts ← get_tasks;
      if bool_decide (is_Some (ts !! id)) then throw DuplicateKey
      else _ ← put_tasks (<[id := d]> ts); log (Written Tasks id)
  end.

(** An update document without operators is applied as [$set] of the
    paths it carries; the other paths keep their stored value. *)
Definition set_fields (b : TaskBody.t) (t : doc) : doc :=
  mk (default (name t) (TaskBody.name b))
     (default (description t) (TaskBody.description b))
     (default (deadline t) (TaskBody.deadline b))
     (default (completed t) (TaskBody.completed b))
     (default (assignedUser t) (TaskBody.assignedUser b))
     (default (assignedUserName t) (TaskBody.assignedUserName b))
     (default (dateCreated t) (TaskBody.dateCreated b)).

(** [findByIdAndUpdate(id, update, { new: true })]: the identifier and
    the update document are cast before the store is called. *)
Definition findByIdAndUpdate (id : string) (b : TaskBody.t) : M (option doc) :=
  casting [id]
    (if dates_cast b then
       _ ← log (Access Tasks); ts ← get_tasks;
       match ts !! id with
       | None => mret None
       | Some t =>
           let t' := set_fields b t in
           _ ← put_tasks (<[id := t']> ts);
           _ ← log (Written Tasks id);
           mret (Some t')
       end
     else throw CastError).

Definition findByIdAndDelete (id : string) : M (option doc) :=
  casting [id]
    (_ ← log (Access Tasks); ts ← get_tasks;
     match ts !! id with
     | None => mret None
     | Some t =>
         _ ← put_tasks (delete id ts);
         _ ← log (Written Tasks id);
         mret (Some t)
     end).

(** [$set: { assignedUser, assignedUserName }] *)
Definition set_assignment (u n : string) (t : doc) : doc :=
  mk (name t) (description t) (deadline t) (completed t) u n (dateCreated t).

(** The documents after
    [updateMany(filter, { $set: { assignedUser: u, assignedUserName: n } })];
    the filter sees the [_id] and the document. *)
Definition set_many (matches : string → doc → bool) (u n : string)
    (ts : gmap string doc) : gmap string doc :=
  map_imap (λ id t, Some (if matches id t then set_assignment u n t else t)) ts.

Definition matched (matches : string → doc → bool) (ts : gmap string doc)
  : list string :=
  (map_to_list (filter (λ kv, matches kv.1 kv.2 = true) ts)).*1.

(** The filters the handlers give [updateMany]:
    [{ _id: { $in: ids } }], [{ assignedUser: a }], or both. *)
Record Filter := mkFilter {
  id_in : option (list string);
  assignedUser_is : option string
}.

Definition matches (f : Filter) (id : string) (t : doc) : bool :=
  from_option (λ ids, bool_decide (id ∈ ids)) true (id_in f)
  && from_option (λ a, bool_decide (assignedUser t = a)) true (assignedUser_is f).

(** [assignedUser] is a [String] path and takes any string; the
    identifiers under [_id] are cast. *)
Definition updateMany (f : Filter) (u n : string) : M unit :=
  casting (default [] (id_in f))
    (_ ← log (Access Tasks); ts ← get_tasks;
     _ ← put_tasks (set_many (matches f) u n ts);
     logs (Written Tasks <$> matched (matches f) ts)).
End Task.

(** ** Responses *)

#[local] Unset Elimination Schemes.
Inductive JSON :=
| JNull
| JBool (b : bool)
| JNum (n : Z)
| JStr (s : string)
| JArr (l : list JSON)
| JObj (l : list (string * JSON)).
#[local] Set Elimination Schemes.

Inductive Data :=
| DNull
| DUser (id : string) (u : UserSchema.doc)
| DTask (id : string) (t : TaskSchema.doc)
| DCount (n : nat)
| DList (l : list JSON)
| DError (e : Exn).

Record Response := mkResponse {
  status : nat;
  message : string;
  data : Data
}.

(** [res.status(code).json({ message, data })] *)
Definition send (code : nat) (message : string) (data : Data) : M Response :=
  mret (mkResponse code message data).

(** ** Helpers of the synchronizer *)

Definition addPendingToUser (userId taskId : string) : M unit :=
  if negb (truthy userId) || negb (truthy taskId) then mret tt
  else User.updateOne_push userId taskId.

Definition removePendingFromUser (userId taskId : string) : M unit :=
  if negb (truthy userId) || negb (truthy taskId) then mret tt
  else User.updateOne_pull userId taskId.

Definition resolveUserName (userId : string) : M string :=
  if negb (truthy userId) then mret "unassigned"
  else
    u ← User.findById userId;
    mret (match u with Some u => UserSchema.name u | None => "unassigned" end).

(** ** Routes on users *)

(** The two sides of the difference that [PUT /users/:id] computes
    between the stored and the supplied [pendingTasks]:
    [[...prevSet].filter(id => !nextSet.has(id))] and
    [[...nextSet].filter(id => !prevSet.has(id))]. *)
Definition removed (prev next : list string) : list string :=
  let prevSet := new_Set prev in
  let nextSet := new_Set next in
  filter (λ i, has nextSet i = false) prevSet.

Definition added (prev next : list string) : list string :=
  let prevSet := new_Set prev in
  let nextSet := new_Set next in
  filter (λ i, has prevSet i = false) nextSet.

(** [POST /users]; [oid] is the identifier the driver gives the new
    document and [now] the value of [Date.now]. *)
Definition users_post (oid : string) (now : Z) (body : UserBody.t) : M Response :=
  try_catch
    (let name := UserBody.name body in
     let email := UserBody.email body in
     if negb (truthy name) || negb (truthy email)
     then send 400 "Missing required fields (name, email)" DNull
     else
       let email := trim (toLowerCase (default "" email)) in
       dup ← User.findOne_email email;
       if bool_decide (is_Some dup)
       then send 400 "User with that email already exists" DNull
       else
         let user := User.new (UserBody.mk name (Some email)
                                 (UserBody.pendingTasks body)
                                 (UserBody.dateCreated body)) now in
         _ ← User.save oid user;
         send 201 "User created"
              (match user with Some u => DUser oid u | None => DNull end))
    (λ e, send 500 "Server error creating user" (DError e)).

(** [PUT /users/:id] *)
Definition users_put (id : string) (body : UserBody.t) : M Response :=
  try_catch
    (let name := UserBody.name body in
     let email := UserBody.email body in
     let pendingTasks := UserBody.pendingTasks body in
     if negb (truthy name) || negb (truthy email)
     then send 400 "Missing required fields (name, email)" DNull
     else
       prev ← User.findById id;
       match prev with
       | None => send 404 "User not found" DNull
       | Some prev =>
           updated ← User.findByIdAndUpdate id
                       (default "" name)
                       (trim (toLowerCase (default "" email)))
                       (match pendingTasks with
                        | Some p => p
                        | None => UserSchema.pendingTasks prev
                        end);
           match updated with
           | None => send 404 "User not found after update" DNull
           | Some updated =>
               _ ← match pendingTasks with
                   | Some pendingTasks =>
                       let removed := removed (UserSchema.pendingTasks prev) pendingTasks in
                       let added := added (UserSchema.pendingTasks prev) pendingTasks in
                       _ ← Task.updateMany
                             (Task.mkFilter (Some removed) (Some id))
                             "" "unassigned";
                       let uname := UserSchema.name updated in
                       Task.updateMany (Task.mkFilter (Some added) None) id uname
                   | None => mret tt
                   end;
               send 200 "User updated" (DUser id updated)
           end
       end)
    (λ e, send 500 "Server error updating user" (DError e)).

(** [DELETE /users/:id] *)
Definition users_delete (id : string) : M Response :=
  try_catch
    (user ← User.findByIdAndDelete id;
     match user with
     | None => send 404 "User not found" DNull
     | Some _ =>
         _ ← Task.updateMany (Task.mkFilter None (Some id)) "" "unassigned";
         send 200 "User deleted (tasks unassigned)" DNull
     end)
    (λ e, send 500 "Server error deleting user" (DError e)).

(** ** Routes on tasks *)

(** [POST /tasks] *)
Definition tasks_post (oid : string) (now : Z) (body : TaskBody.t) : M Response :=
  try_catch
    (let name := TaskBody.name body in
     let deadline := TaskBody.deadline body in
     let assignedUser := TaskBody.assignedUser body in
     let completed := TaskBody.completed body in
     if negb (truthy name) || negb (truthy deadline)
     then send 400 "Missing required fields (name, deadline)" DNull
     else
       assignedUserName ← resolveUserName (default "" assignedUser);
       let task := Task.new (TaskBody.with_assignedUserName body assignedUserName) now in
       _ ← Task.save oid task;
       _ ← when (truthy assignedUser && negb (truthy completed))
                (addPendingToUser (default "" assignedUser) oid);
       send 201 "Task created"
            (match task with Some t => DTask oid t | None => DNull end))
    (λ e, send 500 "Server error creating task" (DError e)).

(** [PUT /tasks/:id] *)
Definition tasks_put (id : string) (body : TaskBody.t) : M Response :=
  try_catch
    (let name := TaskBody.name body in
     let deadline := TaskBody.deadline body in
     if negb (truthy name) || negb (truthy deadline)
     then send 400 "Missing required fields (name, deadline)" DNull
     else
       prev ← Task.findById id;
       match prev with
       | None => send 404 "Task not found" DNull
       | Some prev =>
           (* req.body.assignedUser || '' *)
           let newAssignedUser := default "" (TaskBody.assignedUser body) in
           newAssignedUserName ← resolveUserName newAssignedUser;
           updated ← Task.findByIdAndUpdate id
                       (TaskBody.with_assignedUserName body newAssignedUserName);
           match updated with
           | None => throw TypeError
           | Some updated =>
               let prevUser := TaskSchema.assignedUser prev in
               let nextUser := TaskSchema.assignedUser updated in
               _ ← when (truthy prevUser && negb (bool_decide (prevUser = nextUser)))
                        (removePendingFromUser prevUser id);
               _ ← when (truthy nextUser && negb (TaskSchema.completed updated))
                        (addPendingToUser nextUser id);
               _ ← when (TaskSchema.completed updated && truthy nextUser)
                        (removePendingFromUser nextUser id);
               send 200 "Task updated" (DTask id updated)
           end
       end)
    (λ e, send 500 "Server error updating task" (DError e)).

(** [DELETE /tasks/:id] *)
Definition tasks_delete (id : string) : M Response :=
  try_catch
    (task ← Task.findByIdAndDelete id;
     match task with
     | None => send 404 "Task not found" DNull
     | Some task =>
         _ ← when (truthy (TaskSchema.assignedUser task))
                  (removePendingFromUser (TaskSchema.assignedUser task) id);
         send 200 "Task deleted" DNull
     end)
    (λ e, send 500 "Server error deleting task" (DError e)).

(** ** Listing: the query builder *)

Definition digit (c : ascii) : option Z :=
  let n := nat_of_ascii c in
  if ((48 <=? n) && (n <=? 57))%nat then Some (Z.of_nat (n - 48)) else None.

Fixpoint digits (s : string) (acc : option Z) : option Z :=
  match s with
  | EmptyString => acc
  | String c r =>
      match digit c with
      | Some d => digits r (Some (10 * default 0 acc + d))
      | None => acc
      end
  end.

(** [parseInt(s, 10)]; [None] is [NaN]. *)
Definition parseInt (s : string) : option Z :=
  match trimStart s with
  | String "-" r => Z.opp <$> digits r None
  | String "+" r => digits r None
  | r => digits r None
  end.

(** The request parameters of a list request, [req.query]. *)
Module Params.
Record t := mk {
  where_ : option string;
  sort : option string;
  select : option string;
  skip : option string;
  limit : option string;
  count : option string
}.
Definition empty : t := mk None None None None None None.
End Params.

Definition UserSchema_toJSON (kv : string * UserSchema.doc) : JSON :=
  JObj [("_id", JStr kv.1);
        ("name", JStr (UserSchema.name kv.2));
        ("email", JStr (UserSchema.email kv.2));
        ("pendingTasks", JArr (JStr <$> UserSchema.pendingTasks kv.2));
        ("dateCreated", JNum (UserSchema.dateCreated kv.2))].

Definition TaskSchema_toJSON (kv : string * TaskSchema.doc) : JSON :=
  JObj [("_id", JStr kv.1);
        ("name", JStr (TaskSchema.name kv.2));
        ("description", JStr (TaskSchema.description kv.2));
        ("deadline", JNum (TaskSchema.deadline kv.2));
        ("completed", JBool (TaskSchema.completed kv.2));
        ("assignedUser", JStr (TaskSchema.assignedUser kv.2));
        ("assignedUserName", JStr (TaskSchema.assignedUserName kv.2));
        ("dateCreated", JNum (TaskSchema.dateCreated kv.2))].

Definition documents (c : Coll) (s : Store) : list JSON :=
  match c with
  | Users => UserSchema_toJSON <$> map_to_list (users s)
  | Tasks => TaskSchema_toJSON <$> map_to_list (tasks s)
  end.

Definition get_documents (c : Coll) : M (list JSON) :=
  λ s, (Ok (documents c s), s).

Module Query.
Record t := mk {
  model : Coll;
  filter_ : JSON;
  sort_ : option JSON;
  select_ : option JSON;
  skip_ : option Z;
  limit_ : option Z
}.
Definition find (c : Coll) (f : JSON) : t := mk c f None None None None.
Definition sort (q : t) (s : JSON) : t :=
  mk (model q) (filter_ q) (Some s) (select_ q) (skip_ q) (limit_ q).
Definition select (q : t) (s : JSON) : t :=
  mk (model q) (filter_ q) (sort_ q) (Some s) (skip_ q) (limit_ q).
Definition skip (q : t) (n : Z) : t :=
  mk (model q) (filter_ q) (sort_ q) (select_ q) (Some n) (limit_ q).
Definition limit (q : t) (n : Z) : t :=
  mk (model q) (filter_ q) (sort_ q) (select_ q) (skip_ q) (Some n).
End Query.

Section Listing.
(** The parts of a list request that the store and the JSON parser
    decide: [JSON.parse] ([None] when it throws), whether a filter
    matches a document, the order a sort specification gives, and the
    projection a selection gives. *)
Variable JSON_parse : string → option JSON.
Variable matches : JSON → JSON → bool.
Variable sorted_by : JSON → list JSON → list JSON.
Variable project : JSON → JSON → JSON.

(** [(s, fb) => { try { return s ? JSON.parse(s) : fb; } catch { return fb; } }] *)
Definition parseJSON (s : option string) (fb : JSON) : JSON :=
  if truthy s then default fb (JSON_parse (default "" s)) else fb.

(** [parseInt(x, 10) || 0] *)
Definition parseInt_or_0 (s : option string) : Z :=
  match parseInt (default "" s) with
  | Some n => if truthy n then n else 0
  | None => 0
  end.

(** Both call sites pass a model as first argument, so the query
    starts as [model.find(parseJSON(q.where, {}))]. *)
Definition buildQuery (model : Coll) (q : Params.t) (isTasks : bool) : Query.t :=
  let query := Query.find model (parseJSON (Params.where_ q) (JObj [])) in
  let query := if truthy (Params.sort q)
               then Query.sort query (parseJSON (Params.sort q) (JObj []))
               else query in
  let query := if truthy (Params.select q)
               then Query.select query (parseJSON (Params.select q) (JObj []))
               else query in
  let query := if truthy (Params.skip q)
               then Query.skip query (parseInt_or_0 (Params.skip q))
               else query in
  if negb (bool_decide (Params.count q = Some "true")) then
    if truthy (Params.limit q)
    then Query.limit query (parseInt_or_0 (Params.limit q))
    else if isTasks then Query.limit query 100
    else query
  else query.

(** [query.exec()]: filter, order, skip, limit, project.  A limit of
    [0] is no limit and a negative limit is taken by absolute value,
    as the server does; a negative skip is refused by the server. *)
Definition exec (q : Query.t) : M (list JSON) :=
  _ ← log (Access (Query.model q));
  docs ← get_documents (Query.model q);
  let found := filter (λ d, matches (Query.filter_ q) d = true) docs in
  let ordered := match Query.sort_ q with
                 | Some o => sorted_by o found
                 | None => found
                 end in
  let n := default 0 (Query.skip_ q) in
  if (n <? 0)%Z then throw BadValue
  else
    let skipped := drop (Z.to_nat n) ordered in
    let limited := match Query.limit_ q with
                   | Some l => if (l =? 0)%Z then skipped
                               else take (Z.to_nat (Z.abs l)) skipped
                   | None => skipped
                   end in
    mret (match Query.select_ q with
          | Some p => project p <$> limited
          | None => limited
          end).

Definition countDocuments (c : Coll) (f : JSON) : M nat :=
  _ ← log (Access c);
  docs ← get_documents c;
  mret (length (filter (λ d, matches f d = true) docs)).

(** [GET /users] *)
Definition users_get (q : Params.t) : M Response :=
  try_catch
    (if bool_decide (Params.count q = Some "true") then
       n ← countDocuments Users (parseJSON (Params.where_ q) (JObj []));
       send 200 "OK" (DCount n)
     else
       users ← exec (buildQuery Users q false);
       send 200 "OK" (DList users))
    (λ e, send 400 "Bad request (users query)" (DError e)).

(** [GET /tasks] *)
Definition tasks_get (q : Params.t) : M Response :=
  try_catch
    (if bool_decide (Params.count q = Some "true") then
       n ← countDocuments Tasks (parseJSON (Params.where_ q) (JObj []));
       send 200 "OK" (DCount n)
     else
       tasks ← exec (buildQuery Tasks q true);
       send 200 "OK" (DList tasks))
    (λ e, send 400 "Bad request (tasks query)" (DError e)).
End Listing.


(** * Properties *)

(** ** A program logic for the monad *)

(** [wp m s Q]: running [m] from [s] ends, with a value or an
    exception, in a store that satisfies [Q]. *)
Definition wp {A} (m : M A) (s : Store) (Q : Res A → Store → Prop) : Prop :=
  Q (m s).1 (m s).2.

Definition status_of (r : Res Response) : option nat :=
  match r with Ok a => Some (status a) | Throw _ => None end.

Section wp_rules.
Context {A B : Type}.
Implicit Types (s : Store) (Q : Res B → Store → Prop).

Lemma wp_ret (a : B) s Q : Q (Ok a) s → wp (mret a) s Q.
Proof. done. Qed.

Lemma wp_throw e s Q : Q (Throw e) s → wp (throw e) s Q.
Proof. done. Qed.

Lemma wp_bind (m : M A) (f : A → M B) s Q :
  wp m s (λ r s1, match r with
                  | Ok a => wp (f a) s1 Q
                  | Throw e => Q (Throw e) s1
                  end) →
  wp (m ≫= f) s Q.
Proof. unfold wp, mbind, M_bind. by destruct (m s) as [[a|e] s1]. Qed.

Lemma wp_try_catch (m : M B) (h : Exn → M B) s Q :
  wp m s (λ r s1, match r with
                  | Ok a => Q (Ok a) s1
                  | Throw e => wp (h e) s1 Q
                  end) →
  wp (try_catch m h) s Q.
Proof. unfold wp, try_catch. by destruct (m s) as [[a|e] s1]. Qed.

Lemma wp_mono (m : M B) s (Q Q' : Res B → Store → Prop) :
  wp m s Q → (∀ r s1, Q r s1 → Q' r s1) → wp m s Q'.
Proof. unfold wp. auto. Qed.

Lemma wp_casting ids (m : M B) s Q :
  (if forallb isObjectId ids then wp m s Q else Q (Throw CastError) s) →
  wp (casting ids m) s Q.
Proof. unfold casting. by destruct (forallb isObjectId ids). Qed.

Lemma wp_casting_one id (m : M B) s Q :
  (if isObjectId id then wp m s Q else Q (Throw CastError) s) →
  wp (casting [id] m) s Q.
Proof. unfold casting. cbn. rewrite andb_true_r. by destruct (isObjectId id). Qed.
End wp_rules.

Lemma wp_send code msg d s (Q : Res Response → Store → Prop) :
  Q (Ok (mkResponse code msg d)) s → wp (send code msg d) s Q.
Proof. done. Qed.

Lemma wp_when (b : bool) (m : M unit) s (Q : Res unit → Store → Prop) :
  (if b then wp m s Q else Q (Ok tt) s) → wp (when b m) s Q.
Proof. by destruct b. Qed.

(** A store that differs from [s] in its documents and has seen the
    events [evs] since. *)
Definition after (s : Store) (us : gmap string UserSchema.doc)
    (ts : gmap string TaskSchema.doc) (evs : list Event) : Store :=
  mkStore us ts (trace s ++ evs).

Lemma after_after s us ts evs us' ts' evs' :
  after (after s us ts evs) us' ts' evs' = after s us' ts' (evs ++ evs').
Proof. unfold after. simpl. by rewrite app_assoc. Qed.

Lemma after_nil s : after s (users s) (tasks s) [] = s.
Proof. unfold after. rewrite app_nil_r. by destruct s. Qed.

Lemma truthy_string_true (s : string) : truthy s = true ↔ s ≠ "".
Proof. destruct s; unfold truthy, string_truthy; split; intros; congruence. Qed.


Lemma isObjectId_truthy (id : string) : isObjectId id = true → truthy id = true.
Proof. by destruct id. Qed.

Lemma isObjectId_nonempty (id : string) : isObjectId id = true → id ≠ "".
Proof. by destruct id. Qed.

(** ** What each store call does *)

Ltac unfold_monad :=
  unfold wp, try_catch, send, when, throw, log, logs,
    get_users, get_tasks, put_users, put_tasks,
    mbind, M_bind, mret, M_ret, after in *.

Section store_calls.
Context {A : Type}.
Implicit Types (s : Store) (Q : Res A → Store → Prop).

Lemma wp_User_findById id s (Q : Res (option UserSchema.doc) → Store → Prop) :
  (if isObjectId id
   then Q (Ok (users s !! id)) (after s (users s) (tasks s) [Access Users])
   else Q (Throw CastError) s) →
  wp (User.findById id) s Q.
Proof. intros H. apply wp_casting_one. by destruct (isObjectId id). Qed.

Lemma wp_Task_findById id s (Q : Res (option TaskSchema.doc) → Store → Prop) :
  (if isObjectId id
   then Q (Ok (tasks s !! id)) (after s (users s) (tasks s) [Access Tasks])
   else Q (Throw CastError) s) →
  wp (Task.findById id) s Q.
Proof. intros H. apply wp_casting_one. by destruct (isObjectId id). Qed.

Lemma wp_User_findByIdAndUpdate id n e p s
    (Q : Res (option UserSchema.doc) → Store → Prop) :
  (if isObjectId id then
     match users s !! id with
     | None => Q (Ok None) (after s (users s) (tasks s) [Access Users])
     | Some u =>
         if User.email_taken (users s) id (toLowerCase (trim e))
         then Q (Throw DuplicateKey) (after s (users s) (tasks s) [Access Users])
         else
           let u' := UserSchema.mk n (toLowerCase (trim e)) p (UserSchema.dateCreated u) in
           Q (Ok (Some u'))
             (after s (<[id := u']> (users s)) (tasks s) [Access Users; Written Users id])
     end
   else Q (Throw CastError) s) →
  wp (User.findByIdAndUpdate id n e p) s Q.
Proof.
  intros H. apply wp_casting_one. destruct (isObjectId id); [|done].
  unfold_monad. simpl.
  destruct (users s !! id); [|done].
  destruct (User.email_taken _ _ _); [done|]. simpl. by rewrite <- app_assoc.
Qed.

Lemma wp_User_findByIdAndDelete id s
    (Q : Res (option UserSchema.doc) → Store → Prop) :
  (if isObjectId id then
     match users s !! id with
     | None => Q (Ok None) (after s (users s) (tasks s) [Access Users])
     | Some u =>
         Q (Ok (Some u))
           (after s (delete id (users s)) (tasks s) [Access Users; Written Users id])
     end
   else Q (Throw CastError) s) →
  wp (User.findByIdAndDelete id) s Q.
Proof.
  intros H. apply wp_casting_one. destruct (isObjectId id); [|done].
  unfold_monad. simpl.
  destruct (users s !! id); [|done]. simpl. by rewrite <- app_assoc.
Qed.

Lemma wp_Task_findByIdAndUpdate id b s
    (Q : Res (option TaskSchema.doc) → Store → Prop) :
  (if isObjectId id && Task.dates_cast b then
     match tasks s !! id with
     | None => Q (Ok None) (after s (users s) (tasks s) [Access Tasks])
     | Some t =>
         Q (Ok (Some (Task.set_fields b t)))
           (after s (users s) (<[id := Task.set_fields b t]> (tasks s))
                  [Access Tasks; Written Tasks id])
     end
   else Q (Throw CastError) s) →
  wp (Task.findByIdAndUpdate id b) s Q.
Proof.
  intros H. apply wp_casting_one. destruct (isObjectId id); [|done].
  cbn [andb] in H. destruct (Task.dates_cast b); [|done].
  unfold_monad. simpl.
  destruct (tasks s !! id); [|done]. simpl. by rewrite <- app_assoc.
Qed.

Lemma wp_Task_findByIdAndDelete id s
    (Q : Res (option TaskSchema.doc) → Store → Prop) :
  (if isObjectId id then
     match tasks s !! id with
     | None => Q (Ok None) (after s (users s) (tasks s) [Access Tasks])
     | Some t =>
         Q (Ok (Some t))
           (after s (users s) (delete id (tasks s)) [Access Tasks; Written Tasks id])
     end
   else Q (Throw CastError) s) →
  wp (Task.findByIdAndDelete id) s Q.
Proof.
  intros H. apply wp_casting_one. destruct (isObjectId id); [|done].
  unfold_monad. simpl.
  destruct (tasks s !! id); [|done]. simpl. by rewrite <- app_assoc.
Qed.

Lemma wp_Task_save id d s (Q : Res unit → Store → Prop) :
  match d with
  | None => Q (Throw ValidationError) s
  | Some t =>
      match tasks s !! id with
      | Some _ => Q (Throw DuplicateKey) (after s (users s) (tasks s) [Access Tasks])
      | None => Q (Ok tt) (after s (users s) (<[id := t]> (tasks s))
                                  [Access Tasks; Written Tasks id])
      end
  end →
  wp (Task.save id d) s Q.
Proof.
  unfold Task.save. unfold_monad. simpl. destruct d; [|done].
  case_bool_decide as E; simpl in *.
  - destruct E as [? E]. by rewrite E.
  - apply eq_None_not_Some in E. rewrite E. by rewrite <- app_assoc.
Qed.

Lemma wp_User_save id d s (Q : Res unit → Store → Prop) :
  match d with
  | None => Q (Throw ValidationError) s
  | Some u =>
      if bool_decide (is_Some (users s !! id))
         || User.email_taken (users s) id (UserSchema.email u)
      then Q (Throw DuplicateKey) (after s (users s) (tasks s) [Access Users])
      else Q (Ok tt) (after s (<[id := u]> (users s)) (tasks s)
                            [Access Users; Written Users id])
  end →
  wp (User.save id d) s Q.
Proof.
  unfold User.save. unfold_monad. simpl. destruct d; [|done].
  destruct (_ || _); [done|]. simpl. by rewrite <- app_assoc.
Qed.

Lemma wp_User_findOne_email e s (Q : Res (option (string * UserSchema.doc)) → Store → Prop) :
  Q (Ok (head (filter (λ kv, UserSchema.email kv.2 = e) (map_to_list (users s)))))
    (after s (users s) (tasks s) [Access Users]) →
  wp (User.findOne_email e) s Q.
Proof. done. Qed.

Lemma wp_Task_updateMany f u n s (Q : Res unit → Store → Prop) :
  (if forallb isObjectId (default [] (Task.id_in f)) then
     Q (Ok tt) (after s (users s) (Task.set_many (Task.matches f) u n (tasks s))
                  (Access Tasks :: (Written Tasks <$> Task.matched (Task.matches f) (tasks s))))
   else Q (Throw CastError) s) →
  wp (Task.updateMany f u n) s Q.
Proof.
  intros H. apply wp_casting. destruct (forallb _ _); [|done].
  unfold_monad. simpl. by rewrite <- app_assoc.
Qed.
End store_calls.

(** The helpers, with the trace left open. *)
Definition pushed (userId taskId : string) (us : gmap string UserSchema.doc) :=
  if truthy userId && truthy taskId then User.push userId taskId us else us.
Definition pulled (userId taskId : string) (us : gmap string UserSchema.doc) :=
  if truthy userId && truthy taskId then User.pull userId taskId us else us.
Definition resolved (us : gmap string UserSchema.doc) (userId : string) : string :=
  if truthy userId
  then match us !! userId with Some u => UserSchema.name u | None => "unassigned" end
  else "unassigned".

(** A helper reaches the store with an identifier the cast refuses. *)
Definition miscast (userId taskId : string) : bool :=
  truthy userId && truthy taskId && negb (isObjectId userId).

Lemma guard_false (a b : string) :
  truthy a && truthy b = false → negb (truthy a) || negb (truthy b) = true.
Proof. destruct (truthy a), (truthy b); done. Qed.

Lemma wp_addPendingToUser userId taskId s (Q : Res unit → Store → Prop) :
  (if miscast userId taskId then Q (Throw CastError) s
   else ∀ evs, Q (Ok tt) (after s (pushed userId taskId (users s)) (tasks s) evs)) →
  wp (addPendingToUser userId taskId) s Q.
Proof.
  intros H. unfold addPendingToUser, pushed, miscast in *.
  destruct (truthy userId && truthy taskId) eqn:E.
  - apply andb_true_iff in E as [-> ->]. simpl. cbn [andb] in H.
    apply wp_casting_one. destruct (isObjectId userId); [|done]. cbn [negb] in H.
    unfold_monad. simpl.
    destruct (users s !! userId) eqn:Eu; simpl; [|apply H].
    case_bool_decide; simpl; [apply H|]. rewrite <- app_assoc. apply H.
  - rewrite guard_false by done. cbn [andb] in H. specialize (H []).
    by rewrite after_nil in H.
Qed.

Lemma wp_removePendingFromUser userId taskId s (Q : Res unit → Store → Prop) :
  (if miscast userId taskId then Q (Throw CastError) s
   else ∀ evs, Q (Ok tt) (after s (pulled userId taskId (users s)) (tasks s) evs)) →
  wp (removePendingFromUser userId taskId) s Q.
Proof.
  intros H. unfold removePendingFromUser, pulled, miscast in *.
  destruct (truthy userId && truthy taskId) eqn:E.
  - apply andb_true_iff in E as [-> ->]. simpl. cbn [andb] in H.
    apply wp_casting_one. destruct (isObjectId userId); [|done]. cbn [negb] in H.
    unfold_monad. simpl.
    destruct (users s !! userId) eqn:Eu; simpl; [|apply H].
    rewrite <- app_assoc. apply H.
  - rewrite guard_false by done. cbn [andb] in H. specialize (H []).
    by rewrite after_nil in H.
Qed.

Lemma wp_resolveUserName userId s (Q : Res string → Store → Prop) :
  (if truthy userId && negb (isObjectId userId) then Q (Throw CastError) s
   else Q (Ok (resolved (users s) userId))
          (after s (users s) (tasks s) (if truthy userId then [Access Users] else []))) →
  wp (resolveUserName userId) s Q.
Proof.
  unfold resolveUserName, resolved. destruct (truthy userId); simpl.
  - intros H. apply wp_bind, wp_User_findById. by destruct (isObjectId userId).
  - by rewrite after_nil.
Qed.

Ltac wp_step :=
  lazymatch goal with
  | |- wp (try_catch _ _) _ _ => apply wp_try_catch
  | |- wp (mbind _ _) _ _ => apply wp_bind
  | |- wp (send _ _ _) _ _ => apply wp_send
  | |- wp (mret _) _ _ => apply wp_ret
  | |- wp (throw _) _ _ => apply wp_throw
  | |- wp (when _ _) _ _ => apply wp_when
  | |- wp (User.findById _) _ _ => apply wp_User_findById
  | |- wp (Task.findById _) _ _ => apply wp_Task_findById
  | |- wp (User.findByIdAndUpdate _ _ _ _) _ _ => apply wp_User_findByIdAndUpdate
  | |- wp (User.findByIdAndDelete _) _ _ => apply wp_User_findByIdAndDelete
  | |- wp (User.findOne_email _) _ _ => apply wp_User_findOne_email
  | |- wp (User.save _ _) _ _ => apply wp_User_save
  | |- wp (Task.findByIdAndUpdate _ _) _ _ => apply wp_Task_findByIdAndUpdate
  | |- wp (Task.findByIdAndDelete _) _ _ => apply wp_Task_findByIdAndDelete
  | |- wp (Task.save _ _) _ _ => apply wp_Task_save
  | |- wp (Task.updateMany _ _ _) _ _ => apply wp_Task_updateMany
  | |- wp (resolveUserName _) _ _ => apply wp_resolveUserName
  | |- wp (addPendingToUser _ _) _ _ => apply wp_addPendingToUser
  | |- wp (removePendingFromUser _ _) _ _ => apply wp_removePendingFromUser
  end; cbn beta iota zeta; cbn [users tasks trace after].

Ltac wp_steps := repeat wp_step.

(** ** What each handler does to the documents *)

(** The pending lists after [PUT /tasks/:id] has reconciled them. *)
Definition tasks_put_users (id : string) (prev updated : TaskSchema.doc)
    (us : gmap string UserSchema.doc) : gmap string UserSchema.doc :=
  let prevUser := TaskSchema.assignedUser prev in
  let nextUser := TaskSchema.assignedUser updated in
  let us1 := if truthy prevUser && negb (bool_decide (prevUser = nextUser))
             then pulled prevUser id us else us in
  let us2 := if truthy nextUser && negb (TaskSchema.completed updated)
             then pushed nextUser id us1 else us1 in
  if TaskSchema.completed updated && truthy nextUser
  then pulled nextUser id us2 else us2.

(** One of the calls that reconcile the pending lists is refused by
    the cast: the previous or the next assignee is not an ObjectId. *)
Definition tasks_put_miscast (id : string) (prev updated : TaskSchema.doc) : bool :=
  let prevUser := TaskSchema.assignedUser prev in
  let nextUser := TaskSchema.assignedUser updated in
  (truthy prevUser && negb (bool_decide (prevUser = nextUser)) && miscast prevUser id)
  || (truthy nextUser && miscast nextUser id).

Definition tasks_put_updated (body : TaskBody.t) (prev : TaskSchema.doc)
    (us : gmap string UserSchema.doc) : TaskSchema.doc :=
  Task.set_fields
    (TaskBody.with_assignedUserName body
       (resolved us (default "" (TaskBody.assignedUser body)))) prev.

Definition missing_user_fields : Response :=
  mkResponse 400 "Missing required fields (name, email)" DNull.
Definition missing_task_fields : Response :=
  mkResponse 400 "Missing required fields (name, deadline)" DNull.

(** The assignee a task body names is refused by the cast. *)
Definition assignee_miscast (body : TaskBody.t) : bool :=
  let a := default "" (TaskBody.assignedUser body) in
  truthy a && negb (isObjectId a).

Lemma tasks_put_effect id body s :
  wp (tasks_put id body) s (λ r s',
    if truthy (TaskBody.name body) && truthy (TaskBody.deadline body) then
      if isObjectId id then
        match tasks s !! id with
        | Some prev =>
            if assignee_miscast body || negb (Task.dates_cast body) then
              status_of r = Some 500%nat ∧ users s' = users s ∧ tasks s' = tasks s
            else
              let updated := tasks_put_updated body prev (users s) in
              tasks s' = <[id := updated]> (tasks s) ∧
              if tasks_put_miscast id prev updated then status_of r = Some 500%nat
              else
                r = Ok (mkResponse 200 "Task updated" (DTask id updated)) ∧
                users s' = tasks_put_users id prev updated (users s)
        | None =>
            r = Ok (mkResponse 404 "Task not found" DNull) ∧
            users s' = users s ∧ tasks s' = tasks s
        end
      else status_of r = Some 500%nat ∧ users s' = users s ∧ tasks s' = tasks s
    else r = Ok missing_task_fields ∧ s' = s).
Proof.
  unfold tasks_put. wp_step.
  destruct (truthy (TaskBody.name body)), (truthy (TaskBody.deadline body));
    cbn [negb orb andb]; try by wp_steps.
  wp_steps. destruct (isObjectId id) eqn:Eid; [|by wp_steps].
  destruct (tasks s !! id) as [prev|] eqn:Ep; [|by wp_steps].
  wp_steps. unfold assignee_miscast. cbn zeta.
  destruct (truthy _ && negb _) eqn:Ea; cbn [orb]; [by wp_steps|].
  wp_steps. rewrite Eid.
  change (Task.dates_cast (TaskBody.with_assignedUserName body _))
    with (Task.dates_cast body).
  destruct (Task.dates_cast body); cbn [negb andb]; [|by wp_steps].
  rewrite Ep. wp_steps.
  fold (tasks_put_updated body prev (users s)).
  set (updated := tasks_put_updated body prev (users s)).
  unfold tasks_put_users, tasks_put_miscast. cbn zeta.
  repeat first
    [ wp_step
    | intros ?
    | lazymatch goal with |- if ?c then _ else _ => destruct c eqn:? end ].
  all: split; [done|].
  all: destruct (truthy (TaskSchema.assignedUser updated)),
         (TaskSchema.completed updated); cbn [andb negb orb] in *; try discriminate.
  all: repeat match goal with H : _ = _ |- _ => rewrite H; clear H end.
  all: done.
Qed.



Lemma Task_new_valid (body : TaskBody.t) (now : Z) :
  truthy (TaskBody.name body) && truthy (TaskBody.deadline body) = true →
  Task.dates_cast body = true →
  ∃ n d, TaskBody.name body = Some n ∧ TaskBody.deadline body = Some d ∧
    Task.new body now =
      Some (TaskSchema.mk n (default "" (TaskBody.description body)) d
              (default false (TaskBody.completed body))
              (default "" (TaskBody.assignedUser body))
              (default "unassigned" (TaskBody.assignedUserName body))
              (default now (TaskBody.dateCreated body))).
Proof.
  unfold Task.new. intros Hg ->.
  destruct (TaskBody.name body) as [n|], (TaskBody.deadline body) as [d|];
    try done.
  - apply andb_true_iff in Hg as [Hn _]. exists n, d. cbn in Hn. by rewrite Hn.
  - by rewrite andb_false_r in Hg.
Qed.

Lemma Task_new_invalid (body : TaskBody.t) (now : Z) :
  Task.dates_cast body = false → Task.new body now = None.
Proof.
  unfold Task.new. intros ->.
  destruct (TaskBody.name body), (TaskBody.deadline body); try done.
  by rewrite andb_false_r.
Qed.

(** The task that [POST /tasks] stores. *)
Definition tasks_post_created (body : TaskBody.t) (now : Z)
    (us : gmap string UserSchema.doc) : option TaskSchema.doc :=
  Task.new (TaskBody.with_assignedUserName body
              (resolved us (default "" (TaskBody.assignedUser body)))) now.

Lemma tasks_post_effect oid now body s :
  wp (tasks_post oid now body) s (λ r s',
    if truthy (TaskBody.name body) && truthy (TaskBody.deadline body) then
      if assignee_miscast body then
        status_of r = Some 500%nat ∧ users s' = users s ∧ tasks s' = tasks s
      else
        match tasks_post_created body now (users s), tasks s !! oid with
        | Some t, None =>
            r = Ok (mkResponse 201 "Task created" (DTask oid t)) ∧
            tasks s' = <[oid := t]> (tasks s) ∧
            users s' = if truthy (TaskBody.assignedUser body)
                          && negb (truthy (TaskBody.completed body))
                       then pushed (default "" (TaskBody.assignedUser body)) oid (users s)
                       else users s
        | _, _ =>
            status_of r = Some 500%nat ∧ users s' = users s ∧ tasks s' = tasks s
        end
    else r = Ok missing_task_fields ∧ s' = s).
Proof.
  unfold tasks_post. wp_step.
  destruct (truthy (TaskBody.name body)), (truthy (TaskBody.deadline body));
    cbn [negb orb andb]; try by wp_steps.
  wp_steps. unfold assignee_miscast. cbn zeta.
  destruct (truthy _ && negb _) eqn:Ea; [by wp_steps|].
  wp_steps. fold (tasks_post_created body now (users s)).
  destruct (tasks_post_created body now (users s)) as [t|]; [|by wp_steps].
  destruct (tasks s !! oid); [by wp_steps|].
  wp_steps.
  destruct (truthy (TaskBody.assignedUser body) && negb (truthy (TaskBody.completed body)));
    [|by wp_steps].
  wp_steps. unfold miscast. revert Ea.
  destruct (truthy (default "" (TaskBody.assignedUser body))),
    (isObjectId (default "" (TaskBody.assignedUser body))), (truthy oid);
    cbn [andb negb]; intros Ea; try discriminate Ea; intros; wp_steps; done.
Qed.

Lemma tasks_delete_effect id s :
  wp (tasks_delete id) s (λ r s',
    if isObjectId id then
      match tasks s !! id with
      | Some t =>
          tasks s' = delete id (tasks s) ∧
          if miscast (TaskSchema.assignedUser t) id then
            status_of r = Some 500%nat ∧ users s' = users s
          else
            r = Ok (mkResponse 200 "Task deleted" DNull) ∧
            users s' = if truthy (TaskSchema.assignedUser t)
                       then pulled (TaskSchema.assignedUser t) id (users s)
                       else users s
      | None =>
          r = Ok (mkResponse 404 "Task not found" DNull) ∧
          users s' = users s ∧ tasks s' = tasks s
      end
    else status_of r = Some 500%nat ∧ users s' = users s ∧ tasks s' = tasks s).
Proof.
  unfold tasks_delete. wp_steps.
  destruct (isObjectId id); [|by wp_steps].
  destruct (tasks s !! id) as [t|]; [|by wp_steps].
  repeat first
    [ wp_step
    | intros ?
    | lazymatch goal with |- if ?c then _ else _ => destruct c eqn:? end ].
  all: repeat match goal with H : miscast _ _ = _ |- _ => rewrite H; clear H end.
  all: unfold miscast.
  all: repeat match goal with H : _ = _ |- _ => rewrite H; clear H end.
  all: done.
Qed.

(** The filter of the bulk update of [DELETE /users/:id]. *)
Definition owned_by (id : string) : string → TaskSchema.doc → bool :=
  Task.matches (Task.mkFilter None (Some id)).

Lemma owned_by_spec id i t :
  owned_by id i t = bool_decide (TaskSchema.assignedUser t = id).
Proof. done. Qed.

Lemma users_delete_effect id s :
  wp (users_delete id) s (λ r s',
    if isObjectId id then
      match users s !! id with
      | Some _ =>
          r = Ok (mkResponse 200 "User deleted (tasks unassigned)" DNull) ∧
          users s' = delete id (users s) ∧
          tasks s' = Task.set_many (owned_by id) "" "unassigned" (tasks s)
      | None =>
          r = Ok (mkResponse 404 "User not found" DNull) ∧
          users s' = users s ∧ tasks s' = tasks s
      end
    else status_of r = Some 500%nat ∧ users s' = users s ∧ tasks s' = tasks s).
Proof.
  unfold users_delete. wp_steps.
  destruct (isObjectId id); [|by wp_steps].
  destruct (users s !! id); by wp_steps.
Qed.

(** The user that [PUT /users/:id] stores, and the two bulk updates
    that follow when the payload carries [pendingTasks]. *)
Definition users_put_updated (body : UserBody.t) (prev : UserSchema.doc) : UserSchema.doc :=
  UserSchema.mk (default "" (UserBody.name body))
    (toLowerCase (trim (trim (toLowerCase (default "" (UserBody.email body))))))
    (default (UserSchema.pendingTasks prev) (UserBody.pendingTasks body))
    (UserSchema.dateCreated prev).

Definition unassigns (id : string) (prev next : list string)
  : string → TaskSchema.doc → bool :=
  Task.matches (Task.mkFilter (Some (removed prev next)) (Some id)).

Definition assigns (prev next : list string) : string → TaskSchema.doc → bool :=
  Task.matches (Task.mkFilter (Some (added prev next)) None).

Lemma unassigns_spec id prev next i t :
  unassigns id prev next i t =
    bool_decide (i ∈ removed prev next) && bool_decide (TaskSchema.assignedUser t = id).
Proof. done. Qed.

Lemma assigns_spec prev next i t :
  assigns prev next i t = bool_decide (i ∈ added prev next).
Proof. unfold assigns, Task.matches. cbn. by rewrite andb_true_r. Qed.

Lemma users_put_effect id body s :
  wp (users_put id body) s (λ r s',
    if truthy (UserBody.name body) && truthy (UserBody.email body) then
      if isObjectId id then
        match users s !! id with
        | Some prev =>
            let updated := users_put_updated body prev in
            if User.email_taken (users s) id (UserSchema.email updated) then
              status_of r = Some 500%nat ∧ users s' = users s ∧ tasks s' = tasks s
            else
              users s' = <[id := updated]> (users s) ∧
              match UserBody.pendingTasks body with
              | Some next =>
                  let p := UserSchema.pendingTasks prev in
                  let ts1 := Task.set_many (unassigns id p next) "" "unassigned" (tasks s) in
                  if negb (forallb isObjectId (removed p next)) then
                    status_of r = Some 500%nat ∧ tasks s' = tasks s
                  else if negb (forallb isObjectId (added p next)) then
                    status_of r = Some 500%nat ∧ tasks s' = ts1
                  else
                    r = Ok (mkResponse 200 "User updated" (DUser id updated)) ∧
                    tasks s' = Task.set_many (assigns p next) id (UserSchema.name updated) ts1 ∧
                    trace s' = (trace s ++
                      [Access Users; Access Users; Written Users id] ++
                      (Access Tasks ::
                         (Written Tasks <$> Task.matched (unassigns id p next) (tasks s))) ++
                      (Access Tasks :: (Written Tasks <$> Task.matched (assigns p next) ts1)))%list
              | None =>
                  r = Ok (mkResponse 200 "User updated" (DUser id updated)) ∧
                  tasks s' = tasks s ∧
                  trace s' = (trace s ++ [Access Users; Access Users; Written Users id])%list
              end
        | None =>
            r = Ok (mkResponse 404 "User not found" DNull) ∧
            users s' = users s ∧ tasks s' = tasks s
        end
      else status_of r = Some 500%nat ∧ users s' = users s ∧ tasks s' = tasks s
    else r = Ok missing_user_fields ∧ s' = s).
Proof.
  unfold users_put. wp_step.
  destruct (truthy (UserBody.name body)), (truthy (UserBody.email body));
    cbn [negb orb andb]; try by wp_steps.
  wp_steps. destruct (isObjectId id) eqn:Eid; [|by wp_steps].
  destruct (users s !! id) as [prev|] eqn:Ep; [|by wp_steps].
  wp_steps. rewrite Eid, Ep.
  replace (match UserBody.pendingTasks body with
           | Some p => p
           | None => UserSchema.pendingTasks prev
           end)
    with (default (UserSchema.pendingTasks prev) (UserBody.pendingTasks body))
    by (by destruct (UserBody.pendingTasks body)).
  fold (users_put_updated body prev).
  change (toLowerCase _) with (UserSchema.email (users_put_updated body prev)).
  destruct (User.email_taken _ _ _); [by wp_steps|].
  wp_steps.
  destruct (UserBody.pendingTasks body) as [next|] eqn:En; wp_steps.
  - cbn [Task.id_in default from_option Datatypes.id].
    fold (unassigns id (UserSchema.pendingTasks prev) next).
    fold (assigns (UserSchema.pendingTasks prev) next).
    destruct (forallb isObjectId (removed _ _)); cbn [negb]; [|by wp_steps].
    wp_steps. cbn [Task.id_in default from_option Datatypes.id].
    destruct (forallb isObjectId (added _ _)); cbn [negb]; [|by wp_steps].
    wp_steps. split_and!; try done. by rewrite <- !app_assoc.
  - split_and!; try done. by rewrite <- !app_assoc.
Qed.

(** * The claims *)

(** Identifiers of the documents in the examples below, in the form
    the store issues them, and two strings that are not of that form. *)
Definition u1 : string := "65a000000000000000000001".
Definition u2 : string := "65a000000000000000000002".
Definition u9 : string := "65a000000000000000000009".
Definition t1 : string := "65b000000000000000000001".
Definition t2 : string := "65b000000000000000000002".
Definition t3 : string := "65b000000000000000000003".
Definition t4 : string := "65b000000000000000000004".
Definition t5 : string := "65b000000000000000000005".
Definition ghost : string := "ghost".
Definition junk : string := "junk".

(** ** The name resolver *)


Definition alice : UserSchema.doc := UserSchema.mk "Alice" "a@x.com" [] 5.
Definition only_alice : Store := mkStore {[u1 := alice]} ∅ [].




(** ** Validation comes first *)

(** C10. When a required field is missing (or falsy) in the payload,
    each of the four writing handlers answers with the validation error
    and the store, trace included, is exactly as before: nothing was read
    and nothing was written.  The identifier of an update plays no role,
    so an update of a document that does not exist answers the same. *)
Theorem validation_before_store_access
    (oid id : string) (now : Z) (ub : UserBody.t) (tb : TaskBody.t) (s : Store) :
  (truthy (UserBody.name ub) = false ∨ truthy (UserBody.email ub) = false →
     users_post oid now ub s = (Ok missing_user_fields, s) ∧
     users_put id ub s = (Ok missing_user_fields, s)) ∧
  (truthy (TaskBody.name tb) = false ∨ truthy (TaskBody.deadline tb) = false →
     tasks_post oid now tb s = (Ok missing_task_fields, s) ∧
     tasks_put id tb s = (Ok missing_task_fields, s)).
Proof.
  split; intros H.
  - assert (negb (truthy (UserBody.name ub)) || negb (truthy (UserBody.email ub)) = true)
      as Hg by (destruct H as [-> | ->]; [done | by rewrite orb_true_r]).
    unfold users_post, users_put, try_catch. cbn zeta. by rewrite Hg.
  - assert (negb (truthy (TaskBody.name tb)) || negb (truthy (TaskBody.deadline tb)) = true)
      as Hg by (destruct H as [-> | ->]; [done | by rewrite orb_true_r]).
    unfold tasks_post, tasks_put, try_catch. cbn zeta. by rewrite Hg.
Qed.

Lemma validation_before_store_access_witness :
  (users_post "u9" 1 (UserBody.mk (Some "Bob") None None None) only_alice
     = (Ok missing_user_fields, only_alice) ∧
   users_put "nobody" (UserBody.mk (Some "Bob") None None None) only_alice
     = (Ok missing_user_fields, only_alice)) ∧
  (tasks_post "t9" 1 (TaskBody.mk None None (Some 7) None None None None) only_alice
     = (Ok missing_task_fields, only_alice) ∧
   tasks_put "nothing" (TaskBody.mk None None (Some 7) None None None None) only_alice
     = (Ok missing_task_fields, only_alice)).
Proof.
  split.
  - apply (validation_before_store_access "u9" "nobody" 1
             (UserBody.mk (Some "Bob") None None None) TaskBody.empty only_alice).
    right. reflexivity.
  - apply (validation_before_store_access "t9" "nothing" 1
             UserBody.empty (TaskBody.mk None None (Some 7) None None None None) only_alice).
    left. reflexivity.
Defined.

(** ** Creating a task for a user that does not exist *)



Definition task_due_too_late : TaskBody.t :=
  TaskBody.mk (Some "T1") None (Some 10000000000000000) None (Some u9) None None.

(** A deadline beyond the range of [Date] fails the validation of
    [save]: the answer is 500 again and no task is stored. *)
Example tasks_post_out_of_range_deadline :
  truthy (TaskBody.deadline task_due_too_late) = true ∧
  status_of (tasks_post t1 9 task_due_too_late only_alice).1 = Some 500%nat ∧
  tasks (tasks_post t1 9 task_due_too_late only_alice).2 = tasks only_alice.
Proof. vm_compute. done. Qed.



(** ** Pending lists under push and pull *)

Lemma pull_lookup (a t i : string) (us : gmap string UserSchema.doc) :
  User.pull a t us !! i =
    (λ u, if bool_decide (i = a)
          then User.set_pendingTasks u (User.without t (UserSchema.pendingTasks u))
          else u) <$> us !! i.
Proof.
  unfold User.pull. destruct (us !! a) as [u|] eqn:E.
  - rewrite lookup_insert. destruct (decide (a = i)); subst.
    + by rewrite E, bool_decide_eq_true_2.
    + rewrite bool_decide_eq_false_2 by done. by destruct (us !! i).
  - case_bool_decide; subst; [by rewrite E | by destruct (us !! i)].
Qed.

Lemma push_lookup (a t i : string) (us : gmap string UserSchema.doc) :
  User.push a t us !! i =
    (λ u, if bool_decide (i = a) && negb (bool_decide (t ∈ UserSchema.pendingTasks u))
          then User.set_pendingTasks u (UserSchema.pendingTasks u ++ [t])
          else u) <$> us !! i.
Proof.
  unfold User.push. destruct (us !! a) as [u|] eqn:E.
  - destruct (bool_decide (t ∈ UserSchema.pendingTasks u)) eqn:Et.
    + destruct (decide (i = a)) as [Heq|]; [subst i|].
      * rewrite E. cbn. by rewrite Et, andb_false_r.
      * rewrite bool_decide_eq_false_2 by done. by destruct (us !! i).
    + rewrite lookup_insert. destruct (decide (a = i)); subst.
      * rewrite E. cbn. by rewrite Et, bool_decide_eq_true_2.
      * rewrite bool_decide_eq_false_2 by done. by destruct (us !! i).
  - case_bool_decide; subst; [by rewrite E | by destruct (us !! i)].
Qed.

(** ** Completing a task that stays with its user *)

Definition alice_with_t1 : Store :=
  mkStore {[u1 := UserSchema.mk "Alice" "a@x.com" [t1] 5]}
          {[t1 := TaskSchema.mk "T1" "" 7 false u1 "Alice" 9]} [].

Definition complete_t1_due_too_late : TaskBody.t :=
  TaskBody.mk (Some "T1") None (Some 10000000000000000) (Some true) (Some u1) None None.

(** C4 (counterexample).  The task [t1] is assigned to Alice and is in
    her list.  The payload keeps Alice, sets [completed] to true and
    carries a deadline beyond the range of [Date].  The cast of the
    update document raises, the answer is 500, and nothing is written:
    the task is not completed and Alice's list still names it. *)
Lemma tasks_put_out_of_range_deadline :
  truthy (TaskBody.name complete_t1_due_too_late) = true ∧
  truthy (TaskBody.deadline complete_t1_due_too_late) = true ∧
  status_of (tasks_put t1 complete_t1_due_too_late alice_with_t1).1 = Some 500%nat ∧
  TaskSchema.completed <$>
    tasks (tasks_put t1 complete_t1_due_too_late alice_with_t1).2 !! t1 = Some false ∧
  UserSchema.pendingTasks <$>
    users (tasks_put t1 complete_t1_due_too_late alice_with_t1).2 !! u1 = Some [t1].
Proof. vm_compute. done. Qed.

(** C4 (amended).  [PUT /tasks/:id] on a task assigned to an existing
    user, both under identifiers of the form the store issues, with a
    payload that keeps that user, sets [completed] to true and carries
    dates within the range of [Date]: the answer is 200, the task is
    still assigned to the user and is completed, and the user's
    [pendingTasks] does not contain the task identifier any more. *)
Theorem tasks_put_completed_not_pending
    (id u : string) (body : TaskBody.t) (s : Store)
    (prev : TaskSchema.doc) (usr : UserSchema.doc) :
  isObjectId id = true → isObjectId u = true →
  truthy (TaskBody.name body) = true →
  truthy (TaskBody.deadline body) = true →
  Task.dates_cast body = true →
  tasks s !! id = Some prev →
  TaskSchema.assignedUser prev = u →
  users s !! u = Some usr →
  TaskBody.assignedUser body = Some u →
  TaskBody.completed body = Some true →
  ∃ r t' usr',
    (tasks_put id body s).1 = Ok r ∧ status r = 200%nat ∧
    tasks (tasks_put id body s).2 !! id = Some t' ∧
    TaskSchema.assignedUser t' = u ∧ TaskSchema.completed t' = true ∧
    users (tasks_put id body s).2 !! u = Some usr' ∧
    id ∉ UserSchema.pendingTasks usr'.
Proof.
  intros Hid Hu Hn Hd Hdates Hp Hpu Husr Ha Hc.
  pose proof (tasks_put_effect id body s) as H. unfold wp in H.
  rewrite Hn, Hd, Hid, Hp, Hdates in H. cbn [andb negb] in H.
  unfold assignee_miscast in H. rewrite Ha in H.
  cbn [default from_option Datatypes.id] in H.
  rewrite Hu, andb_false_r in H. cbn [orb] in H. destruct H as (Ht & H).
  set (updated := tasks_put_updated body prev (users s)) in *.
  assert (TaskSchema.assignedUser updated = u) as Hau by (cbn; by rewrite Ha).
  assert (TaskSchema.completed updated = true) as Hcu by (cbn; by rewrite Hc).
  apply isObjectId_truthy in Hu as Hu'. apply isObjectId_truthy in Hid as Hid'.
  unfold tasks_put_miscast, miscast in H. rewrite Hau, Hpu, Hu, Hu' in H.
  rewrite bool_decide_eq_true_2 in H by done. cbn [andb negb orb] in H.
  rewrite andb_false_r in H. destruct H as (Hr & Hus).
  eexists _, updated,
    (User.set_pendingTasks usr (User.without id (UserSchema.pendingTasks usr))).
  split; [exact Hr|]. split; [done|].
  rewrite Ht, lookup_insert_eq. split_and!; try done.
  - rewrite Hus. unfold tasks_put_users. rewrite Hau, Hcu, Hpu.
    rewrite bool_decide_eq_true_2 by done.
    rewrite Hu'. cbn [negb andb].
    unfold pulled. rewrite Hu', Hid'. cbn [andb].
    rewrite pull_lookup, Husr. cbn. case_bool_decide; [reflexivity | congruence].
  - cbn. unfold User.without. intros [Hx _]%list_elem_of_filter. by apply Hx.
Qed.

Lemma tasks_put_completed_not_pending_witness :
  ∃ r t' usr',
    (tasks_put t1 (TaskBody.mk (Some "T1") None (Some 7) (Some true) (Some u1) None None)
               alice_with_t1).1 = Ok r ∧ status r = 200%nat ∧
    tasks (tasks_put t1
             (TaskBody.mk (Some "T1") None (Some 7) (Some true) (Some u1) None None)
             alice_with_t1).2 !! t1 = Some t' ∧
    TaskSchema.assignedUser t' = u1 ∧ TaskSchema.completed t' = true ∧
    users (tasks_put t1
             (TaskBody.mk (Some "T1") None (Some 7) (Some true) (Some u1) None None)
             alice_with_t1).2 !! u1 = Some usr' ∧
    t1 ∉ UserSchema.pendingTasks usr'.
Proof.
  apply (tasks_put_completed_not_pending t1 u1
           (TaskBody.mk (Some "T1") None (Some 7) (Some true) (Some u1) None None)
           alice_with_t1
           (TaskSchema.mk "T1" "" 7 false u1 "Alice" 9)
           (UserSchema.mk "Alice" "a@x.com" [t1] 5));
    reflexivity.
Defined.

(** ** Replacing a task without naming its user *)

Definition t1_without_assignedUser : TaskBody.t :=
  TaskBody.mk (Some "T1") None (Some 7) None None None None.

(** C2 (what the code does on the failing input).  The task [t1] is
    assigned to Alice; the replacement payload carries the required
    fields and no [assignedUser].  The answer is 200, the stored task is
    still assigned to [u1], and its [assignedUserName], resolved from
    the empty string, is "unassigned". *)
Theorem tasks_put_omitted_assignedUser_is_kept :
  status_of (tasks_put t1 t1_without_assignedUser alice_with_t1).1 = Some 200%nat ∧
  TaskSchema.assignedUser <$>
    tasks (tasks_put t1 t1_without_assignedUser alice_with_t1).2 !! t1 = Some u1 ∧
  TaskSchema.assignedUserName <$>
    tasks (tasks_put t1 t1_without_assignedUser alice_with_t1).2 !! t1
    = Some "unassigned" ∧
  UserSchema.pendingTasks <$>
    users (tasks_put t1 t1_without_assignedUser alice_with_t1).2 !! u1 = Some [t1].
Proof. vm_compute. done. Qed.

(** When the payload does carry [assignedUser] and the task is written,
    the stored value is the payload's and the name is resolved from
    it. *)
Lemma tasks_put_supplied_assignedUser (id a : string) (body : TaskBody.t) (s : Store)
    (prev : TaskSchema.doc) :
  truthy (TaskBody.name body) = true →
  truthy (TaskBody.deadline body) = true →
  isObjectId id = true →
  a = "" ∨ isObjectId a = true →
  Task.dates_cast body = true →
  tasks s !! id = Some prev →
  TaskBody.assignedUser body = Some a →
  ∃ t', tasks (tasks_put id body s).2 !! id = Some t' ∧
        TaskSchema.assignedUser t' = a ∧
        TaskSchema.assignedUserName t' = resolved (users s) a.
Proof.
  intros Hn Hd Hid Hoa Hdates Hp Ha.
  pose proof (tasks_put_effect id body s) as H. unfold wp in H.
  rewrite Hn, Hd, Hid, Hp, Hdates in H. cbn [andb negb] in H.
  unfold assignee_miscast in H. rewrite Ha in H.
  cbn [default from_option Datatypes.id] in H.
  assert (truthy a && negb (isObjectId a) = false) as Hm
    by (destruct Hoa as [->| ->]; [done | by rewrite andb_false_r]).
  rewrite Hm in H. cbn [orb] in H. destruct H as (Ht & _).
  eexists. rewrite Ht, lookup_insert_eq. split; [done|]. cbn. by rewrite Ha.
Qed.

(** ** The creation date under replacement *)

Definition t1_with_dateCreated : TaskBody.t :=
  TaskBody.mk (Some "T1") None (Some 7) None (Some u1) None (Some 99).

(** C9 (counterexample).  A replacement payload for a task may carry
    [dateCreated]; the update document is the payload itself, so the
    stored creation date changes from 9 to 99. *)
Lemma tasks_put_rewrites_dateCreated :
  TaskSchema.dateCreated <$> tasks alice_with_t1 !! t1 = Some 9 ∧
  status_of (tasks_put t1 t1_with_dateCreated alice_with_t1).1 = Some 200%nat ∧
  TaskSchema.dateCreated <$>
    tasks (tasks_put t1 t1_with_dateCreated alice_with_t1).2 !! t1 = Some 99.
Proof. vm_compute. done. Qed.

(** What [PUT /users/:id] leaves in the users, whatever it answers: the
    collection as it was, or with the addressed user replaced. *)
Lemma users_put_users (id : string) (body : UserBody.t) (s : Store) :
  users (users_put id body s).2 = users s ∨
  ∃ prev, users s !! id = Some prev ∧
    users (users_put id body s).2 = <[id := users_put_updated body prev]> (users s).
Proof.
  pose proof (users_put_effect id body s) as H. unfold wp in H.
  destruct (truthy (UserBody.name body) && truthy (UserBody.email body)).
  2:{ destruct H as [_ ->]. by left. }
  destruct (isObjectId id); [|left; tauto].
  destruct (users s !! id) as [prev|] eqn:Ep; [|left; tauto].
  cbn zeta in H. destruct (User.email_taken _ _ _); [left; tauto|].
  right. exists prev. tauto.
Qed.

(** What [PUT /tasks/:id] leaves in the tasks, whatever it answers. *)
Lemma tasks_put_tasks (id : string) (body : TaskBody.t) (s : Store) :
  (status_of (tasks_put id body s).1 ≠ Some 200%nat ∧
   tasks (tasks_put id body s).2 = tasks s) ∨
  ∃ prev, tasks s !! id = Some prev ∧
    tasks (tasks_put id body s).2 = <[id := tasks_put_updated body prev (users s)]> (tasks s).
Proof.
  pose proof (tasks_put_effect id body s) as H. unfold wp in H.
  destruct (truthy (TaskBody.name body) && truthy (TaskBody.deadline body)).
  2:{ destruct H as [-> ->]. by left. }
  destruct (isObjectId id).
  2:{ destruct H as (-> & _ & ->). by left. }
  destruct (tasks s !! id) as [prev|] eqn:Ep.
  2:{ destruct H as (-> & _ & ->). by left. }
  destruct (_ || _).
  { destruct H as (-> & _ & ->). by left. }
  right. exists prev. tauto.
Qed.

(** C9 (amended).  [PUT /users/:id] leaves the creation date of every
    stored user as it was, whatever the payload.  [PUT /tasks/:id] leaves
    the creation date of every stored task as it was when the payload
    carries no [dateCreated] (and always for the tasks other than the one
    addressed); when the payload carries one and the call answers 200,
    the addressed task's creation date becomes the payload's. *)
Theorem dateCreated_kept_unless_supplied
    (id : string) (ub : UserBody.t) (tb : TaskBody.t) (s : Store) :
  (∀ uid u, users s !! uid = Some u →
     UserSchema.dateCreated <$> users (users_put id ub s).2 !! uid
       = Some (UserSchema.dateCreated u)) ∧
  (∀ tid t, tasks s !! tid = Some t →
     TaskBody.dateCreated tb = None ∨ tid ≠ id →
     TaskSchema.dateCreated <$> tasks (tasks_put id tb s).2 !! tid
       = Some (TaskSchema.dateCreated t)) ∧
  (∀ d, TaskBody.dateCreated tb = Some d →
     status_of (tasks_put id tb s).1 = Some 200%nat →
     TaskSchema.dateCreated <$> tasks (tasks_put id tb s).2 !! id = Some d).
Proof.
  split_and!.
  - intros uid u Hu.
    destruct (users_put_users id ub s) as [-> | (prev & Hp & ->)]; [by rewrite Hu|].
    rewrite lookup_insert.
    destruct (decide (id = uid)) as [->|]; [|by rewrite Hu].
    cbn. congruence.
  - intros tid t Ht Hor.
    destruct (tasks_put_tasks id tb s) as [[_ ->] | (prev & Hp & ->)]; [by rewrite Ht|].
    rewrite lookup_insert.
    destruct (decide (id = tid)) as [->|]; [|by rewrite Ht].
    destruct Hor as [Hnone|]; [|done]. cbn. rewrite Hnone. cbn. congruence.
  - intros d Hd Hok.
    destruct (tasks_put_tasks id tb s) as [[Hno _] | (prev & Hp & ->)]; [done|].
    rewrite lookup_insert_eq. cbn. by rewrite Hd.
Qed.

Lemma dateCreated_kept_unless_supplied_witness :
  UserSchema.dateCreated <$>
    users (users_put u1 (UserBody.mk (Some "Al") (Some "al@x.com") (Some []) (Some 77))
                     alice_with_t1).2 !! u1 = Some 5 ∧
  TaskSchema.dateCreated <$>
    tasks (tasks_put t1 (TaskBody.mk (Some "T1") None (Some 8) None None None None)
                     alice_with_t1).2 !! t1 = Some 9 ∧
  TaskSchema.dateCreated <$>
    tasks (tasks_put t1 (TaskBody.mk (Some "T1") None (Some 8) None None None (Some 99))
                     alice_with_t1).2 !! t1 = Some 99.
Proof.
  split_and!.
  - destruct (dateCreated_kept_unless_supplied u1
                (UserBody.mk (Some "Al") (Some "al@x.com") (Some []) (Some 77))
                TaskBody.empty alice_with_t1) as (H & _ & _).
    apply (H u1 (UserSchema.mk "Alice" "a@x.com" [t1] 5)). reflexivity.
  - destruct (dateCreated_kept_unless_supplied t1 UserBody.empty
                (TaskBody.mk (Some "T1") None (Some 8) None None None None)
                alice_with_t1) as (_ & H & _).
    apply (H t1 (TaskSchema.mk "T1" "" 7 false u1 "Alice" 9));
      [reflexivity | left; reflexivity].
  - destruct (dateCreated_kept_unless_supplied t1 UserBody.empty
                (TaskBody.mk (Some "T1") None (Some 8) None None None (Some 99))
                alice_with_t1) as (_ & _ & H).
    apply (H 99); [reflexivity | vm_compute; reflexivity].
Defined.

(** ** The difference of two pending lists *)

Lemma elem_of_set_add_all (seen xs : list string) (i : string) :
  i ∈ set_add_all seen xs ↔ i ∈ seen ∨ i ∈ xs.
Proof.
  revert seen. induction xs as [|x r IH]; intros seen; cbn.
  - rewrite elem_of_nil. tauto.
  - case_bool_decide as Hx; rewrite IH, ?elem_of_app, !elem_of_cons, ?elem_of_nil.
    + split; [tauto|]. intros [?|[->|?]]; tauto.
    + tauto.
Qed.

Lemma elem_of_new_Set (xs : list string) (i : string) : i ∈ new_Set xs ↔ i ∈ xs.
Proof. unfold new_Set. rewrite elem_of_set_add_all, elem_of_nil. tauto. Qed.

Lemma has_false (xs : list string) (i : string) : has (new_Set xs) i = false ↔ i ∉ xs.
Proof. unfold has. by rewrite bool_decide_eq_false, elem_of_new_Set. Qed.

Lemma elem_of_removed (prev next : list string) (i : string) :
  i ∈ removed prev next ↔ i ∈ prev ∧ i ∉ next.
Proof.
  unfold removed. rewrite list_elem_of_filter, has_false, elem_of_new_Set. tauto.
Qed.

Lemma elem_of_added (prev next : list string) (i : string) :
  i ∈ added prev next ↔ i ∈ next ∧ i ∉ prev.
Proof.
  unfold added. rewrite list_elem_of_filter, has_false, elem_of_new_Set. tauto.
Qed.

(** ** Bulk updates, document by document *)

Lemma set_many_lookup matches (u n i : string) (ts : gmap string TaskSchema.doc) :
  Task.set_many matches u n ts !! i =
    (λ t, if matches i t then Task.set_assignment u n t else t) <$> ts !! i.
Proof. unfold Task.set_many. rewrite map_lookup_imap. by destruct (ts !! i). Qed.

Lemma elem_of_matched matches (i : string) (ts : gmap string TaskSchema.doc) :
  i ∈ Task.matched matches ts ↔ ∃ t, ts !! i = Some t ∧ matches i t = true.
Proof.
  unfold Task.matched. rewrite list_elem_of_fmap. split.
  - intros ([k t] & -> & H). apply elem_of_map_to_list in H.
    apply map_lookup_filter_Some in H as [? ?]. eauto.
  - intros (t & Ht & Hm). exists (i, t). split; [done|].
    apply elem_of_map_to_list. by apply map_lookup_filter_Some.
Qed.

(** The task documents after a successful [PUT /users/:id] whose
    payload carries [pendingTasks]. *)
Lemma users_put_ok (id : string) (body : UserBody.t) (s : Store) :
  status_of (users_put id body s).1 = Some 200%nat →
  ∃ n prev, UserBody.name body = Some n ∧ n ≠ "" ∧ isObjectId id = true ∧
    users s !! id = Some prev ∧
    users (users_put id body s).2 = <[id := users_put_updated body prev]> (users s) ∧
    match UserBody.pendingTasks body with
    | Some next =>
        let p := UserSchema.pendingTasks prev in
        let ts1 := Task.set_many (unassigns id p next) "" "unassigned" (tasks s) in
        forallb isObjectId (removed p next) = true ∧
        forallb isObjectId (added p next) = true ∧
        tasks (users_put id body s).2 = Task.set_many (assigns p next) id n ts1 ∧
        trace (users_put id body s).2 = (trace s ++
          [Access Users; Access Users; Written Users id] ++
          (Access Tasks ::
             (Written Tasks <$> Task.matched (unassigns id p next) (tasks s))) ++
          (Access Tasks :: (Written Tasks <$> Task.matched (assigns p next) ts1)))%list
    | None => tasks (users_put id body s).2 = tasks s
    end.
Proof.
  intros Hok. pose proof (users_put_effect id body s) as H. unfold wp in H.
  destruct (truthy (UserBody.name body)) eqn:Hn; cbn [andb] in H.
  2:{ destruct H as [Hr _]. by rewrite Hr in Hok. }
  destruct (truthy (UserBody.email body)).
  2:{ destruct H as [Hr _]. by rewrite Hr in Hok. }
  destruct (isObjectId id).
  2:{ destruct H as [Hr _]. by rewrite Hr in Hok. }
  destruct (users s !! id) as [prev|].
  2:{ destruct H as [Hr _]. by rewrite Hr in Hok. }
  cbn zeta in H. destruct (User.email_taken _ _ _).
  { destruct H as [Hr _]. by rewrite Hr in Hok. }
  destruct (UserBody.name body) as [n|] eqn:En; [|done].
  exists n, prev. destruct H as [Hus H].
  split_and!; try done. { by apply truthy_string_true. }
  destruct (UserBody.pendingTasks body) as [next|]; [|by destruct H as (_ & ? & _)].
  cbn zeta in H |- *.
  destruct (forallb isObjectId (removed _ _)); cbn [negb] in H.
  2:{ destruct H as [Hr _]. by rewrite Hr in Hok. }
  destruct (forallb isObjectId (added _ _)); cbn [negb] in H.
  2:{ destruct H as [Hr _]. by rewrite Hr in Hok. }
  cbn [users_put_updated UserSchema.name] in H. rewrite En in H. tauto.
Qed.

(** The task documents after a successful [PUT /users/:id] whose
    payload carries [pendingTasks]. *)
Lemma users_put_tasks (id : string) (body : UserBody.t) (s : Store)
    (prev : UserSchema.doc) (n : string) (next : list string) (tid : string) :
  status_of (users_put id body s).1 = Some 200%nat →
  users s !! id = Some prev →
  UserBody.name body = Some n →
  UserBody.pendingTasks body = Some next →
  let p := UserSchema.pendingTasks prev in
  tasks (users_put id body s).2 !! tid =
    (λ t, if bool_decide (tid ∈ added p next) then Task.set_assignment id n t
          else if bool_decide (tid ∈ removed p next)
                  && bool_decide (TaskSchema.assignedUser t = id)
               then Task.set_assignment "" "unassigned" t
               else t) <$> tasks s !! tid.
Proof.
  intros Hok Hp Hn Hnext p.
  destruct (users_put_ok id body s Hok) as (n' & prev' & Hn' & _ & _ & Hp' & _ & H).
  rewrite Hnext in H. cbn zeta in H. destruct H as (_ & _ & -> & _).
  assert (prev' = prev) as -> by congruence. assert (n' = n) as -> by congruence.
  rewrite !set_many_lookup. fold p. destruct (tasks s !! tid) as [t|]; [|done].
  cbn [fmap option_fmap option_map]. rewrite assigns_spec, unassigns_spec.
  destruct (bool_decide (tid ∈ added p next)) eqn:Ea; [|done].
  by destruct (bool_decide (tid ∈ removed p next) && _).
Qed.

(** The task documents a successful [PUT /users/:id] matches for
    writing are among the added ones and the removed ones it owns. *)
Lemma users_put_written (id : string) (body : UserBody.t) (s : Store)
    (prev : UserSchema.doc) (next : list string) :
  status_of (users_put id body s).1 = Some 200%nat →
  users s !! id = Some prev →
  UserBody.pendingTasks body = Some next →
  ∃ evs, trace (users_put id body s).2 = (trace s ++ evs)%list ∧
    ∀ tid, Written Tasks tid ∈ evs →
      tid ∈ added (UserSchema.pendingTasks prev) next ∨
      tid ∈ removed (UserSchema.pendingTasks prev) next.
Proof.
  intros Hok Hp Hnext.
  destruct (users_put_ok id body s Hok) as (n' & prev' & _ & _ & _ & Hp' & _ & H).
  rewrite Hnext in H. cbn zeta in H. destruct H as (_ & _ & _ & ->).
  assert (prev' = prev) as -> by congruence.
  eexists. split; [done|]. intros tid.
  rewrite !elem_of_app, !elem_of_cons, !list_elem_of_fmap, elem_of_nil.
  intros [H|[H|H]].
  - destruct H as [H|[H|[H|[]]]]; discriminate.
  - destruct H as [?|(i & [= <-] & Hi)]; [done|].
    apply elem_of_matched in Hi as (t & _ & Hm). rewrite unassigns_spec in Hm.
    apply andb_true_iff in Hm as [Hm _]. apply bool_decide_eq_true in Hm. by right.
  - destruct H as [?|(i & [= <-] & Hi)]; [done|].
    apply elem_of_matched in Hi as (t & _ & Hm). rewrite assigns_spec in Hm.
    apply bool_decide_eq_true in Hm. by left.
Qed.

(** ** Guarded unassignment *)

(** C3. After a successful [PUT /users/:id] whose payload carries
    [pendingTasks], a task whose identifier was in the user's previous
    list and is not in the new one is set back to unassigned
    ([assignedUser] empty, [assignedUserName] "unassigned") exactly when
    its [assignedUser] was this user's identifier; when it names somebody
    else the task document is what it was. *)
Theorem users_put_guarded_unassign
    (id : string) (body : UserBody.t) (s : Store)
    (prev : UserSchema.doc) (next : list string) (tid : string) (t : TaskSchema.doc) :
  status_of (users_put id body s).1 = Some 200%nat →
  users s !! id = Some prev →
  UserBody.pendingTasks body = Some next →
  tid ∈ UserSchema.pendingTasks prev → tid ∉ next →
  tasks s !! tid = Some t →
  tasks (users_put id body s).2 !! tid =
    Some (if bool_decide (TaskSchema.assignedUser t = id)
          then Task.set_assignment "" "unassigned" t
          else t).
Proof.
  intros Hok Hp Hnext Hin Hout Ht.
  destruct (users_put_ok _ _ _ Hok) as (n & prev' & Hn & _).
  rewrite (users_put_tasks id body s prev n next tid Hok Hp Hn Hnext), Ht. cbn.
  rewrite bool_decide_eq_false_2 by (rewrite elem_of_added; tauto).
  rewrite (bool_decide_eq_true_2 (tid ∈ removed _ _)) by (by apply elem_of_removed).
  done.
Qed.

(** Alice holds [t1] and [t2] in her list; [t2] has meanwhile been
    given to Bob by a direct update of the task. *)
Definition alice_and_bob : Store :=
  mkStore {[u1 := UserSchema.mk "Alice" "a@x.com" [t1; t2; t3] 5;
            u2 := UserSchema.mk "Bob" "b@x.com" [t2] 6]}
          {[t1 := TaskSchema.mk "T1" "" 7 false u1 "Alice" 9;
            t2 := TaskSchema.mk "T2" "" 7 false u2 "Bob" 9;
            t3 := TaskSchema.mk "T3" "" 7 false u1 "Alice" 9;
            t4 := TaskSchema.mk "T4" "" 7 false "" "unassigned" 9]} [].

Definition alice_keeps_t3_takes_t4 : UserBody.t :=
  UserBody.mk (Some "Alice") (Some "a@x.com") (Some [t3; t4]) None.

Lemma users_put_guarded_unassign_witness :
  tasks (users_put u1 alice_keeps_t3_takes_t4 alice_and_bob).2 !! t1
    = Some (TaskSchema.mk "T1" "" 7 false "" "unassigned" 9) ∧
  tasks (users_put u1 alice_keeps_t3_takes_t4 alice_and_bob).2 !! t2
    = Some (TaskSchema.mk "T2" "" 7 false u2 "Bob" 9).
Proof.
  split.
  - apply (users_put_guarded_unassign u1 alice_keeps_t3_takes_t4 alice_and_bob
             (UserSchema.mk "Alice" "a@x.com" [t1; t2; t3] 5) [t3; t4]
             t1 (TaskSchema.mk "T1" "" 7 false u1 "Alice" 9));
      try (vm_compute; reflexivity);
      apply (bool_decide_unpack _); vm_compute; exact I.
  - apply (users_put_guarded_unassign u1 alice_keeps_t3_takes_t4 alice_and_bob
             (UserSchema.mk "Alice" "a@x.com" [t1; t2; t3] 5) [t3; t4]
             t2 (TaskSchema.mk "T2" "" 7 false u2 "Bob" 9));
      try (vm_compute; reflexivity);
      apply (bool_decide_unpack _); vm_compute; exact I.
Defined.

(** ** The symmetric difference *)

(** C5. After a successful [PUT /users/:id] whose payload carries
    [pendingTasks], every task document is determined by the side of the
    difference its identifier is on: added (in the new list, not in the
    previous one) - assigned to this user under the user's new name;
    removed (in the previous list, not in the new one) and owned by this
    user - unassigned; anything else - the document as it was.  A task
    whose identifier is in both lists is therefore unchanged, and no bulk
    update matched it for writing. *)
Theorem users_put_symmetric_difference
    (id : string) (body : UserBody.t) (s : Store)
    (prev : UserSchema.doc) (n : string) (next : list string) (tid : string) :
  status_of (users_put id body s).1 = Some 200%nat →
  users s !! id = Some prev →
  UserBody.name body = Some n →
  UserBody.pendingTasks body = Some next →
  let p := UserSchema.pendingTasks prev in
  let s' := (users_put id body s).2 in
  (tasks s' !! tid =
     (λ t, if bool_decide (tid ∈ next ∧ tid ∉ p)
           then Task.set_assignment id n t
           else if bool_decide (tid ∈ p ∧ (tid ∉ next) ∧ TaskSchema.assignedUser t = id)
                then Task.set_assignment "" "unassigned" t
                else t) <$> tasks s !! tid) ∧
  (tid ∈ p → tid ∈ next →
     tasks s' !! tid = tasks s !! tid ∧
     ∃ evs, trace s' = (trace s ++ evs)%list ∧ Written Tasks tid ∉ evs).
Proof.
  intros Hok Hp Hn Hnext p s'. split.
  - unfold s'. rewrite (users_put_tasks id body s prev n next tid Hok Hp Hn Hnext).
    fold p. destruct (tasks s !! tid) as [t|]; [|done]. cbn. f_equal.
    rewrite (bool_decide_ext _ _ (elem_of_added p next tid)).
    destruct (bool_decide (tid ∈ next ∧ tid ∉ p)); [done|].
    rewrite (bool_decide_ext _ _ (elem_of_removed p next tid)).
    repeat case_bool_decide; cbn; try done; exfalso; tauto.
  - intros Hin Hin'. split.
    + unfold s'. rewrite (users_put_tasks id body s prev n next tid Hok Hp Hn Hnext).
      fold p. destruct (tasks s !! tid) as [t|]; [|done]. cbn.
      rewrite bool_decide_eq_false_2 by (rewrite elem_of_added; tauto).
      rewrite (bool_decide_eq_false_2 (tid ∈ removed _ _))
        by (rewrite elem_of_removed; tauto).
      done.
    + destruct (users_put_written id body s prev next Hok Hp Hnext) as (evs & Htr & Hw).
      exists evs. split; [done|]. intros Hx. apply Hw in Hx. fold p in Hx.
      rewrite elem_of_added, elem_of_removed in Hx. tauto.
Qed.

Lemma users_put_symmetric_difference_witness :
  tasks (users_put u1 alice_keeps_t3_takes_t4 alice_and_bob).2 !! t4
    = Some (TaskSchema.mk "T4" "" 7 false u1 "Alice" 9) ∧
  tasks (users_put u1 alice_keeps_t3_takes_t4 alice_and_bob).2 !! t3
    = tasks alice_and_bob !! t3 ∧
  ∃ evs, trace (users_put u1 alice_keeps_t3_takes_t4 alice_and_bob).2
           = (trace alice_and_bob ++ evs)%list ∧
         Written Tasks t3 ∉ evs.
Proof.
  pose proof (users_put_symmetric_difference u1 alice_keeps_t3_takes_t4 alice_and_bob
                (UserSchema.mk "Alice" "a@x.com" [t1; t2; t3] 5) "Alice"
                [t3; t4]) as H.
  split.
  - destruct (H t4) as [H4 _]; [vm_compute; reflexivity .. |].
    rewrite H4. vm_compute. reflexivity.
  - destruct (H t3) as [_ H3]; [vm_compute; reflexivity .. |].
    apply H3; apply (bool_decide_unpack _); vm_compute; exact I.
Defined.

(** ** Listing with the default cap *)

Section listing_claims.
Variable JSON_parse : string → option JSON.
Variable matches : JSON → JSON → bool.
Variable sorted_by : JSON → list JSON → list JSON.
Variable project : JSON → JSON → JSON.




(** The documents a query selects before the limit applies. *)
Definition selected (q : Query.t) (s : Store) : list JSON :=
  let found := filter (λ d, matches (Query.filter_ q) d = true)
                      (documents (Query.model q) s) in
  drop (Z.to_nat (default 0 (Query.skip_ q)))
       (match Query.sort_ q with Some o => sorted_by o found | None => found end).

Lemma exec_run (q : Query.t) (s : Store) :
  exec matches sorted_by project q s =
    if (default 0 (Query.skip_ q) <? 0)%Z
    then (Throw BadValue, after s (users s) (tasks s) [Access (Query.model q)])
    else
      let limited := match Query.limit_ q with
                     | Some l => if (l =? 0)%Z then selected q s
                                 else take (Z.to_nat (Z.abs l)) (selected q s)
                     | None => selected q s
                     end in
      (Ok (match Query.select_ q with
           | Some p => project p <$> limited
           | None => limited
           end),
       after s (users s) (tasks s) [Access (Query.model q)]).
Proof.
  unfold exec, selected, get_documents. unfold_monad. cbn.
  by destruct (default 0 (Query.skip_ q) <? 0)%Z.
Qed.


Definition skipped (q : Params.t) : Z :=
  if truthy (Params.skip q) then parseInt_or_0 (Params.skip q) else 0.



End listing_claims.





(** ** The consistency contract *)

(** The five mutating entry points of the synchronizer. *)
Inductive Call :=
| CreateTask (oid : string) (now : Z) (fields : TaskBody.t)
| UpdateTask (id : string) (fields : TaskBody.t)
| DeleteTask (id : string)
| UpdateUser (id : string) (fields : UserBody.t)
| DeleteUser (id : string).

Definition perform (c : Call) : M Response :=
  match c with
  | CreateTask oid now fields => tasks_post oid now fields
  | UpdateTask id fields => tasks_put id fields
  | DeleteTask id => tasks_delete id
  | UpdateUser id fields => users_put id fields
  | DeleteUser id => users_delete id
  end.

(** The call ran to its successful answer. *)
Definition completes (c : Call) (s : Store) : Prop :=
  status_of (perform c s).1 = Some 200%nat ∨ status_of (perform c s).1 = Some 201%nat.

(** How often [x] occurs in a pending list. *)
Definition occ (x : string) (l : list string) : nat :=
  length (filter (λ y, y = x) l).

(** The rules on [pendingTasks] for one user and one task. *)
Definition pending_rule (uid : string) (u : UserSchema.doc)
    (tid : string) (t : TaskSchema.doc) : Prop :=
  (TaskSchema.assignedUser t = uid → uid ≠ "" → TaskSchema.completed t = false →
     occ tid (UserSchema.pendingTasks u) = 1%nat) ∧
  (TaskSchema.assignedUser t = uid → uid ≠ "" → TaskSchema.completed t = true →
     tid ∉ UserSchema.pendingTasks u) ∧
  (TaskSchema.assignedUser t = "" → tid ∉ UserSchema.pendingTasks u).

(** The rule on the denormalized name: the current name of the user
    referred to, or "unassigned" when the reference is empty or
    dangling. *)
Definition name_rule (us : gmap string UserSchema.doc) (t : TaskSchema.doc) : Prop :=
  TaskSchema.assignedUserName t = resolved us (TaskSchema.assignedUser t).

(** The four rules, for every user and every task. *)
Definition consistent (us : gmap string UserSchema.doc)
    (ts : gmap string TaskSchema.doc) : Prop :=
  map_Forall (λ tid t,
    name_rule us t ∧ map_Forall (λ uid u, pending_rule uid u tid t) us) ts.


Global Instance pending_rule_dec uid u tid t : Decision (pending_rule uid u tid t).
Proof. unfold pending_rule. apply _. Defined.
Global Instance name_rule_dec us t : Decision (name_rule us t).
Proof. unfold name_rule. apply _. Defined.
Global Instance consistent_dec us ts : Decision (consistent us ts).
Proof. unfold consistent. apply _. Defined.



(** ** Occurrences in a pending list *)

Lemma occ_nil (x : string) : occ x [] = 0%nat.
Proof. done. Qed.

Lemma occ_cons (x y : string) (l : list string) :
  occ x (y :: l) = ((if bool_decide (y = x) then 1 else 0) + occ x l)%nat.
Proof.
  unfold occ. rewrite filter_cons. case_decide; case_bool_decide; done.
Qed.

Lemma occ_app (x : string) (l l' : list string) :
  occ x (l ++ l') = (occ x l + occ x l')%nat.
Proof. unfold occ. by rewrite filter_app, length_app. Qed.

Lemma occ_zero (x : string) (l : list string) : occ x l = 0%nat ↔ x ∉ l.
Proof.
  induction l as [|y l IH].
  { split; [intros _; apply not_elem_of_nil | done]. }
  rewrite occ_cons, not_elem_of_cons. case_bool_decide; subst.
  - cbn. split; [discriminate | intros [? _]; congruence].
  - rewrite <- IH. cbn. split; [auto | tauto].
Qed.

Lemma occ_pos (x : string) (l : list string) : x ∈ l ↔ occ x l ≠ 0%nat.
Proof.
  rewrite occ_zero. split; [tauto|]. intros H. by destruct (decide (x ∈ l)).
Qed.

Lemma occ_without (x t : string) (l : list string) :
  occ x (User.without t l) = if bool_decide (x = t) then 0%nat else occ x l.
Proof.
  unfold User.without. induction l as [|y l IH]; [by case_bool_decide|].
  rewrite filter_cons. destruct (decide (y ≠ t)) as [Hy|Hy].
  - rewrite !occ_cons, IH. repeat case_bool_decide; subst; done.
  - rewrite occ_cons, IH. apply dec_stable in Hy. subst y.
    repeat case_bool_decide; subst; done.
Qed.

Lemma occ_NoDup (x : string) (l : list string) : NoDup l → x ∈ l → occ x l = 1%nat.
Proof.
  induction 1 as [|y l Hy Hl IH]; [by rewrite elem_of_nil|].
  rewrite elem_of_cons, occ_cons. intros [->|Hx].
  - rewrite bool_decide_eq_true_2 by done. apply occ_zero in Hy. by rewrite Hy.
  - rewrite bool_decide_eq_false_2 by (intros ->; done). by rewrite IH.
Qed.


(** ** Rewriting every pending list *)

Definition repend (g : string → list string → list string)
    (us : gmap string UserSchema.doc) : gmap string UserSchema.doc :=
  map_imap (λ uid u,
    Some (User.set_pendingTasks u (g uid (UserSchema.pendingTasks u)))) us.

Lemma repend_lookup g us uid :
  repend g us !! uid =
    (λ u, User.set_pendingTasks u (g uid (UserSchema.pendingTasks u))) <$> us !! uid.
Proof. unfold repend. rewrite map_lookup_imap. by destruct (us !! uid). Qed.

Lemma set_pendingTasks_id (u : UserSchema.doc) :
  User.set_pendingTasks u (UserSchema.pendingTasks u) = u.
Proof. by destruct u. Qed.

Definition g_pull (a t : string) (uid : string) (l : list string) : list string :=
  if truthy a && truthy t && bool_decide (uid = a) then User.without t l else l.

Definition g_push (a t : string) (uid : string) (l : list string) : list string :=
  if truthy a && truthy t && bool_decide (uid = a) && negb (bool_decide (t ∈ l))
  then l ++ [t] else l.

Definition g_when (b : bool) (g : string → list string → list string)
    (uid : string) (l : list string) : list string :=
  if b then g uid l else l.

Lemma pulled_repend a t us : pulled a t us = repend (g_pull a t) us.
Proof.
  apply map_eq. intros uid. rewrite repend_lookup. unfold pulled, g_pull.
  destruct (truthy a && truthy t); cbn [andb].
  - rewrite pull_lookup. destruct (us !! uid) as [u|]; [|done]. cbn.
    case_bool_decide; [done | by rewrite set_pendingTasks_id].
  - destruct (us !! uid) as [u|]; [|done]. cbn. by rewrite set_pendingTasks_id.
Qed.

Lemma pushed_repend a t us : pushed a t us = repend (g_push a t) us.
Proof.
  apply map_eq. intros uid. rewrite repend_lookup. unfold pushed, g_push.
  destruct (truthy a && truthy t); cbn [andb].
  - rewrite push_lookup. destruct (us !! uid) as [u|]; [|done]. cbn.
    destruct (_ && _); [done | by rewrite set_pendingTasks_id].
  - destruct (us !! uid) as [u|]; [|done]. cbn. by rewrite set_pendingTasks_id.
Qed.

Lemma repend_when (b : bool) g us :
  (if b then repend g us else us) = repend (g_when b g) us.
Proof.
  destruct b; [done|]. apply map_eq. intros uid. rewrite repend_lookup.
  destruct (us !! uid) as [u|]; [|done]. cbn. by rewrite set_pendingTasks_id.
Qed.

Lemma repend_repend g1 g2 us :
  repend g2 (repend g1 us) = repend (λ uid l, g2 uid (g1 uid l)) us.
Proof.
  apply map_eq. intros uid. rewrite !repend_lookup.
  by destruct (us !! uid) as [[]|].
Qed.

Lemma occ_g_pull a t uid l x :
  occ x (g_pull a t uid l) =
    if truthy a && truthy t && bool_decide (uid = a) && bool_decide (x = t)
    then 0%nat else occ x l.
Proof.
  unfold g_pull. destruct (truthy a && truthy t && bool_decide (uid = a)); [|done].
  by rewrite occ_without.
Qed.

Lemma occ_g_push a t uid l x :
  occ x (g_push a t uid l) =
    if truthy a && truthy t && bool_decide (uid = a) && bool_decide (x = t)
       && (occ t l =? 0)%nat
    then 1%nat else occ x l.
Proof.
  unfold g_push. destruct (truthy a && truthy t && bool_decide (uid = a)); cbn [andb].
  2:{ done. }
  destruct (decide (t ∈ l)) as [Hin|Hout].
  - rewrite bool_decide_eq_true_2 by done. cbn [negb].
    apply occ_pos in Hin. apply Nat.eqb_neq in Hin. rewrite Hin.
    by rewrite andb_false_r.
  - rewrite bool_decide_eq_false_2 by done. cbn [negb].
    apply occ_zero in Hout as Hz. rewrite Hz. cbn. rewrite andb_true_r.
    rewrite occ_app, occ_cons, occ_nil. case_bool_decide as Hx.
    + subst x. rewrite bool_decide_eq_true_2 by done. lia.
    + rewrite bool_decide_eq_false_2 by (intros ->; done). lia.
Qed.

Lemma occ_g_when b g uid l x :
  occ x (g_when b g uid l) = if b then occ x (g uid l) else occ x l.
Proof. by destruct b. Qed.


Lemma occ_g_pull_other a t uid l x : x ≠ t → occ x (g_pull a t uid l) = occ x l.
Proof.
  intros Hx. rewrite occ_g_pull, (bool_decide_eq_false_2 (x = t)) by done.
  by rewrite andb_false_r.
Qed.

Lemma occ_g_push_other a t uid l x : x ≠ t → occ x (g_push a t uid l) = occ x l.
Proof.
  intros Hx. rewrite occ_g_push, (bool_decide_eq_false_2 (x = t)) by done.
  by rewrite andb_false_r.
Qed.




(** ** The contract, rule by rule *)





(** ** What a completed call has done *)






(** ** What a call has to respect *)

(** [CreateTask]: when the task is created unassigned no pending list
    names the identifier it gets, and the list of the user it is
    created for names that identifier at most once - not at all when the
    task is created completed. *)
Definition create_admissible (oid : string) (fields : TaskBody.t)
    (us : gmap string UserSchema.doc) : Prop :=
  let a := default "" (TaskBody.assignedUser fields) in
  let c := default false (TaskBody.completed fields) in
  map_Forall (λ uid u,
    (a = "" → oid ∉ UserSchema.pendingTasks u) ∧
    (uid = a → if c then oid ∉ UserSchema.pendingTasks u
               else (occ oid (UserSchema.pendingTasks u) ≤ 1)%nat)) us.

(** [UpdateTask]: the payload carries [assignedUser], unless the stored
    one resolves to "unassigned" anyway; when the task ends up
    unassigned, no user but the previous assignee lists it; and when it
    ends up uncompleted with another assignee, the list of that assignee
    names it at most once. *)
Definition update_task_admissible (id : string) (fields : TaskBody.t)
    (us : gmap string UserSchema.doc) (prev : TaskSchema.doc) : Prop :=
  let pu := TaskSchema.assignedUser prev in
  let a := default pu (TaskBody.assignedUser fields) in
  let c := default (TaskSchema.completed prev) (TaskBody.completed fields) in
  (is_Some (TaskBody.assignedUser fields) ∨ resolved us pu = "unassigned") ∧
  map_Forall (λ uid u, uid ≠ pu →
    (a = "" → id ∉ UserSchema.pendingTasks u) ∧
    (uid = a → c = false → (occ id (UserSchema.pendingTasks u) ≤ 1)%nat)) us.

(** A task of user [id] that the call unassigns is in no other user's
    list. *)
Definition unlisted_elsewhere (id tid : string) (us : gmap string UserSchema.doc) : Prop :=
  map_Forall (λ uid u, uid ≠ id → tid ∉ UserSchema.pendingTasks u) us.

(** [UpdateUser], task by task, with [p] the stored list and [next] the
    list the user gets (the stored one when the payload carries none):
    - a task of this user that is on neither side of the difference
      keeps its [assignedUserName], so the payload must keep the name;
    - a task the call adds is not completed and occurs once in [next];
    - a task of this user that stays in the list occurs once in [next];
    - a task of this user that the call removes is in no other list. *)
Definition update_user_admissible (id : string) (fields : UserBody.t)
    (us : gmap string UserSchema.doc) (ts : gmap string TaskSchema.doc)
    (prev : UserSchema.doc) : Prop :=
  let p := UserSchema.pendingTasks prev in
  let next := default p (UserBody.pendingTasks fields) in
  map_Forall (λ tid t,
    (TaskSchema.assignedUser t = id → (tid ∈ next ↔ tid ∈ p) →
       UserBody.name fields = Some (UserSchema.name prev)) ∧
    (tid ∈ next → tid ∉ p →
       TaskSchema.completed t = false ∧ occ tid next = 1%nat) ∧
    (tid ∈ next → tid ∈ p → TaskSchema.assignedUser t = id → occ tid next = 1%nat) ∧
    (tid ∈ p → tid ∉ next → TaskSchema.assignedUser t = id →
       unlisted_elsewhere id tid us)) ts.

(** [DeleteUser]: the tasks of the user are in no other user's list.
    [DeleteTask] needs nothing. *)
Definition admissible (c : Call) (s : Store) : Prop :=
  match c with
  | CreateTask oid _ fields => create_admissible oid fields (users s)
  | UpdateTask id fields =>
      from_option (update_task_admissible id fields (users s)) True (tasks s !! id)
  | DeleteTask _ => True
  | UpdateUser id fields =>
      from_option (update_user_admissible id fields (users s) (tasks s)) True
                  (users s !! id)
  | DeleteUser id =>
      map_Forall (λ tid t, TaskSchema.assignedUser t = id →
                    unlisted_elsewhere id tid (users s)) (tasks s)
  end.

Global Instance unlisted_elsewhere_dec id tid us : Decision (unlisted_elsewhere id tid us).
Proof. unfold unlisted_elsewhere. apply _. Defined.
Global Instance admissible_dec c s : Decision (admissible c s).
Proof.
  destruct c as [oid now fields|id fields|id|id fields|id]; cbn [admissible];
    unfold create_admissible, update_task_admissible, update_user_admissible.
  - cbn zeta. destruct (default false (TaskBody.completed fields)); apply _.
  - destruct (tasks s !! id); cbn; apply _.
  - apply _.
  - destruct (users s !! id); cbn; apply _.
  - apply _.
Defined.

(** ** Each entry point keeps the four rules *)



Lemma tasks_put_users_repend id prev updated us :
  tasks_put_users id prev updated us =
    let pu := TaskSchema.assignedUser prev in
    let a := TaskSchema.assignedUser updated in
    let c := TaskSchema.completed updated in
    repend (λ uid l,
      g_when (c && truthy a) (g_pull a id) uid
        (g_when (truthy a && negb c) (g_push a id) uid
           (g_when (truthy pu && negb (bool_decide (pu = a))) (g_pull pu id) uid l))) us.
Proof.
  unfold tasks_put_users. cbn zeta.
  by rewrite !pulled_repend, !pushed_repend, !repend_when, !repend_repend.
Qed.








(** ** The conditions are needed *)







(** ** The contract across the five entry points *)



(** Alice holds [t1] and [t3], Bob holds [t2], and [t4] is free. *)
Definition alice_bob_settled : Store :=
  mkStore {[u1 := UserSchema.mk "Alice" "a@x.com" [t1; t3] 5;
            u2 := UserSchema.mk "Bob" "b@x.com" [t2] 6]}
          {[t1 := TaskSchema.mk "T1" "" 7 false u1 "Alice" 9;
            t2 := TaskSchema.mk "T2" "" 7 false u2 "Bob" 9;
            t3 := TaskSchema.mk "T3" "" 7 false u1 "Alice" 9;
            t4 := TaskSchema.mk "T4" "" 7 false "" "unassigned" 9]} [].

Definition give_t1_to_bob : Call :=
  UpdateTask t1 (TaskBody.mk (Some "T1") None (Some 7) None (Some u2) None None).






(** ** Why the conditions are there *)

(** A replacement of a task that does not name the assignee keeps the
    stored assignee and resets the name: the name rule fails. *)
Example omitted_assignedUser_breaks_name_rule :
  consistent (users alice_with_t1) (tasks alice_with_t1) ∧
  ¬ admissible (UpdateTask t1 t1_without_assignedUser) alice_with_t1 ∧
  completes (UpdateTask t1 t1_without_assignedUser) alice_with_t1 ∧
  ¬ consistent
      (users (perform (UpdateTask t1 t1_without_assignedUser) alice_with_t1).2)
      (tasks (perform (UpdateTask t1 t1_without_assignedUser) alice_with_t1).2).
Proof.
  split_and!.
  - apply (bool_decide_unpack _). vm_compute. exact I.
  - apply (bool_decide_unpack _). vm_compute. exact I.
  - left. vm_compute. reflexivity.
  - apply (bool_decide_unpack _). vm_compute. exact I.
Qed.

(** Adding a completed task to a user's list assigns the task and
    leaves it in the list. *)
Definition alice_and_done_task : Store :=
  mkStore {[u1 := UserSchema.mk "Alice" "a@x.com" [] 5]}
          {[t1 := TaskSchema.mk "T1" "" 7 true "" "unassigned" 9]} [].

Definition alice_takes_t1 : Call :=
  UpdateUser u1 (UserBody.mk (Some "Alice") (Some "a@x.com") (Some [t1]) None).

Example completed_task_added_breaks_rules :
  consistent (users alice_and_done_task) (tasks alice_and_done_task) ∧
  ¬ admissible alice_takes_t1 alice_and_done_task ∧
  completes alice_takes_t1 alice_and_done_task ∧
  ¬ consistent (users (perform alice_takes_t1 alice_and_done_task).2)
               (tasks (perform alice_takes_t1 alice_and_done_task).2).
Proof.
  split_and!.
  - apply (bool_decide_unpack _). vm_compute. exact I.
  - apply (bool_decide_unpack _). vm_compute. exact I.
  - left. vm_compute. reflexivity.
  - apply (bool_decide_unpack _). vm_compute. exact I.
Qed.

(** Bob's list may name a task of Alice's without breaking a rule;
    deleting Alice then leaves an unassigned task in Bob's list. *)
Definition bob_lists_alices_task : Store :=
  mkStore {[u1 := UserSchema.mk "Alice" "a@x.com" [t1] 5;
            u2 := UserSchema.mk "Bob" "b@x.com" [t1] 6]}
          {[t1 := TaskSchema.mk "T1" "" 7 false u1 "Alice" 9]} [].

Example delete_user_leaves_task_listed :
  consistent (users bob_lists_alices_task) (tasks bob_lists_alices_task) ∧
  ¬ admissible (DeleteUser u1) bob_lists_alices_task ∧
  completes (DeleteUser u1) bob_lists_alices_task ∧
  ¬ consistent (users (perform (DeleteUser u1) bob_lists_alices_task).2)
               (tasks (perform (DeleteUser u1) bob_lists_alices_task).2).
Proof.
  split_and!.
  - apply (bool_decide_unpack _). vm_compute. exact I.
  - apply (bool_decide_unpack _). vm_compute. exact I.
  - left. vm_compute. reflexivity.
  - apply (bool_decide_unpack _). vm_compute. exact I.
Qed.

(** A call that does not complete may stop half way.  Alice's new list
    adds [t4] and a string that is not an ObjectId: the user document
    is written first, the cast of the second bulk update raises, the
    answer is 500, and [t4], still unassigned, is in Alice's list. *)
Definition alice_adds_t4_and_junk : Call :=
  UpdateUser u1 (UserBody.mk (Some "Alice") (Some "a@x.com")
                   (Some [t1; t3; t4; junk]) None).

Example failed_call_leaves_partial_write :
  consistent (users alice_bob_settled) (tasks alice_bob_settled) ∧
  status_of (perform alice_adds_t4_and_junk alice_bob_settled).1 = Some 500%nat ∧
  UserSchema.pendingTasks <$>
    users (perform alice_adds_t4_and_junk alice_bob_settled).2 !! u1
    = Some [t1; t3; t4; junk] ∧
  TaskSchema.assignedUser <$>
    tasks (perform alice_adds_t4_and_junk alice_bob_settled).2 !! t4 = Some "" ∧
  ¬ consistent (users (perform alice_adds_t4_and_junk alice_bob_settled).2)
               (tasks (perform alice_adds_t4_and_junk alice_bob_settled).2).
Proof.
  split_and!.
  - apply (bool_decide_unpack _). vm_compute. exact I.
  - vm_compute. reflexivity.
  - vm_compute. reflexivity.
  - vm_compute. reflexivity.
  - apply (bool_decide_unpack _). vm_compute. exact I.
Qed.

(** * Further properties of the handlers *)

(** ** Identifiers that every cast refuses *)

(** The cast to ObjectId reads 24 hexadecimal digits of either case
    and, in some versions of the driver, any string of 12 characters;
    it then works with the lower-case form.  [uncastable] holds of the
    strings that no version reads.  The statements below about a refused
    identifier are made for these, and those about an accepted one for
    the form [isObjectId] describes; [unambiguous] holds of both. *)
Definition is_hex_digit_any (c : ascii) : bool :=
  let n := nat_of_ascii c in
  (is_hex_digit c || ((65 <=? n) && (n <=? 70)))%nat.

Fixpoint all_hex_any (s : string) : bool :=
  match s with
  | EmptyString => true
  | String c r => is_hex_digit_any c && all_hex_any r
  end.

Definition uncastable (s : string) : bool :=
  negb (String.length s =? 12)%nat
  && negb ((String.length s =? 24)%nat && all_hex_any s).

Definition unambiguous (s : string) : bool := isObjectId s || uncastable s.

Lemma all_hex_any_of_all_hex (s : string) : all_hex s = true → all_hex_any s = true.
Proof.
  induction s as [|c r IH]; [done|]. cbn [all_hex all_hex_any].
  intros [Hc Hr]%andb_true_iff. unfold is_hex_digit_any. cbn zeta.
  by rewrite Hc, (IH Hr).
Qed.

Lemma uncastable_not_ObjectId (id : string) :
  uncastable id = true → isObjectId id = false.
Proof.
  unfold uncastable, isObjectId. intros [_ H]%andb_true_iff.
  apply negb_true_iff in H. destruct (String.length id =? 24)%nat; [|done].
  cbn [andb] in *. destruct (all_hex id) eqn:E; [|done].
  by rewrite (all_hex_any_of_all_hex id E) in H.
Qed.

(** ** The two helpers on pending lists *)

Lemma addPendingToUser_docs userId taskId s :
  if miscast userId taskId
  then addPendingToUser userId taskId s = (Throw CastError, s)
  else (addPendingToUser userId taskId s).1 = Ok tt ∧
       users (addPendingToUser userId taskId s).2 = pushed userId taskId (users s) ∧
       tasks (addPendingToUser userId taskId s).2 = tasks s.
Proof.
  pose proof (wp_addPendingToUser userId taskId s
                (λ r s', if miscast userId taskId then r = Throw CastError ∧ s' = s
                         else r = Ok tt ∧ users s' = pushed userId taskId (users s) ∧
                              tasks s' = tasks s)) as H.
  unfold wp in H. destruct (miscast userId taskId).
  - destruct (addPendingToUser userId taskId s) as [r s']. cbn [fst snd] in H.
    by destruct H as [-> ->].
  - by apply H.
Qed.

Lemma removePendingFromUser_docs userId taskId s :
  if miscast userId taskId
  then removePendingFromUser userId taskId s = (Throw CastError, s)
  else (removePendingFromUser userId taskId s).1 = Ok tt ∧
       users (removePendingFromUser userId taskId s).2 = pulled userId taskId (users s) ∧
       tasks (removePendingFromUser userId taskId s).2 = tasks s.
Proof.
  pose proof (wp_removePendingFromUser userId taskId s
                (λ r s', if miscast userId taskId then r = Throw CastError ∧ s' = s
                         else r = Ok tt ∧ users s' = pulled userId taskId (users s) ∧
                              tasks s' = tasks s)) as H.
  unfold wp in H. destruct (miscast userId taskId).
  - destruct (removePendingFromUser userId taskId s) as [r s']. cbn [fst snd] in H.
    by destruct H as [-> ->].
  - by apply H.
Qed.

Lemma miscast_ObjectId userId taskId : isObjectId userId = true → miscast userId taskId = false.
Proof. intros H. unfold miscast. by rewrite H, andb_false_r. Qed.

Lemma without_sublist (t : string) (l : list string) : User.without t l `sublist_of` l.
Proof. apply sublist_filter. Qed.

Lemma elem_of_without (t x : string) (l : list string) :
  x ∈ User.without t l ↔ x ∈ l ∧ x ≠ t.
Proof. unfold User.without. rewrite list_elem_of_filter. tauto. Qed.

Lemma without_absent (t : string) (l : list string) : t ∉ l → User.without t l = l.
Proof.
  intros H. unfold User.without. induction l as [|y l IH]; [done|].
  apply not_elem_of_cons in H as [Hy Hl].
  rewrite filter_cons_True by congruence. by rewrite IH.
Qed.

Lemma without_app (t : string) (l l' : list string) :
  User.without t (l ++ l') = (User.without t l ++ User.without t l')%list.
Proof. apply filter_app. Qed.

Lemma without_self (t : string) : User.without t [t] = [].
Proof. unfold User.without. by rewrite filter_cons_False by (intros H; by apply H). Qed.

(** X1. [addPendingToUser] on a stored user, with a non-empty task
    identifier, returns; afterwards the user's list names the task; the
    list is the previous one when it already named the task, and the
    previous one with the task appended otherwise, so a task that was not
    listed is listed exactly once; the user's other fields, every other
    user and every task are as before. *)
Theorem addPendingToUser_lists_once
    (userId taskId : string) (s : Store) (u : UserSchema.doc) :
  isObjectId userId = true → taskId ≠ "" →
  users s !! userId = Some u →
  (addPendingToUser userId taskId s).1 = Ok tt ∧
  ∃ u', users (addPendingToUser userId taskId s).2 !! userId = Some u' ∧
    taskId ∈ UserSchema.pendingTasks u' ∧
    (taskId ∈ UserSchema.pendingTasks u → u' = u) ∧
    (taskId ∉ UserSchema.pendingTasks u →
       UserSchema.pendingTasks u' = (UserSchema.pendingTasks u ++ [taskId])%list ∧
       occ taskId (UserSchema.pendingTasks u') = 1%nat) ∧
    UserSchema.name u' = UserSchema.name u ∧
    UserSchema.email u' = UserSchema.email u ∧
    UserSchema.dateCreated u' = UserSchema.dateCreated u ∧
    (∀ uid, uid ≠ userId →
       users (addPendingToUser userId taskId s).2 !! uid = users s !! uid) ∧
    tasks (addPendingToUser userId taskId s).2 = tasks s.
Proof.
  intros Hu Ht Hs. pose proof (addPendingToUser_docs userId taskId s) as H.
  rewrite (miscast_ObjectId _ _ Hu) in H. destruct H as (Hr & -> & ->).
  split; [done|]. unfold pushed.
  apply isObjectId_truthy in Hu as ->. apply truthy_string_true in Ht as ->.
  cbn [andb]. rewrite push_lookup, Hs. cbn.
  rewrite bool_decide_eq_true_2 by done. cbn [andb].
  destruct (decide (taskId ∈ UserSchema.pendingTasks u)) as [Hin|Hout].
  - rewrite (bool_decide_eq_true_2 _ Hin). cbn. exists u. split_and!; try done.
    intros uid Hne. rewrite push_lookup. destruct (users s !! uid); [|done]. cbn.
    by rewrite bool_decide_eq_false_2.
  - rewrite (bool_decide_eq_false_2 _ Hout). cbn [negb fmap option_fmap option_map].
    exists (User.set_pendingTasks u (UserSchema.pendingTasks u ++ [taskId])).
    unfold User.set_pendingTasks.
    cbn [UserSchema.pendingTasks UserSchema.name UserSchema.email UserSchema.dateCreated].
    split_and!; try done.
    + apply elem_of_app. right. by apply list_elem_of_singleton.
    + intros _. split; [done|]. apply occ_zero in Hout.
      rewrite occ_app, Hout, occ_cons, occ_nil. by rewrite bool_decide_eq_true_2.
    + intros uid Hne. rewrite push_lookup. destruct (users s !! uid); [|done]. cbn.
      by rewrite bool_decide_eq_false_2.
Qed.

Lemma addPendingToUser_lists_once_witness :
  UserSchema.pendingTasks <$>
    users (addPendingToUser u1 t1 only_alice).2 !! u1 = Some [t1].
Proof.
  destruct (addPendingToUser_lists_once u1 t1 only_alice alice)
    as (_ & u' & Hu' & _ & _ & Hnew & _); [reflexivity | discriminate | reflexivity |].
  rewrite Hu'. cbn. f_equal. apply Hnew. apply not_elem_of_nil.
Defined.

(** X2. [removePendingFromUser] on a stored user, with a non-empty
    task identifier, returns; afterwards the user's list does not name
    the task at all, however often it named it; the other identifiers
    keep their number of occurrences and their order; the user's other
    fields, every other user and every task are as before. *)
Theorem removePendingFromUser_removes_all
    (userId taskId : string) (s : Store) (u : UserSchema.doc) :
  isObjectId userId = true → taskId ≠ "" →
  users s !! userId = Some u →
  (removePendingFromUser userId taskId s).1 = Ok tt ∧
  ∃ u', users (removePendingFromUser userId taskId s).2 !! userId = Some u' ∧
    (taskId ∉ UserSchema.pendingTasks u') ∧
    (∀ x, x ≠ taskId →
       occ x (UserSchema.pendingTasks u') = occ x (UserSchema.pendingTasks u)) ∧
    UserSchema.pendingTasks u' `sublist_of` UserSchema.pendingTasks u ∧
    UserSchema.name u' = UserSchema.name u ∧
    UserSchema.email u' = UserSchema.email u ∧
    UserSchema.dateCreated u' = UserSchema.dateCreated u ∧
    (∀ uid, uid ≠ userId →
       users (removePendingFromUser userId taskId s).2 !! uid = users s !! uid) ∧
    tasks (removePendingFromUser userId taskId s).2 = tasks s.
Proof.
  intros Hu Ht Hs. pose proof (removePendingFromUser_docs userId taskId s) as H.
  rewrite (miscast_ObjectId _ _ Hu) in H. destruct H as (Hr & -> & ->).
  split; [done|]. unfold pulled.
  apply isObjectId_truthy in Hu as ->. apply truthy_string_true in Ht as ->.
  cbn [andb]. rewrite pull_lookup, Hs. cbn [fmap option_fmap option_map].
  rewrite bool_decide_eq_true_2 by done.
  exists (User.set_pendingTasks u (User.without taskId (UserSchema.pendingTasks u))).
  unfold User.set_pendingTasks.
  cbn [UserSchema.pendingTasks UserSchema.name UserSchema.email UserSchema.dateCreated].
  split_and!; try done.
  - rewrite elem_of_without. tauto.
  - intros x Hx. by rewrite occ_without, bool_decide_eq_false_2.
  - apply without_sublist.
  - intros uid Hne. rewrite pull_lookup. destruct (users s !! uid); [|done]. cbn.
    by rewrite bool_decide_eq_false_2.
Qed.

Definition alice_twice_t1 : Store :=
  mkStore {[u1 := UserSchema.mk "Alice" "a@x.com" [t1; t2; t1] 5]} ∅ [].

Lemma removePendingFromUser_removes_all_witness :
  ∃ u', users (removePendingFromUser u1 t1 alice_twice_t1).2 !! u1 = Some u' ∧
        (t1 ∉ UserSchema.pendingTasks u') ∧
        occ t2 (UserSchema.pendingTasks u') = 1%nat.
Proof.
  destruct (removePendingFromUser_removes_all u1 t1 alice_twice_t1
              (UserSchema.mk "Alice" "a@x.com" [t1; t2; t1] 5))
    as (_ & u' & Hu' & Hout & Hocc & _); [reflexivity | discriminate | reflexivity |].
  exists u'. split_and!; [exact Hu' | exact Hout |].
  rewrite Hocc by discriminate. reflexivity.
Defined.

(** X3. The guards of the two helpers.  With an empty user or task
    identifier neither helper calls the store (the store and its trace
    are what they were).  With non-empty identifiers of which the user's
    is one the cast refuses, both raise [CastError] and leave the store
    as it was.  For an ObjectId that no user has, both
    return and change no document. *)
Theorem pending_helpers_guards (userId taskId : string) (s : Store) :
  (userId = "" ∨ taskId = "" →
     addPendingToUser userId taskId s = (Ok tt, s) ∧
     removePendingFromUser userId taskId s = (Ok tt, s)) ∧
  (userId ≠ "" → taskId ≠ "" → uncastable userId = true →
     addPendingToUser userId taskId s = (Throw CastError, s) ∧
     removePendingFromUser userId taskId s = (Throw CastError, s)) ∧
  (isObjectId userId = true → users s !! userId = None →
     (addPendingToUser userId taskId s).1 = Ok tt ∧
     users (addPendingToUser userId taskId s).2 = users s ∧
     tasks (addPendingToUser userId taskId s).2 = tasks s ∧
     (removePendingFromUser userId taskId s).1 = Ok tt ∧
     users (removePendingFromUser userId taskId s).2 = users s ∧
     tasks (removePendingFromUser userId taskId s).2 = tasks s).
Proof.
  pose proof (addPendingToUser_docs userId taskId s) as Ha.
  pose proof (removePendingFromUser_docs userId taskId s) as Hr.
  split_and!.
  - intros H. unfold addPendingToUser, removePendingFromUser.
    assert (negb (truthy userId) || negb (truthy taskId) = true) as ->; [|done].
    destruct H as [-> | ->]; [done | by rewrite orb_true_r].
  - intros Hu%truthy_string_true Ht%truthy_string_true Hno%uncastable_not_ObjectId.
    unfold miscast in Ha, Hr. by rewrite Hu, Ht, Hno in Ha, Hr.
  - intros Hoid Hn. rewrite (miscast_ObjectId _ _ Hoid) in Ha, Hr.
    destruct Ha as (-> & -> & ->), Hr as (-> & -> & ->).
    unfold pushed, pulled, User.push, User.pull. rewrite Hn.
    by destruct (_ && _).
Qed.

Lemma pending_helpers_guards_witness :
  (addPendingToUser "" t1 only_alice = (Ok tt, only_alice) ∧
   removePendingFromUser u1 "" only_alice = (Ok tt, only_alice)) ∧
  addPendingToUser ghost t1 only_alice = (Throw CastError, only_alice) ∧
  users (addPendingToUser u9 t1 only_alice).2 = users only_alice.
Proof.
  split; [split|split].
  - apply (pending_helpers_guards "" t1 only_alice). by left.
  - apply (pending_helpers_guards u1 "" only_alice). by right.
  - apply (pending_helpers_guards ghost t1 only_alice); [discriminate..|reflexivity].
  - apply (pending_helpers_guards u9 t1 only_alice); reflexivity.
Defined.

Lemma set_pendingTasks_twice (u : UserSchema.doc) (l l' : list string) :
  User.set_pendingTasks (User.set_pendingTasks u l) l' = User.set_pendingTasks u l'.
Proof. done. Qed.

Lemma pushed_pushed a t us : pushed a t (pushed a t us) = pushed a t us.
Proof.
  unfold pushed. destruct (truthy a && truthy t); [|done].
  apply map_eq. intros uid. rewrite !push_lookup.
  destruct (us !! uid) as [u|]; [|done]. cbn. f_equal.
  destruct (bool_decide (uid = a)); cbn [andb]; [|done].
  destruct (decide (t ∈ UserSchema.pendingTasks u)) as [Hin|Hout].
  - rewrite (bool_decide_eq_true_2 _ Hin). cbn. by rewrite (bool_decide_eq_true_2 _ Hin).
  - rewrite (bool_decide_eq_false_2 _ Hout). cbn.
    rewrite bool_decide_eq_true_2; [done|]. apply elem_of_app. right.
    by apply list_elem_of_singleton.
Qed.

Lemma pulled_pulled a t us : pulled a t (pulled a t us) = pulled a t us.
Proof.
  unfold pulled. destruct (truthy a && truthy t); [|done].
  apply map_eq. intros uid. rewrite !pull_lookup.
  destruct (us !! uid) as [u|]; [|done]. cbn. f_equal.
  destruct (bool_decide (uid = a)); [|done].
  rewrite set_pendingTasks_twice. cbn. f_equal.
  apply without_absent. rewrite elem_of_without. tauto.
Qed.

Lemma pulled_pushed a t us :
  (∀ u, us !! a = Some u → t ∉ UserSchema.pendingTasks u) →
  pulled a t (pushed a t us) = us.
Proof.
  intros Hfresh. unfold pulled, pushed. destruct (truthy a && truthy t); [|done].
  apply map_eq. intros uid. rewrite pull_lookup, push_lookup.
  destruct (us !! uid) as [u|] eqn:Eu; [|done]. cbn. f_equal.
  case_bool_decide as Ha; cbn [andb]; [|done]. subst uid.
  specialize (Hfresh u Eu). rewrite (bool_decide_eq_false_2 _ Hfresh). cbn [negb].
  unfold User.set_pendingTasks.
  cbn [UserSchema.pendingTasks UserSchema.name UserSchema.email UserSchema.dateCreated].
  rewrite without_app, without_self, app_nil_r, without_absent by done.
  by destruct u.
Qed.

(** X4. Each helper is idempotent on the documents: calling it a
    second time with the same identifiers changes nothing more, whether
    it returned or raised. *)
Theorem pending_helpers_idempotent (userId taskId : string) (s : Store) :
  users (addPendingToUser userId taskId (addPendingToUser userId taskId s).2).2
    = users (addPendingToUser userId taskId s).2 ∧
  tasks (addPendingToUser userId taskId (addPendingToUser userId taskId s).2).2
    = tasks s ∧
  users (removePendingFromUser userId taskId (removePendingFromUser userId taskId s).2).2
    = users (removePendingFromUser userId taskId s).2 ∧
  tasks (removePendingFromUser userId taskId (removePendingFromUser userId taskId s).2).2
    = tasks s.
Proof.
  pose proof (addPendingToUser_docs userId taskId (addPendingToUser userId taskId s).2)
    as Ha2.
  pose proof (removePendingFromUser_docs userId taskId
                (removePendingFromUser userId taskId s).2) as Hr2.
  pose proof (addPendingToUser_docs userId taskId s) as Ha.
  pose proof (removePendingFromUser_docs userId taskId s) as Hr.
  destruct (miscast userId taskId).
  - rewrite Ha2, Hr2. cbn [snd]. by rewrite Ha, Hr.
  - destruct Ha2 as (_ & -> & ->), Hr2 as (_ & -> & ->).
    destruct Ha as (_ & -> & ->), Hr as (_ & -> & ->).
    by rewrite pushed_pushed, pulled_pulled.
Qed.

(** X5. Adding a task to a list that does not name it and removing
    it again gives back every user document exactly as it was. *)
Theorem add_then_remove_restores (userId taskId : string) (s : Store) :
  unambiguous userId = true →
  (∀ u, users s !! userId = Some u → taskId ∉ UserSchema.pendingTasks u) →
  users (removePendingFromUser userId taskId (addPendingToUser userId taskId s).2).2
    = users s ∧
  tasks (removePendingFromUser userId taskId (addPendingToUser userId taskId s).2).2
    = tasks s.
Proof.
  intros _ Hfresh.
  pose proof (removePendingFromUser_docs userId taskId (addPendingToUser userId taskId s).2)
    as Hr.
  pose proof (addPendingToUser_docs userId taskId s) as Ha.
  destruct (miscast userId taskId).
  - rewrite Hr. cbn [snd]. by rewrite Ha.
  - destruct Hr as (_ & -> & ->), Ha as (_ & -> & ->). by rewrite pulled_pushed.
Qed.

Lemma add_then_remove_restores_witness :
  users (removePendingFromUser u1 t1 (addPendingToUser u1 t1 only_alice).2).2
    = users only_alice.
Proof.
  apply (add_then_remove_restores u1 t1 only_alice); [reflexivity|].
  intros u Hu. vm_compute in Hu. injection Hu as <-. apply not_elem_of_nil.
Defined.

(** ** Normalising an email *)

Lemma lower_ascii_idemp (c : ascii) : lower_ascii (lower_ascii c) = lower_ascii c.
Proof. by destruct c as [[] [] [] [] [] [] [] []]. Qed.

Lemma is_space_lower_ascii (c : ascii) : is_space (lower_ascii c) = is_space c.
Proof. by destruct c as [[] [] [] [] [] [] [] []]. Qed.

Lemma toLowerCase_idemp (s : string) : toLowerCase (toLowerCase s) = toLowerCase s.
Proof. induction s as [|c r IH]; [done|]. cbn. by rewrite lower_ascii_idemp, IH. Qed.

Lemma toLowerCase_trimStart (s : string) :
  toLowerCase (trimStart s) = trimStart (toLowerCase s).
Proof.
  induction s as [|c r IH]; [done|]. cbn. rewrite is_space_lower_ascii.
  by destruct (is_space c).
Qed.

Lemma toLowerCase_rev_app (s acc : string) :
  toLowerCase (String.rev_app s acc) = String.rev_app (toLowerCase s) (toLowerCase acc).
Proof. revert acc. induction s as [|c r IH]; intros acc; [done|]. cbn. by rewrite IH. Qed.

Lemma toLowerCase_rev (s : string) : toLowerCase (String.rev s) = String.rev (toLowerCase s).
Proof. apply toLowerCase_rev_app. Qed.

Lemma toLowerCase_trim (s : string) : toLowerCase (trim s) = trim (toLowerCase s).
Proof.
  unfold trim. by rewrite toLowerCase_rev, toLowerCase_trimStart, toLowerCase_rev,
    toLowerCase_trimStart.
Qed.

Lemma string_app_assoc (a b c : string) : (a +:+ b) +:+ c = a +:+ (b +:+ c).
Proof.
  induction a as [|x a IH]; [done|].
  change (String x ((a +:+ b) +:+ c) = String x (a +:+ (b +:+ c))). by rewrite IH.
Qed.

Lemma string_app_nil_r (a : string) : a +:+ "" = a.
Proof.
  induction a as [|x a IH]; [done|].
  change (String x (a +:+ "") = String x a). by rewrite IH.
Qed.

Lemma rev_app_spec (s acc : string) : String.rev_app s acc = String.rev s +:+ acc.
Proof.
  unfold String.rev. revert acc. induction s as [|c r IH]; intros acc; [done|].
  cbn. rewrite (IH (String c acc)), (IH (String c "")). by rewrite string_app_assoc.
Qed.

Lemma rev_cons (c : ascii) (s : string) :
  String.rev (String c s) = String.rev s +:+ String c "".
Proof. unfold String.rev at 1. cbn. apply rev_app_spec. Qed.

Lemma rev_append (a b : string) : String.rev (a +:+ b) = String.rev b +:+ String.rev a.
Proof.
  induction a as [|x a IH].
  { change ("" +:+ b) with b. change (String.rev "") with "". by rewrite string_app_nil_r. }
  change (String x a +:+ b) with (String x (a +:+ b)).
  by rewrite !rev_cons, IH, string_app_assoc.
Qed.

Lemma rev_involutive (s : string) : String.rev (String.rev s) = s.
Proof.
  induction s as [|c r IH]; [done|]. by rewrite rev_cons, rev_append, IH.
Qed.

(** A string starts with white space. *)
Definition leads_space (s : string) : bool :=
  match s with EmptyString => false | String c _ => is_space c end.

Lemma trimStart_fixed (s : string) : leads_space s = false → trimStart s = s.
Proof. destruct s as [|c r]; [done|]. cbn. by intros ->. Qed.

Lemma leads_space_trimStart (s : string) : leads_space (trimStart s) = false.
Proof.
  induction s as [|c r IH]; [done|]. cbn. by destruct (is_space c) eqn:E; [|cbn].
Qed.

Lemma trimStart_split (s : string) : ∃ sp, s = sp +:+ trimStart s.
Proof.
  induction s as [|c r [sp IH]]; [by exists ""|]. cbn [trimStart].
  destruct (is_space c); [|by exists ""]. exists (String c sp).
  change (String c r = String c (sp +:+ trimStart r)). by rewrite <- IH.
Qed.

Lemma leads_space_rev_trimStart_rev (x : string) :
  leads_space x = false → leads_space (String.rev (trimStart (String.rev x))) = false.
Proof.
  intros Hx. destruct (trimStart_split (String.rev x)) as [sp Hsp].
  apply (f_equal String.rev) in Hsp. rewrite rev_involutive, rev_append in Hsp.
  destruct (String.rev (trimStart (String.rev x))) as [|c r]; [done|].
  rewrite Hsp in Hx. exact Hx.
Qed.

Lemma trim_idemp (s : string) : trim (trim s) = trim s.
Proof.
  unfold trim.
  rewrite (trimStart_fixed (String.rev (trimStart (String.rev (trimStart s)))))
    by apply leads_space_rev_trimStart_rev, leads_space_trimStart.
  rewrite rev_involutive.
  by rewrite (trimStart_fixed (trimStart _)) by apply leads_space_trimStart.
Qed.

(** What [email.toLowerCase().trim()] gives. *)
Definition normalized (email : string) : string := trim (toLowerCase email).

Lemma normalized_setters (email : string) :
  toLowerCase (trim (normalized email)) = normalized email.
Proof.
  unfold normalized. by rewrite trim_idemp, toLowerCase_trim, toLowerCase_idemp.
Qed.

(** X6. The email the handlers compute before they store it or look
    for a duplicate does not depend on case or on surrounding white
    space of what was sent, and normalising it again changes nothing:
    it is a fixed point of [toLowerCase], of [trim] and of the schema's
    setters. *)
Theorem normalized_is_stable (email : string) :
  normalized (toLowerCase email) = normalized email ∧
  normalized (trim email) = normalized email ∧
  toLowerCase (normalized email) = normalized email ∧
  trim (normalized email) = normalized email ∧
  normalized (normalized email) = normalized email.
Proof.
  unfold normalized. split_and!.
  - by rewrite toLowerCase_idemp.
  - by rewrite toLowerCase_trim, trim_idemp.
  - by rewrite toLowerCase_trim, toLowerCase_idemp.
  - apply trim_idemp.
  - by rewrite toLowerCase_trim, toLowerCase_idemp, trim_idemp.
Qed.

(** ** Creating a user *)

Lemma email_taken_spec (us : gmap string UserSchema.doc) (self e : string) :
  User.email_taken us self e = true ↔
    ∃ uid u, uid ≠ self ∧ us !! uid = Some u ∧ UserSchema.email u = e.
Proof.
  unfold User.email_taken. rewrite bool_decide_eq_true, Exists_exists. split.
  - intros ([uid u] & Hin & Hne & He). apply elem_of_map_to_list in Hin. eauto.
  - intros (uid & u & Hne & Hu & He). exists (uid, u). split; [|done].
    by apply elem_of_map_to_list.
Qed.

Lemma findOne_email_is_Some (us : gmap string UserSchema.doc) (e : string) :
  is_Some (head (filter (λ kv : string * UserSchema.doc, UserSchema.email kv.2 = e)
                        (map_to_list us))) ↔
  ∃ uid u, us !! uid = Some u ∧ UserSchema.email u = e.
Proof.
  rewrite head_is_Some. split.
  - intros Hne. destruct (filter _ _) as [|[uid u] l] eqn:E; [done|].
    assert ((uid, u) ∈ filter (λ kv : string * UserSchema.doc, UserSchema.email kv.2 = e)
                         (map_to_list us))
      as Hin by (rewrite E; left).
    apply list_elem_of_filter in Hin as [He Hin]. apply elem_of_map_to_list in Hin. eauto.
  - intros (uid & u & Hu & He) Hnil.
    assert ((uid, u) ∈ filter (λ kv : string * UserSchema.doc, UserSchema.email kv.2 = e)
                         (map_to_list us))
      as Hin by (apply list_elem_of_filter; split; [done | by apply elem_of_map_to_list]).
    rewrite Hnil in Hin. by apply elem_of_nil in Hin.
Qed.

(** The user that [POST /users] stores. *)
Definition users_post_created (body : UserBody.t) (now : Z) : UserSchema.doc :=
  UserSchema.mk (default "" (UserBody.name body))
    (normalized (default "" (UserBody.email body)))
    (default [] (UserBody.pendingTasks body))
    (default now (UserBody.dateCreated body)).

Lemma User_new_normalized (body : UserBody.t) (now : Z) :
  truthy (UserBody.name body) = true →
  User.new (UserBody.mk (UserBody.name body)
              (Some (normalized (default "" (UserBody.email body))))
              (UserBody.pendingTasks body) (UserBody.dateCreated body)) now
    = if truthy (normalized (default "" (UserBody.email body)))
         && from_option isDate true (UserBody.dateCreated body)
      then Some (users_post_created body now) else None.
Proof.
  intros Hn. unfold User.new, users_post_created. cbn.
  destruct (UserBody.name body) as [n|]; [|done]. cbn in Hn.
  fold (normalized (default "" (UserBody.email body))).
  rewrite normalized_setters, Hn. done.
Qed.

Lemma users_post_effect oid now body s :
  wp (users_post oid now body) s (λ r s',
    let e := normalized (default "" (UserBody.email body)) in
    if truthy (UserBody.name body) && truthy (UserBody.email body) then
      (r = Ok (mkResponse 400 "User with that email already exists" DNull) ∧
       users s' = users s ∧ tasks s' = tasks s ∧
       ∃ uid u, users s !! uid = Some u ∧ UserSchema.email u = e) ∨
      (status_of r = Some 500%nat ∧ users s' = users s ∧ tasks s' = tasks s ∧
       (¬ ∃ uid u, users s !! uid = Some u ∧ UserSchema.email u = e) ∧
       (truthy e && from_option isDate true (UserBody.dateCreated body) = false
        ∨ is_Some (users s !! oid))) ∨
      (r = Ok (mkResponse 201 "User created" (DUser oid (users_post_created body now))) ∧
       users s' = <[oid := users_post_created body now]> (users s) ∧
       tasks s' = tasks s ∧
       (¬ ∃ uid u, users s !! uid = Some u ∧ UserSchema.email u = e) ∧
       truthy e && from_option isDate true (UserBody.dateCreated body) = true ∧
       users s !! oid = None)
    else r = Ok missing_user_fields ∧ s' = s).
Proof.
  unfold users_post. wp_step.
  destruct (truthy (UserBody.name body)) eqn:Hn, (truthy (UserBody.email body)) eqn:He;
    cbn [negb orb andb]; try by wp_steps.
  wp_steps.
  fold (normalized (default "" (UserBody.email body))).
  pose proof (findOne_email_is_Some (users s)
                (normalized (default "" (UserBody.email body)))) as Hdup.
  case_bool_decide as Hd.
  { wp_steps. left. split_and!; try done. by apply Hdup. }
  assert (¬ ∃ uid u, users s !! uid = Some u ∧
            UserSchema.email u = normalized (default "" (UserBody.email body)))
    as Hfree by (intros Hex; apply Hd; by apply Hdup).
  wp_steps. rewrite (User_new_normalized body now Hn).
  destruct (truthy (normalized _) && _) eqn:Hte.
  2:{ wp_steps. right. left. split_and!; try done. by left. }
  destruct (users s !! oid) as [old|] eqn:Eo.
  { rewrite bool_decide_eq_true_2 by eauto. cbn [orb]. wp_steps.
    right. left. split_and!; try done. right. eauto. }
  rewrite bool_decide_eq_false_2 by (by intros [? ?]). cbn [orb].
  destruct (User.email_taken _ _ _) eqn:Et.
  { exfalso. apply email_taken_spec in Et as (uid & u & _ & Hu & Hem).
    apply Hfree. eauto. }
  wp_steps. right. right. by split_and!.
Qed.

(** X7. [POST /users] with a name and an email, when some stored user
    already has the email in its normalised form (lower case, trimmed):
    the answer is 400 "User with that email already exists" and no
    document is written.  The comparison is on the normalised form, so it
    does not depend on the case or the surrounding white space of what
    was sent. *)
Theorem users_post_duplicate_email
    (oid : string) (now : Z) (body : UserBody.t) (s : Store)
    (uid : string) (u : UserSchema.doc) :
  truthy (UserBody.name body) = true →
  truthy (UserBody.email body) = true →
  users s !! uid = Some u →
  UserSchema.email u = normalized (default "" (UserBody.email body)) →
  (users_post oid now body s).1
    = Ok (mkResponse 400 "User with that email already exists" DNull) ∧
  users (users_post oid now body s).2 = users s ∧
  tasks (users_post oid now body s).2 = tasks s.
Proof.
  intros Hn He Hu Hem. pose proof (users_post_effect oid now body s) as H.
  unfold wp in H. cbn zeta in H. rewrite Hn, He in H. cbn [andb] in H.
  destruct H as [H|[H|H]].
  - by destruct H as (? & ? & ? & _).
  - destruct H as (_ & _ & _ & Hfree & _). exfalso. apply Hfree. eauto.
  - destruct H as (_ & _ & _ & Hfree & _). exfalso. apply Hfree. eauto.
Qed.

Definition alice_again : UserBody.t :=
  UserBody.mk (Some "Alice B") (Some "  A@X.com ") None None.

Lemma users_post_duplicate_email_witness :
  (users_post u2 8 alice_again only_alice).1
    = Ok (mkResponse 400 "User with that email already exists" DNull) ∧
  users (users_post u2 8 alice_again only_alice).2 = users only_alice ∧
  tasks (users_post u2 8 alice_again only_alice).2 = tasks only_alice.
Proof.
  apply (users_post_duplicate_email u2 8 alice_again only_alice u1 alice);
    reflexivity.
Defined.

(** X8. [POST /users] with a name, an email whose normalised form is
    not empty and is held by no stored user, a [dateCreated] (if any)
    within the range of [Date], under a fresh identifier:
    the answer is 201; exactly one user document is added, with the
    email in normalised form, the [pendingTasks] of the payload (or the
    empty list) and the payload's [dateCreated] (or the current time);
    every other user and every task is as before - the tasks a supplied
    [pendingTasks] names are not touched. *)
Theorem users_post_creates
    (oid : string) (now : Z) (body : UserBody.t) (s : Store) :
  truthy (UserBody.name body) = true →
  truthy (UserBody.email body) = true →
  truthy (normalized (default "" (UserBody.email body))) = true →
  from_option isDate true (UserBody.dateCreated body) = true →
  (∀ uid u, users s !! uid = Some u →
     UserSchema.email u ≠ normalized (default "" (UserBody.email body))) →
  users s !! oid = None →
  ∃ u, (users_post oid now body s).1 = Ok (mkResponse 201 "User created" (DUser oid u)) ∧
    users (users_post oid now body s).2 = <[oid := u]> (users s) ∧
    tasks (users_post oid now body s).2 = tasks s ∧
    Some (UserSchema.name u) = UserBody.name body ∧
    UserSchema.email u = normalized (default "" (UserBody.email body)) ∧
    UserSchema.pendingTasks u = default [] (UserBody.pendingTasks body) ∧
    UserSchema.dateCreated u = default now (UserBody.dateCreated body).
Proof.
  intros Hn He Hte Hdate Hfree Ho. pose proof (users_post_effect oid now body s) as H.
  unfold wp in H. cbn zeta in H. rewrite Hn, He, Hte, Hdate in H. cbn [andb] in H.
  destruct H as [H|[H|H]].
  - destruct H as (_ & _ & _ & uid & u & Hu & Hem). by destruct (Hfree uid u Hu).
  - destruct H as (_ & _ & _ & _ & [Hf|[? Hs]]); congruence.
  - destruct H as (Hr & Hus & Hts & _). exists (users_post_created body now).
    split_and!; try done. cbn. by destruct (UserBody.name body).
Qed.

Definition new_bob : UserBody.t :=
  UserBody.mk (Some "Bob") (Some " Bob@X.COM") (Some [t5]) None.

Lemma users_post_creates_witness :
  ∃ u, users (users_post u2 8 new_bob alice_with_t1).2
         = <[u2 := u]> (users alice_with_t1) ∧
       tasks (users_post u2 8 new_bob alice_with_t1).2 = tasks alice_with_t1 ∧
       UserSchema.email u = "bob@x.com" ∧
       UserSchema.pendingTasks u = [t5].
Proof.
  destruct (users_post_creates u2 8 new_bob alice_with_t1)
    as (u & _ & Hus & Hts & _ & He & Hp & _); try reflexivity.
  { intros uid u Hu. unfold alice_with_t1 in Hu. cbn [users] in Hu.
    apply lookup_singleton_Some in Hu as [_ <-]. discriminate. }
  exists u. split_and!; [exact Hus | exact Hts | rewrite He | rewrite Hp]; reflexivity.
Defined.


(** ** Requests that are refused *)

(** X9. A request that is answered 400 or 404 has written nothing:
    after any of the five calls of the synchronizer, and after
    [POST /users], with such an answer every user and every task
    document is as before. *)
Theorem refusals_write_nothing
    (c : Call) (oid : string) (now : Z) (ub : UserBody.t) (s : Store) :
  (status_of (perform c s).1 = Some 400%nat ∨ status_of (perform c s).1 = Some 404%nat →
     users (perform c s).2 = users s ∧ tasks (perform c s).2 = tasks s) ∧
  (status_of (users_post oid now ub s).1 = Some 400%nat →
     users (users_post oid now ub s).2 = users s ∧
     tasks (users_post oid now ub s).2 = tasks s).
Proof.
  split.
  - intros Hc.
    destruct c as [o n fields|id fields|id|id fields|id]; cbn [perform] in *.
    + pose proof (tasks_post_effect o n fields s) as H. unfold wp in H.
      destruct (_ && _); [|by destruct H as [_ ->]].
      destruct (assignee_miscast fields); [by destruct H as (_ & ? & ?)|].
      destruct (tasks_post_created _ _ _), (tasks s !! o);
        try (by destruct H as (_ & ? & ?)).
      destruct H as (Hr & _). rewrite Hr in Hc. by destruct Hc.
    + pose proof (tasks_put_effect id fields s) as H. unfold wp in H.
      destruct (_ && _); [|by destruct H as [_ ->]].
      destruct (isObjectId id); [|by destruct H as (_ & ? & ?)].
      destruct (tasks s !! id); [|by destruct H as (_ & ? & ?)].
      destruct (_ || _); [by destruct H as (_ & ? & ?)|].
      cbn zeta in H. destruct H as [_ H]. destruct (tasks_put_miscast _ _ _).
      * rewrite H in Hc. by destruct Hc.
      * destruct H as [Hr _]. rewrite Hr in Hc. by destruct Hc.
    + pose proof (tasks_delete_effect id s) as H. unfold wp in H.
      destruct (isObjectId id); [|by destruct H as (_ & ? & ?)].
      destruct (tasks s !! id); [|by destruct H as (_ & ? & ?)].
      destruct H as [_ H]. destruct (miscast _ _); destruct H as [Hr _];
        rewrite Hr in Hc; by destruct Hc.
    + pose proof (users_put_effect id fields s) as H. unfold wp in H.
      destruct (_ && _); [|by destruct H as [_ ->]].
      destruct (isObjectId id); [|by destruct H as (_ & ? & ?)].
      destruct (users s !! id); [|by destruct H as (_ & ? & ?)].
      cbn zeta in H. destruct (User.email_taken _ _ _); [by destruct H as (_ & ? & ?)|].
      destruct H as [_ H]. exfalso.
      destruct (UserBody.pendingTasks fields).
      * cbn zeta in H. destruct (negb _); [|destruct (negb _)];
          destruct H as [Hr _]; rewrite Hr in Hc; by destruct Hc.
      * destruct H as [Hr _]. rewrite Hr in Hc. by destruct Hc.
    + pose proof (users_delete_effect id s) as H. unfold wp in H.
      destruct (isObjectId id); [|by destruct H as (_ & ? & ?)].
      destruct (users s !! id); [|by destruct H as (_ & ? & ?)].
      destruct H as (Hr & _). rewrite Hr in Hc. by destruct Hc.
  - intros Hc. pose proof (users_post_effect oid now ub s) as H.
    unfold wp in H. cbn zeta in H.
    destruct (_ && _); [|by destruct H as [_ ->]].
    destruct H as [H|[H|H]].
    + by destruct H as (_ & ? & ? & _).
    + by destruct H as (_ & ? & ? & _).
    + destruct H as (Hr & _). rewrite Hr in Hc. by cbn in Hc.
Qed.

Lemma refusals_write_nothing_witness :
  (users (perform (DeleteTask t5) alice_with_t1).2 = users alice_with_t1 ∧
   tasks (perform (DeleteTask t5) alice_with_t1).2 = tasks alice_with_t1) ∧
  (users (users_post u2 8 alice_again alice_with_t1).2 = users alice_with_t1 ∧
   tasks (users_post u2 8 alice_again alice_with_t1).2 = tasks alice_with_t1).
Proof.
  destruct (refusals_write_nothing (DeleteTask t5) u2 8 alice_again
              alice_with_t1) as [H1 H2].
  split.
  - apply H1. right. vm_compute. reflexivity.
  - apply H2. vm_compute. reflexivity.
Defined.

(** X10. An identifier that the cast refuses is refused before the
    store is called: [DELETE /tasks/:id] and
    [DELETE /users/:id], and [PUT /tasks/:id] and [PUT /users/:id] once
    the payload has its required fields, answer 500 and leave the store,
    trace included, exactly as it was. *)
Theorem ill_formed_id_is_refused_first
    (id : string) (tb : TaskBody.t) (ub : UserBody.t) (s : Store) :
  uncastable id = true →
  (status_of (tasks_delete id s).1 = Some 500%nat ∧ (tasks_delete id s).2 = s) ∧
  (status_of (users_delete id s).1 = Some 500%nat ∧ (users_delete id s).2 = s) ∧
  (truthy (TaskBody.name tb) = true → truthy (TaskBody.deadline tb) = true →
     status_of (tasks_put id tb s).1 = Some 500%nat ∧ (tasks_put id tb s).2 = s) ∧
  (truthy (UserBody.name ub) = true → truthy (UserBody.email ub) = true →
     status_of (users_put id ub s).1 = Some 500%nat ∧ (users_put id ub s).2 = s).
Proof.
  intros Hid%uncastable_not_ObjectId. split; [|split; [|split]].
  - enough (wp (tasks_delete id) s (λ r s', status_of r = Some 500%nat ∧ s' = s)) as H
      by exact H.
    unfold tasks_delete. wp_steps. rewrite Hid. by wp_steps.
  - enough (wp (users_delete id) s (λ r s', status_of r = Some 500%nat ∧ s' = s)) as H
      by exact H.
    unfold users_delete. wp_steps. rewrite Hid. by wp_steps.
  - intros Hn Hd.
    enough (wp (tasks_put id tb) s (λ r s', status_of r = Some 500%nat ∧ s' = s)) as H
      by exact H.
    unfold tasks_put. wp_step. rewrite Hn, Hd. cbn [negb orb].
    wp_steps. rewrite Hid. by wp_steps.
  - intros Hn He.
    enough (wp (users_put id ub) s (λ r s', status_of r = Some 500%nat ∧ s' = s)) as H
      by exact H.
    unfold users_put. wp_step. rewrite Hn, He. cbn [negb orb].
    wp_steps. rewrite Hid. by wp_steps.
Qed.

Lemma ill_formed_id_is_refused_first_witness :
  (status_of (tasks_delete junk alice_with_t1).1 = Some 500%nat ∧
   (tasks_delete junk alice_with_t1).2 = alice_with_t1) ∧
  (status_of (users_put junk alice_again alice_with_t1).1 = Some 500%nat ∧
   (users_put junk alice_again alice_with_t1).2 = alice_with_t1).
Proof.
  destruct (ill_formed_id_is_refused_first junk TaskBody.empty alice_again alice_with_t1)
    as (Ht & _ & _ & Hu); [reflexivity|].
  split; [exact Ht | apply Hu; reflexivity].
Defined.

(** ** Not found *)

Lemma not_found_cases
    (id : string) (tb : TaskBody.t) (ub : UserBody.t) (s : Store) :
  (status_of (tasks_delete id s).1 = Some 404%nat ↔
     isObjectId id = true ∧ tasks s !! id = None) ∧
  (status_of (users_delete id s).1 = Some 404%nat ↔
     isObjectId id = true ∧ users s !! id = None) ∧
  (truthy (TaskBody.name tb) = true → truthy (TaskBody.deadline tb) = true →
     (status_of (tasks_put id tb s).1 = Some 404%nat ↔
        isObjectId id = true ∧ tasks s !! id = None)) ∧
  (truthy (UserBody.name ub) = true → truthy (UserBody.email ub) = true →
     (status_of (users_put id ub s).1 = Some 404%nat ↔
        isObjectId id = true ∧ users s !! id = None)).
Proof.
  split_and!.
  - pose proof (tasks_delete_effect id s) as H. unfold wp in H.
    destruct (isObjectId id).
    2:{ destruct H as (-> & _). split; [done | by intros [? _]]. }
    destruct (tasks s !! id).
    2:{ destruct H as (-> & _). by split. }
    destruct H as [_ H]. destruct (miscast _ _); destruct H as [-> _];
      (split; [done | by intros [_ ?]]).
  - pose proof (users_delete_effect id s) as H. unfold wp in H.
    destruct (isObjectId id).
    2:{ destruct H as (-> & _). split; [done | by intros [? _]]. }
    destruct (users s !! id); destruct H as (-> & _);
      [split; [done | by intros [_ ?]] | by split].
  - intros Hn Hd. pose proof (tasks_put_effect id tb s) as H. unfold wp in H.
    rewrite Hn, Hd in H. cbn [andb] in H.
    destruct (isObjectId id).
    2:{ destruct H as (-> & _). split; [done | by intros [? _]]. }
    destruct (tasks s !! id).
    2:{ destruct H as (-> & _). by split. }
    destruct (_ || _).
    { destruct H as (-> & _). split; [done | by intros [_ ?]]. }
    cbn zeta in H. destruct H as [_ H]. destruct (tasks_put_miscast _ _ _).
    + rewrite H. split; [done | by intros [_ ?]].
    + destruct H as [-> _]. split; [done | by intros [_ ?]].
  - intros Hn He. pose proof (users_put_effect id ub s) as H. unfold wp in H.
    rewrite Hn, He in H. cbn [andb] in H.
    destruct (isObjectId id).
    2:{ destruct H as (-> & _). split; [done | by intros [? _]]. }
    destruct (users s !! id).
    2:{ destruct H as (-> & _). by split. }
    cbn zeta in H. destruct (User.email_taken _ _ _).
    { destruct H as (-> & _). split; [done | by intros [_ ?]]. }
    destruct H as [_ H]. destruct (UserBody.pendingTasks ub).
    + cbn zeta in H. destruct (negb _); [|destruct (negb _)];
        destruct H as [-> _]; (split; [done | by intros [_ ?]]).
    + destruct H as [-> _]. split; [done | by intros [_ ?]].
Qed.

(** X11. The not-found answer.  Under an ObjectId, [DELETE /tasks/:id]
    and [DELETE /users/:id] answer 404 exactly when the addressed
    document is not stored; so do [PUT /tasks/:id] and [PUT /users/:id]
    once the payload has its required fields. *)
Theorem not_found_iff_missing
    (id : string) (tb : TaskBody.t) (ub : UserBody.t) (s : Store) :
  isObjectId id = true →
  (status_of (tasks_delete id s).1 = Some 404%nat ↔ tasks s !! id = None) ∧
  (status_of (users_delete id s).1 = Some 404%nat ↔ users s !! id = None) ∧
  (truthy (TaskBody.name tb) = true → truthy (TaskBody.deadline tb) = true →
     (status_of (tasks_put id tb s).1 = Some 404%nat ↔ tasks s !! id = None)) ∧
  (truthy (UserBody.name ub) = true → truthy (UserBody.email ub) = true →
     (status_of (users_put id ub s).1 = Some 404%nat ↔ users s !! id = None)).
Proof.
  intros Hid. destruct (not_found_cases id tb ub s) as (H1 & H2 & H3 & H4).
  split_and!.
  - rewrite H1. tauto.
  - rewrite H2. tauto.
  - intros Hn Hd. rewrite (H3 Hn Hd). tauto.
  - intros Hn He. rewrite (H4 Hn He). tauto.
Qed.

Lemma not_found_iff_missing_witness :
  status_of (tasks_put t5 t1_without_assignedUser alice_with_t1).1 = Some 404%nat ∧
  status_of (users_put u9 alice_again alice_with_t1).1 = Some 404%nat.
Proof.
  destruct (not_found_iff_missing t5 t1_without_assignedUser alice_again alice_with_t1)
    as (_ & _ & Ht & _); [reflexivity|].
  destruct (not_found_iff_missing u9 t1_without_assignedUser alice_again alice_with_t1)
    as (_ & _ & _ & Hu); [reflexivity|].
  split.
  - apply Ht; reflexivity.
  - apply Hu; reflexivity.
Defined.

(** ** Deleting *)

(** X12. [DELETE /users/:id] of a stored user answers 200 and removes
    that user document only.  Every task assigned to the user is set back
    to unassigned, whether or not the user's [pendingTasks] named it;
    every other task is as before; afterwards no task is assigned to the
    deleted identifier. *)
Theorem users_delete_cascade (id : string) (s : Store) (u : UserSchema.doc) :
  isObjectId id = true →
  users s !! id = Some u →
  status_of (users_delete id s).1 = Some 200%nat ∧
  users (users_delete id s).2 = delete id (users s) ∧
  (∀ tid, tasks (users_delete id s).2 !! tid =
     (λ t, if bool_decide (TaskSchema.assignedUser t = id)
           then Task.set_assignment "" "unassigned" t else t) <$> tasks s !! tid) ∧
  (∀ tid t', tasks (users_delete id s).2 !! tid = Some t' →
     TaskSchema.assignedUser t' ≠ id).
Proof.
  intros Hid Hu. pose proof (users_delete_effect id s) as H. unfold wp in H.
  rewrite Hid, Hu in H. destruct H as (-> & -> & ->). split_and!; try done.
  - intros tid. by rewrite set_many_lookup.
  - intros tid t'. rewrite set_many_lookup.
    destruct (tasks s !! tid) as [t|]; [|done]. intros [= <-].
    rewrite owned_by_spec. apply isObjectId_nonempty in Hid.
    case_bool_decide; [cbn; congruence | done].
Qed.

(** Alice's list is empty although [t1] is assigned to her. *)
Definition alice_unlisted_t1 : Store :=
  mkStore {[u1 := alice]}
          {[t1 := TaskSchema.mk "T1" "" 7 false u1 "Alice" 9]} [].

Lemma users_delete_cascade_witness :
  users (users_delete u1 alice_unlisted_t1).2 = ∅ ∧
  tasks (users_delete u1 alice_unlisted_t1).2 !! t1
    = Some (TaskSchema.mk "T1" "" 7 false "" "unassigned" 9).
Proof.
  destruct (users_delete_cascade u1 alice_unlisted_t1 alice)
    as (_ & Hus & Hts & _); [reflexivity | reflexivity |].
  split.
  - rewrite Hus. apply delete_singleton_eq.
  - rewrite Hts. reflexivity.
Defined.

(** X13. [DELETE /tasks/:id] of a stored task whose [assignedUser] is
    empty or the string form of an ObjectId answers 200 and removes that
    task document only.  The user the task was assigned to, if stored,
    loses every occurrence of the identifier in [pendingTasks]; every
    other user document is as before, even one whose list names the
    task. *)
Theorem tasks_delete_cascade (id : string) (s : Store) (t : TaskSchema.doc) :
  isObjectId id = true →
  tasks s !! id = Some t →
  TaskSchema.assignedUser t = "" ∨ isObjectId (TaskSchema.assignedUser t) = true →
  status_of (tasks_delete id s).1 = Some 200%nat ∧
  tasks (tasks_delete id s).2 = delete id (tasks s) ∧
  (∀ uid, users (tasks_delete id s).2 !! uid =
     (λ u, if bool_decide (uid = TaskSchema.assignedUser t) && truthy uid
           then User.set_pendingTasks u (User.without id (UserSchema.pendingTasks u))
           else u) <$> users s !! uid) ∧
  (∀ u', users (tasks_delete id s).2 !! TaskSchema.assignedUser t = Some u' →
     TaskSchema.assignedUser t ≠ "" → id ∉ UserSchema.pendingTasks u').
Proof.
  intros Hid Ht Ha. pose proof (tasks_delete_effect id s) as H. unfold wp in H.
  rewrite Hid, Ht in H. destruct H as (-> & H).
  assert (miscast (TaskSchema.assignedUser t) id = false) as Hm.
  { unfold miscast. destruct Ha as [-> | ->]; [done | by rewrite andb_false_r]. }
  rewrite Hm in H. destruct H as (-> & ->).
  assert (∀ uid,
    (if truthy (TaskSchema.assignedUser t)
     then pulled (TaskSchema.assignedUser t) id (users s) else users s) !! uid =
    (λ u, if bool_decide (uid = TaskSchema.assignedUser t) && truthy uid
          then User.set_pendingTasks u (User.without id (UserSchema.pendingTasks u))
          else u) <$> users s !! uid) as Hlook.
  { intros uid. unfold pulled. apply isObjectId_truthy in Hid as Hid'. rewrite Hid'.
    destruct (truthy (TaskSchema.assignedUser t)) eqn:Ea; cbn [andb].
    - rewrite pull_lookup. destruct (users s !! uid); [|done]. cbn.
      case_bool_decide as E; [|done]. subst uid. by rewrite Ea.
    - destruct (users s !! uid); [|done]. cbn.
      case_bool_decide as E; [|done]. subst uid. by rewrite Ea. }
  split_and!; try done.
  intros u'. rewrite Hlook. destruct (users s !! _) as [u|]; [|done].
  intros [= <-] Hne. rewrite bool_decide_eq_true_2 by done.
  apply truthy_string_true in Hne as ->. cbn. rewrite elem_of_without. tauto.
Qed.

Lemma tasks_delete_cascade_witness :
  tasks (tasks_delete t2 alice_and_bob).2 !! t2 = None ∧
  UserSchema.pendingTasks <$> users (tasks_delete t2 alice_and_bob).2 !! u2
    = Some [] ∧
  UserSchema.pendingTasks <$> users (tasks_delete t2 alice_and_bob).2 !! u1
    = Some [t1; t2; t3].
Proof.
  destruct (tasks_delete_cascade t2 alice_and_bob
              (TaskSchema.mk "T2" "" 7 false u2 "Bob" 9))
    as (_ & Hts & Hus & _); [reflexivity | reflexivity | by right |].
  split_and!.
  - rewrite Hts. apply lookup_delete_eq.
  - rewrite Hus. reflexivity.
  - rewrite Hus. reflexivity.
Defined.

(** ** Assigning *)

Lemma g_pull_other_user a t uid l : uid ≠ a → g_pull a t uid l = l.
Proof. intros H. unfold g_pull. by rewrite bool_decide_eq_false_2, andb_false_r. Qed.

Lemma g_push_other_user a t uid l : uid ≠ a → g_push a t uid l = l.
Proof. intros H. unfold g_push. by rewrite bool_decide_eq_false_2, andb_false_r. Qed.

Lemma g_when_same b g uid l : g uid l = l → g_when b g uid l = l.
Proof. intros H. unfold g_when. by destruct b. Qed.

(** X14. [PUT /tasks/:id] that moves an uncompleted task from user [u]
    to another user [v], all identifiers being of the form the store
    issues and the dates within range: the answer is 200, the task is
    assigned to [v] under [v]'s current name ("unassigned" when [v] is
    not stored); [u]'s list does not name the task any more, [v]'s list
    names it, and every other user document is as before. *)
Theorem tasks_put_moves_pending
    (id u v : string) (body : TaskBody.t) (s : Store) (prev : TaskSchema.doc) :
  isObjectId id = true → isObjectId v = true →
  u = "" ∨ isObjectId u = true → u ≠ v →
  truthy (TaskBody.name body) = true →
  truthy (TaskBody.deadline body) = true →
  Task.dates_cast body = true →
  tasks s !! id = Some prev →
  TaskSchema.assignedUser prev = u →
  TaskBody.assignedUser body = Some v →
  default (TaskSchema.completed prev) (TaskBody.completed body) = false →
  status_of (tasks_put id body s).1 = Some 200%nat ∧
  (∃ t', tasks (tasks_put id body s).2 !! id = Some t' ∧
         TaskSchema.assignedUser t' = v ∧
         TaskSchema.assignedUserName t' = resolved (users s) v) ∧
  (∀ usr', users (tasks_put id body s).2 !! u = Some usr' → u ≠ "" →
     id ∉ UserSchema.pendingTasks usr') ∧
  (∀ usr', users (tasks_put id body s).2 !! v = Some usr' →
     id ∈ UserSchema.pendingTasks usr') ∧
  (is_Some (users (tasks_put id body s).2 !! v) ↔ is_Some (users s !! v)) ∧
  (∀ uid, uid ≠ u → uid ≠ v →
     users (tasks_put id body s).2 !! uid = users s !! uid).
Proof.
  intros Hid Hv Hu Huv Hn Hd Hdates Hp Hpu Ha Hc.
  pose proof (tasks_put_effect id body s) as H. unfold wp in H.
  rewrite Hn, Hd, Hid, Hp, Hdates in H. cbn [andb negb] in H.
  unfold assignee_miscast in H. rewrite Ha in H.
  cbn [default from_option Datatypes.id] in H. rewrite Hv, andb_false_r in H.
  cbn [orb] in H. destruct H as (-> & H).
  set (updated := tasks_put_updated body prev (users s)) in *.
  assert (TaskSchema.assignedUser updated = v) as Hua by (cbn; by rewrite Ha).
  assert (TaskSchema.completed updated = false) as Hcu by exact Hc.
  apply isObjectId_truthy in Hv as Hv'. apply isObjectId_truthy in Hid as Hid'.
  assert (tasks_put_miscast id prev updated = false) as Hm.
  { unfold tasks_put_miscast, miscast. rewrite Hua, Hpu, Hv, !andb_false_r.
    destruct Hu as [-> | ->]; [done | by rewrite !andb_false_r]. }
  rewrite Hm in H. destruct H as (-> & ->).
  rewrite tasks_put_users_repend. cbn zeta. rewrite Hua, Hcu, Hpu.
  rewrite Hv'. cbn [andb negb]. rewrite (bool_decide_eq_false_2 (u = v)) by done.
  split_and!.
  - done.
  - exists updated. rewrite lookup_insert_eq. split_and!; [done | done |].
    cbn. by rewrite Ha.
  - intros usr'. rewrite repend_lookup. destruct (users s !! u) as [usr|]; [|done].
    intros [= <-] Hne. apply truthy_string_true in Hne as Hu'.
    unfold User.set_pendingTasks. cbn [UserSchema.pendingTasks].
    apply occ_zero. rewrite (g_push_other_user v id u _ Huv).
    rewrite occ_g_when, occ_g_pull, Hu', Hid'. cbn [andb].
    by rewrite !bool_decide_eq_true_2.
  - intros usr'. rewrite repend_lookup. destruct (users s !! v) as [usr|]; [|done].
    intros [= <-]. unfold User.set_pendingTasks. cbn [UserSchema.pendingTasks].
    apply occ_pos.
    rewrite (g_when_same _ _ _ _ (g_pull_other_user u id v _ (not_eq_sym Huv))).
    rewrite occ_g_push, Hv', Hid'. cbn [andb].
    rewrite !bool_decide_eq_true_2 by done. cbn [andb].
    destruct (occ id _ =? 0)%nat eqn:E; [done | by apply Nat.eqb_neq in E].
  - rewrite repend_lookup. by rewrite fmap_is_Some.
  - intros uid Hne1 Hne2. rewrite repend_lookup.
    destruct (users s !! uid) as [usr|]; [|done]. cbn [fmap option_fmap option_map].
    f_equal. change (g_when false (g_pull v id) uid ?l) with l.
    change (g_when true (g_push v id) uid ?l) with (g_push v id uid l).
    rewrite (g_when_same _ _ _ _ (g_pull_other_user u id uid _ Hne1)).
    rewrite (g_push_other_user v id uid _ Hne2).
    apply set_pendingTasks_id.
Qed.

Definition t1_to_bob : TaskBody.t :=
  TaskBody.mk (Some "T1") None (Some 7) None (Some u2) None None.

Lemma tasks_put_moves_pending_witness :
  (∃ usr', users (tasks_put t1 t1_to_bob alice_bob_settled).2 !! u1 = Some usr' ∧
           t1 ∉ UserSchema.pendingTasks usr') ∧
  (∃ usr', users (tasks_put t1 t1_to_bob alice_bob_settled).2 !! u2 = Some usr' ∧
           t1 ∈ UserSchema.pendingTasks usr').
Proof.
  destruct (tasks_put_moves_pending t1 u1 u2 t1_to_bob alice_bob_settled
              (TaskSchema.mk "T1" "" 7 false u1 "Alice" 9))
    as (_ & _ & Hu & Hv & _); try reflexivity; try discriminate; [by right|].
  split.
  - eexists. split; [vm_compute; reflexivity|]. apply Hu; [vm_compute; reflexivity|].
    discriminate.
  - eexists. split; [vm_compute; reflexivity|]. apply Hv. vm_compute. reflexivity.
Defined.

(** X15. [POST /tasks] with the required fields and dates within
    range, assigned to a stored user, under a fresh non-empty
    identifier: the answer is 201 and one task document is added,
    assigned to the user under the user's current name.  Unless the
    payload says the task is completed, the user's list names the new
    task afterwards (it is appended when absent); when the payload says
    it is completed, no user document changes.  Every other user is as
    before. *)
Theorem tasks_post_assigned
    (oid a : string) (now : Z) (body : TaskBody.t) (s : Store) (usr : UserSchema.doc) :
  oid ≠ "" → isObjectId a = true →
  truthy (TaskBody.name body) = true →
  truthy (TaskBody.deadline body) = true →
  Task.dates_cast body = true →
  TaskBody.assignedUser body = Some a →
  users s !! a = Some usr →
  tasks s !! oid = None →
  ∃ t,
    (tasks_post oid now body s).1 = Ok (mkResponse 201 "Task created" (DTask oid t)) ∧
    tasks (tasks_post oid now body s).2 = <[oid := t]> (tasks s) ∧
    TaskSchema.assignedUser t = a ∧
    TaskSchema.assignedUserName t = UserSchema.name usr ∧
    TaskSchema.completed t = default false (TaskBody.completed body) ∧
    (TaskBody.completed body ≠ Some true →
       ∃ usr', users (tasks_post oid now body s).2 !! a = Some usr' ∧
         oid ∈ UserSchema.pendingTasks usr' ∧
         (oid ∉ UserSchema.pendingTasks usr →
            UserSchema.pendingTasks usr' = (UserSchema.pendingTasks usr ++ [oid])%list)) ∧
    (TaskBody.completed body = Some true →
       users (tasks_post oid now body s).2 = users s) ∧
    (∀ uid, uid ≠ a → users (tasks_post oid now body s).2 !! uid = users s !! uid).
Proof.
  intros Hoid Ha Hn Hd Hdates Hau Hu Ho.
  pose proof (tasks_post_effect oid now body s) as H. unfold wp in H.
  rewrite Hn, Hd in H. cbn [andb] in H. unfold assignee_miscast, tasks_post_created in H.
  rewrite Hau in H. cbn [default from_option Datatypes.id] in H.
  rewrite Ha, andb_false_r in H.
  destruct (Task_new_valid (TaskBody.with_assignedUserName body
              (resolved (users s) (default "" (TaskBody.assignedUser body)))) now)
    as (n & d & _ & _ & Hnew); [cbn; by rewrite Hn, Hd | done |].
  rewrite Hau in Hnew. cbn [default from_option Datatypes.id] in Hnew.
  rewrite Hnew, Ho in H. clear Hnew. destruct H as (-> & -> & ->).
  apply isObjectId_truthy in Ha as Ha'. apply truthy_string_true in Hoid as Hoid'.
  eexists. split; [done|]. split; [done|].
  cbn [TaskSchema.assignedUser TaskSchema.assignedUserName TaskSchema.completed
       TaskBody.with_assignedUserName TaskBody.assignedUser TaskBody.assignedUserName
       TaskBody.completed].
  rewrite Hau. cbn [default from_option Datatypes.id]. unfold resolved. rewrite Ha', Hu.
  change (truthy (Some a)) with (truthy a). rewrite Ha'. cbn [andb].
  split_and!; try done.
  - intros Hc.
    assert (truthy (TaskBody.completed body) = false) as ->.
    { destruct (TaskBody.completed body) as [[]|]; done. }
    cbn [negb]. unfold pushed. rewrite Ha', Hoid'. cbn [andb].
    rewrite push_lookup, Hu. cbn [fmap option_fmap option_map].
    rewrite bool_decide_eq_true_2 by done. cbn [andb].
    destruct (decide (oid ∈ UserSchema.pendingTasks usr)) as [Hin|Hout].
    + rewrite (bool_decide_eq_true_2 _ Hin). cbn [negb]. exists usr. by split_and!.
    + rewrite (bool_decide_eq_false_2 _ Hout). cbn [negb]. eexists. split; [done|].
      unfold User.set_pendingTasks. cbn [UserSchema.pendingTasks].
      split; [|done]. apply elem_of_app. right. by apply list_elem_of_singleton.
  - intros ->. done.
  - intros uid Hne. destruct (negb _); [|done].
    unfold pushed. rewrite Ha', Hoid'. cbn [andb]. rewrite push_lookup.
    destruct (users s !! uid); [|done]. cbn. by rewrite bool_decide_eq_false_2.
Qed.

Definition t2_for_alice : TaskBody.t :=
  TaskBody.mk (Some "T2") None (Some 7) None (Some u1) None None.

Lemma tasks_post_assigned_witness :
  ∃ t usr',
    tasks (tasks_post t2 9 t2_for_alice alice_with_t1).2 !! t2 = Some t ∧
    TaskSchema.assignedUserName t = "Alice" ∧
    users (tasks_post t2 9 t2_for_alice alice_with_t1).2 !! u1 = Some usr' ∧
    UserSchema.pendingTasks usr' = [t1; t2].
Proof.
  destruct (tasks_post_assigned t2 u1 9 t2_for_alice alice_with_t1
              (UserSchema.mk "Alice" "a@x.com" [t1] 5))
    as (t & _ & Hts & _ & Hname & _ & Hpend & _); try reflexivity; try discriminate.
  destruct Hpend as (usr' & Hu' & _ & Happ); [discriminate|].
  exists t, usr'. split_and!.
  - rewrite Hts. apply lookup_insert_eq.
  - exact Hname.
  - exact Hu'.
  - apply Happ. apply (bool_decide_unpack _). vm_compute. exact I.
Defined.

(** ** Replacing a user *)

Lemma email_taken_insert_self us id u e :
  User.email_taken (<[id := u]> us) id e = User.email_taken us id e.
Proof.
  apply bool_decide_ext. rewrite !Exists_exists. split.
  - intros ([k v] & Hin & Hne & He). apply elem_of_map_to_list in Hin. cbn in *.
    rewrite lookup_insert_ne in Hin by done. exists (k, v). split; [|done].
    by apply elem_of_map_to_list.
  - intros ([k v] & Hin & Hne & He). apply elem_of_map_to_list in Hin. cbn in *.
    exists (k, v). split; [|done]. apply elem_of_map_to_list.
    by rewrite lookup_insert_ne.
Qed.

Lemma set_many_none matches u n (ts : gmap string TaskSchema.doc) :
  (∀ i t, matches i t = false) → Task.set_many matches u n ts = ts.
Proof.
  intros H. apply map_eq. intros i. rewrite set_many_lookup.
  destruct (ts !! i) as [t|]; [|done]. cbn. by rewrite H.
Qed.

Lemma set_many_ext m1 m2 u n (ts : gmap string TaskSchema.doc) :
  (∀ i t, m1 i t = m2 i t) → Task.set_many m1 u n ts = Task.set_many m2 u n ts.
Proof.
  intros H. apply map_eq. intros i. rewrite !set_many_lookup.
  destruct (ts !! i) as [t|]; [|done]. cbn. by rewrite H.
Qed.

Lemma assigns_same (p : list string) i t : assigns p p i t = false.
Proof. rewrite assigns_spec. apply bool_decide_eq_false. rewrite elem_of_added. tauto. Qed.

Lemma unassigns_same id (p : list string) i t : unassigns id p p i t = false.
Proof.
  rewrite unassigns_spec, bool_decide_eq_false_2; [done|]. rewrite elem_of_removed. tauto.
Qed.

Lemma forallb_members {A} (f : A → bool) (l l' : list A) :
  (∀ x, x ∈ l ↔ x ∈ l') → forallb f l = forallb f l'.
Proof.
  intros H. apply eq_true_iff_eq. rewrite !forallb_forall.
  split; intros Hf x Hx%list_elem_of_In; apply Hf, list_elem_of_In, H, Hx.
Qed.

Lemma removed_same (p : list string) : removed p p = [].
Proof.
  destruct (removed p p) as [|x l] eqn:E; [done|].
  assert (x ∈ removed p p) as Hx by (rewrite E; left).
  apply elem_of_removed in Hx. tauto.
Qed.

Lemma added_same (p : list string) : added p p = [].
Proof.
  destruct (added p p) as [|x l] eqn:E; [done|].
  assert (x ∈ added p p) as Hx by (rewrite E; left).
  apply elem_of_added in Hx. tauto.
Qed.

(** The task documents after the bulk updates of [PUT /users/:id],
    which stop at the first list the cast refuses. *)
Definition users_put_tasks_after (id n : string) (p next : list string)
    (ts : gmap string TaskSchema.doc) : gmap string TaskSchema.doc :=
  let ts1 := Task.set_many (unassigns id p next) "" "unassigned" ts in
  if negb (forallb isObjectId (removed p next)) then ts
  else if negb (forallb isObjectId (added p next)) then ts1
  else Task.set_many (assigns p next) id n ts1.

(** The documents after [PUT /users/:id], whatever the answer. *)
Lemma users_put_docs id body s :
  let s' := (users_put id body s).2 in
  (users s' = users s ∧ tasks s' = tasks s ∧
   status_of (users_put id body s).1 ≠ Some 200%nat ∧
   (truthy (UserBody.name body) && truthy (UserBody.email body) = false ∨
    isObjectId id = false ∨
    users s !! id = None ∨
    ∃ prev, users s !! id = Some prev ∧
      User.email_taken (users s) id (UserSchema.email (users_put_updated body prev)) = true)) ∨
  (∃ prev, users s !! id = Some prev ∧
     truthy (UserBody.name body) && truthy (UserBody.email body) = true ∧
     isObjectId id = true ∧
     User.email_taken (users s) id (UserSchema.email (users_put_updated body prev)) = false ∧
     users s' = <[id := users_put_updated body prev]> (users s) ∧
     tasks s' = match UserBody.pendingTasks body with
                | Some next =>
                    users_put_tasks_after id (UserSchema.name (users_put_updated body prev))
                      (UserSchema.pendingTasks prev) next (tasks s)
                | None => tasks s
                end ∧
     status_of (users_put id body s).1 =
       Some (match UserBody.pendingTasks body with
             | Some next =>
                 if forallb isObjectId (removed (UserSchema.pendingTasks prev) next)
                    && forallb isObjectId (added (UserSchema.pendingTasks prev) next)
                 then 200%nat else 500%nat
             | None => 200%nat
             end)).
Proof.
  cbn zeta. pose proof (users_put_effect id body s) as H. unfold wp in H.
  destruct (truthy (UserBody.name body) && truthy (UserBody.email body)) eqn:Hv.
  2:{ destruct H as [-> ->]. left. split_and!; try done. by left. }
  destruct (isObjectId id) eqn:Hid.
  2:{ destruct H as (Hr & -> & ->). left. split_and!; try done.
      - rewrite Hr. discriminate.
      - right. by left. }
  destruct (users s !! id) as [prev|] eqn:Ep.
  2:{ destruct H as (-> & -> & ->). left. split_and!; try done. right. right. by left. }
  cbn zeta in H. destruct (User.email_taken _ _ _) eqn:Et.
  { destruct H as (Hr & -> & ->). left. split_and!; try done.
    - rewrite Hr. discriminate.
    - right. right. right. eauto. }
  destruct H as (-> & H). right. exists prev. split_and!; try done.
  - destruct (UserBody.pendingTasks body) as [next|]; [|by destruct H as (_ & -> & _)].
    cbn zeta in H. unfold users_put_tasks_after. cbn zeta.
    destruct (forallb isObjectId (removed _ _)); cbn [negb] in *; [|by destruct H].
    destruct (forallb isObjectId (added _ _)); cbn [negb] in *; [|by destruct H].
    by destruct H as (_ & -> & _).
  - destruct (UserBody.pendingTasks body) as [next|]; [|by destruct H as (-> & _)].
    cbn zeta in H.
    destruct (forallb isObjectId (removed _ _)); cbn [negb andb] in *; [|by destruct H].
    destruct (forallb isObjectId (added _ _)); cbn [negb] in *; [|by destruct H].
    by destruct H as (-> & _).
Qed.

Lemma users_put_updated_again body prev :
  users_put_updated body (users_put_updated body prev) = users_put_updated body prev.
Proof.
  unfold users_put_updated. cbn. by destruct (UserBody.pendingTasks body).
Qed.

Lemma users_put_tasks_after_same id n p ts : users_put_tasks_after id n p p ts = ts.
Proof.
  unfold users_put_tasks_after. cbn zeta. rewrite removed_same, added_same. cbn.
  rewrite (set_many_none (unassigns id p p)) by apply unassigns_same.
  by rewrite (set_many_none (assigns p p)) by apply assigns_same.
Qed.

(** X16. [PUT /users/:id] is idempotent on the documents: sending the
    same payload to the same identifier a second time leaves every user
    and every task as the first call left them - also when the first
    call stopped at an identifier the cast refuses.  Once the first call
    has written the user, the second one is answered 200: it finds the
    list it is sent already stored, so both sides of the difference are
    empty. *)
Theorem users_put_idempotent (id : string) (body : UserBody.t) (s : Store) :
  users (users_put id body (users_put id body s).2).2 = users (users_put id body s).2 ∧
  tasks (users_put id body (users_put id body s).2).2 = tasks (users_put id body s).2 ∧
  (users (users_put id body s).2 ≠ users s ∨
   status_of (users_put id body s).1 = Some 200%nat →
   status_of (users_put id body (users_put id body s).2).1 = Some 200%nat).
Proof.
  destruct (users_put_docs id body s) as [(Hus & Hts & Hst & Hwhy)|Hok].
  - (* refused: the second call meets the same documents *)
    destruct (users_put_docs id body (users_put id body s).2)
      as [(Hus2 & Hts2 & Hst2 & _)|(prev & Hp & Hv & Hid & Het & _)].
    + split_and!; [done | done |]. intros [?|?]; done.
    + exfalso. rewrite Hus in Hp, Het.
      destruct Hwhy as [Hw|[Hw|[Hw|(prev' & Hp' & Hw)]]]; congruence.
  - destruct Hok as (prev & Hp & Hv & Hid & Het & Hus & Hts & Hr).
    destruct (users_put_docs id body (users_put id body s).2)
      as [(_ & _ & _ & Hwhy)|(prev2 & Hp2 & _ & _ & _ & Hus2 & Hts2 & Hr2)].
    + exfalso. rewrite Hus in Hwhy. destruct Hwhy as [Hw|[Hw|[Hw|(prev' & Hp' & Hw)]]].
      * congruence.
      * congruence.
      * by rewrite lookup_insert_eq in Hw.
      * rewrite lookup_insert_eq in Hp'. injection Hp' as <-.
        rewrite email_taken_insert_self in Hw.
        rewrite users_put_updated_again in Hw. congruence.
    + rewrite Hus, lookup_insert_eq in Hp2. injection Hp2 as <-.
      rewrite users_put_updated_again in *.
      assert (∀ next, UserBody.pendingTasks body = Some next →
                UserSchema.pendingTasks (users_put_updated body prev) = next) as Hnext
        by (intros next En; cbn; by rewrite En).
      split_and!.
      * rewrite Hus2, Hus. apply insert_insert_eq.
      * rewrite Hts2. destruct (UserBody.pendingTasks body) as [next|] eqn:En; [|done].
        rewrite (Hnext next eq_refl). apply users_put_tasks_after_same.
      * intros _. rewrite Hr2.
        destruct (UserBody.pendingTasks body) as [next|] eqn:En; [|done].
        by rewrite (Hnext next eq_refl), removed_same, added_same.
Qed.

Lemma users_put_idempotent_witness :
  status_of (perform alice_adds_t4_and_junk alice_bob_settled).1 = Some 500%nat ∧
  status_of (perform alice_adds_t4_and_junk
               (perform alice_adds_t4_and_junk alice_bob_settled).2).1 = Some 200%nat ∧
  TaskSchema.assignedUser <$>
    tasks (perform alice_adds_t4_and_junk
             (perform alice_adds_t4_and_junk alice_bob_settled).2).2 !! t4 = Some "".
Proof.
  split; [vm_compute; reflexivity|]. split.
  - apply (users_put_idempotent u1
             (UserBody.mk (Some "Alice") (Some "a@x.com") (Some [t1; t3; t4; junk]) None)
             alice_bob_settled).
    left. intros H. apply (f_equal (λ us, UserSchema.pendingTasks <$> us !! u1)) in H.
    vm_compute in H. discriminate H.
  - vm_compute. reflexivity.
Defined.

(** X17. The task side of [PUT /users/:id] depends on the supplied
    [pendingTasks] only as a set: two payloads with the same name and
    email whose lists have the same members, in any order and with any
    repetitions, leave the same task documents and get the same
    status. *)
Theorem users_put_order_irrelevant
    (id : string) (b1 b2 : UserBody.t) (n1 n2 : list string) (s : Store) :
  UserBody.name b1 = UserBody.name b2 →
  UserBody.email b1 = UserBody.email b2 →
  UserBody.pendingTasks b1 = Some n1 →
  UserBody.pendingTasks b2 = Some n2 →
  (∀ i, i ∈ n1 ↔ i ∈ n2) →
  tasks (users_put id b1 s).2 = tasks (users_put id b2 s).2 ∧
  status_of (users_put id b1 s).1 = status_of (users_put id b2 s).1.
Proof.
  intros Hn He Hp1 Hp2 Hmem.
  pose proof (users_put_effect id b1 s) as H1.
  pose proof (users_put_effect id b2 s) as H2. unfold wp in H1, H2.
  rewrite <- Hn, <- He in H2.
  destruct (_ && _); [|destruct H1 as [-> ->], H2 as [-> ->]; done].
  destruct (isObjectId id).
  2:{ destruct H1 as (Hr1 & _ & ->), H2 as (Hr2 & _ & ->). by rewrite Hr1, Hr2. }
  destruct (users s !! id) as [prev|];
    [|destruct H1 as (-> & _ & ->), H2 as (-> & _ & ->); done].
  cbn zeta in H1, H2.
  assert (UserSchema.email (users_put_updated b2 prev)
          = UserSchema.email (users_put_updated b1 prev)) as Hem
    by (cbn; by rewrite He).
  assert (UserSchema.name (users_put_updated b2 prev)
          = UserSchema.name (users_put_updated b1 prev)) as Hnm
    by (cbn; by rewrite Hn).
  rewrite Hem in H2. destruct (User.email_taken _ _ _).
  { destruct H1 as (Hr1 & _ & ->), H2 as (Hr2 & _ & ->). by rewrite Hr1, Hr2. }
  rewrite Hp1 in H1. rewrite Hp2 in H2. cbn zeta in H1, H2.
  destruct H1 as [_ H1], H2 as [_ H2].
  set (p := UserSchema.pendingTasks prev) in *.
  assert (∀ i, i ∈ removed p n1 ↔ i ∈ removed p n2) as Hrm
    by (intros i; rewrite !elem_of_removed, Hmem; tauto).
  assert (∀ i, i ∈ added p n1 ↔ i ∈ added p n2) as Had
    by (intros i; rewrite !elem_of_added, Hmem; tauto).
  rewrite <- (forallb_members isObjectId _ _ Hrm) in H2.
  rewrite <- (forallb_members isObjectId _ _ Had) in H2.
  assert (Task.set_many (unassigns id p n2) "" "unassigned" (tasks s)
          = Task.set_many (unassigns id p n1) "" "unassigned" (tasks s)) as Hts1.
  { apply set_many_ext. intros i t. rewrite !unassigns_spec. f_equal.
    apply bool_decide_ext. by rewrite Hrm. }
  rewrite Hts1 in H2.
  destruct (forallb isObjectId (removed p n1)); cbn [negb] in *.
  2:{ destruct H1 as (Hr1 & ->), H2 as (Hr2 & ->). by rewrite Hr1, Hr2. }
  destruct (forallb isObjectId (added p n1)); cbn [negb] in *.
  2:{ destruct H1 as (Hr1 & ->), H2 as (Hr2 & ->). by rewrite Hr1, Hr2. }
  destruct H1 as (-> & -> & _), H2 as (-> & -> & _). split; [|done].
  rewrite Hnm. apply set_many_ext. intros i t. rewrite !assigns_spec.
  apply bool_decide_ext. by rewrite Had.
Qed.

Definition alice_t3_t4 : UserBody.t :=
  UserBody.mk (Some "Alice") (Some "a@x.com") (Some [t3; t4]) None.
Definition alice_t4_t3_t4 : UserBody.t :=
  UserBody.mk (Some "Alice") (Some "a@x.com") (Some [t4; t3; t4]) None.

Lemma users_put_order_irrelevant_witness :
  tasks (users_put u1 alice_t3_t4 alice_bob_settled).2
    = tasks (users_put u1 alice_t4_t3_t4 alice_bob_settled).2.
Proof.
  apply (users_put_order_irrelevant u1 alice_t3_t4 alice_t4_t3_t4
           [t3; t4] [t4; t3; t4] alice_bob_settled); try reflexivity.
  intros i. rewrite !elem_of_cons, !elem_of_nil. tauto.
Defined.

(** X18. [PUT /users/:id] writes one user document.  Under an
    identifier every cast reads alike, whatever the answer, every other
    user is as before - so a task that the call
    takes over from another user stays named in that user's list.  When
    the answer is 200 the addressed user holds the payload's name, the
    email in normalised form, the supplied list exactly as sent (or the
    previous list when none was sent) and the creation date it had; and
    without a supplied list no task changes. *)
Theorem users_put_writes_one_user (id : string) (body : UserBody.t) (s : Store) :
  unambiguous id = true →
  (∀ uid, uid ≠ id → users (users_put id body s).2 !! uid = users s !! uid) ∧
  (status_of (users_put id body s).1 = Some 200%nat →
     ∃ prev n e, users s !! id = Some prev ∧
       UserBody.name body = Some n ∧ UserBody.email body = Some e ∧
       users (users_put id body s).2 !! id =
         Some (UserSchema.mk n (normalized e)
                 (default (UserSchema.pendingTasks prev) (UserBody.pendingTasks body))
                 (UserSchema.dateCreated prev))) ∧
  (UserBody.pendingTasks body = None →
     tasks (users_put id body s).2 = tasks s).
Proof.
  intros _. destruct (users_put_docs id body s) as [(Hus & Hts & Hst & _)|Hok].
  - split_and!; [by rewrite Hus | done | done].
  - destruct Hok as (prev & Hp & Hv & _ & _ & Hus & Hts & Hr). split_and!.
    + intros uid Hne. by rewrite Hus, lookup_insert_ne.
    + intros _. apply andb_true_iff in Hv as [Hn He].
      destruct (UserBody.name body) as [n|] eqn:En; [|done].
      destruct (UserBody.email body) as [e|] eqn:Ee; [|done].
      exists prev, n, e. split_and!; try done.
      rewrite Hus, lookup_insert_eq. f_equal. unfold users_put_updated.
      rewrite En, Ee. cbn [default from_option Datatypes.id].
      by rewrite <- (normalized_setters e).
    + intros Hnone. by rewrite Hts, Hnone.
Qed.

Definition alice_takes_t2 : UserBody.t :=
  UserBody.mk (Some "Alice") (Some "A@x.com") (Some [t1; t3; t2]) None.

Lemma users_put_writes_one_user_witness :
  users (users_put u1 alice_takes_t2 alice_bob_settled).2 !! u2
    = Some (UserSchema.mk "Bob" "b@x.com" [t2] 6) ∧
  users (users_put u1 alice_takes_t2 alice_bob_settled).2 !! u1
    = Some (UserSchema.mk "Alice" "a@x.com" [t1; t3; t2] 5) ∧
  TaskSchema.assignedUser <$>
    tasks (users_put u1 alice_takes_t2 alice_bob_settled).2 !! t2 = Some u1.
Proof.
  destruct (users_put_writes_one_user u1 alice_takes_t2 alice_bob_settled)
    as (Hother & Hself & _); [reflexivity|].
  split_and!.
  - rewrite Hother by discriminate. reflexivity.
  - destruct Hself as (prev & n & e & Hp & Hn & He & Hs); [vm_compute; reflexivity|].
    rewrite Hs. vm_compute in Hp, Hn, He.
    injection Hp as <-. injection Hn as <-. injection He as <-. vm_compute. reflexivity.
  - vm_compute. reflexivity.
Defined.

(** X19. [PUT /users/:id] writes the user before it casts the
    identifiers of the bulk updates, and nothing is rolled back.  When
    the identifiers the new list drops are ObjectIds and one of those
    it adds is refused by the cast, the call is answered 500; the user
    holds the new list; the removed tasks of this user are unassigned;
    and no task is assigned: a task the list adds is as it was. *)
Theorem users_put_stops_at_the_cast
    (id : string) (body : UserBody.t) (s : Store)
    (prev : UserSchema.doc) (next : list string) (bad : string) :
  truthy (UserBody.name body) = true → truthy (UserBody.email body) = true →
  isObjectId id = true →
  users s !! id = Some prev →
  User.email_taken (users s) id (UserSchema.email (users_put_updated body prev)) = false →
  UserBody.pendingTasks body = Some next →
  forallb isObjectId (removed (UserSchema.pendingTasks prev) next) = true →
  bad ∈ next → bad ∉ UserSchema.pendingTasks prev → uncastable bad = true →
  status_of (users_put id body s).1 = Some 500%nat ∧
  UserSchema.pendingTasks <$> users (users_put id body s).2 !! id = Some next ∧
  (∀ tid, tid ∈ next → tid ∉ UserSchema.pendingTasks prev →
     tasks (users_put id body s).2 !! tid = tasks s !! tid) ∧
  (∀ tid t, tid ∈ UserSchema.pendingTasks prev → tid ∉ next →
     tasks s !! tid = Some t → TaskSchema.assignedUser t = id →
     tasks (users_put id body s).2 !! tid
       = Some (Task.set_assignment "" "unassigned" t)).
Proof.
  intros Hn He Hid Hp Het Hnext Hrm Hbad Hnew Hunc%uncastable_not_ObjectId.
  assert (forallb isObjectId (added (UserSchema.pendingTasks prev) next) = false) as Had.
  { apply not_true_iff_false. rewrite forallb_forall. intros Hall.
    assert (isObjectId bad = true) as Hb
      by (apply Hall, list_elem_of_In, elem_of_added; tauto).
    congruence. }
  destruct (users_put_docs id body s) as [(_ & _ & _ & Hwhy)|Hok].
  { exfalso. rewrite Hn, He in Hwhy.
    destruct Hwhy as [Hw|[Hw|[Hw|(prev' & Hp' & Hw)]]];
      [discriminate Hw | congruence | congruence |].
    rewrite Hp in Hp'. injection Hp' as <-. congruence. }
  destruct Hok as (prev' & Hp' & _ & _ & _ & Hus & Hts & Hr).
  assert (prev' = prev) as -> by congruence.
  rewrite Hnext in Hts, Hr. rewrite Hrm, Had in Hr.
  unfold users_put_tasks_after in Hts. cbn zeta in Hts. rewrite Hrm, Had in Hts.
  cbn [negb andb] in Hts, Hr. rewrite Hts, Hus, lookup_insert_eq.
  split_and!; try done.
  - cbn. by rewrite Hnext.
  - intros tid Hin Hout. rewrite set_many_lookup.
    destruct (tasks s !! tid) as [t|]; [|done]. cbn.
    rewrite unassigns_spec, bool_decide_eq_false_2; [done|].
    rewrite elem_of_removed. tauto.
  - intros tid t Hin Hout Ht Ho. rewrite set_many_lookup, Ht. cbn.
    rewrite unassigns_spec, !bool_decide_eq_true_2; [done | done |].
    by apply elem_of_removed.
Qed.

Lemma users_put_stops_at_the_cast_witness :
  status_of (perform alice_adds_t4_and_junk alice_bob_settled).1 = Some 500%nat ∧
  UserSchema.pendingTasks <$>
    users (perform alice_adds_t4_and_junk alice_bob_settled).2 !! u1
    = Some [t1; t3; t4; junk] ∧
  tasks (perform alice_adds_t4_and_junk alice_bob_settled).2 !! t4
    = tasks alice_bob_settled !! t4.
Proof.
  destruct (users_put_stops_at_the_cast u1
              (UserBody.mk (Some "Alice") (Some "a@x.com") (Some [t1; t3; t4; junk]) None)
              alice_bob_settled
              (UserSchema.mk "Alice" "a@x.com" [t1; t3] 5) [t1; t3; t4; junk] junk)
    as (Hr & Hu & Ha & _); try reflexivity;
    try (apply (bool_decide_unpack _); vm_compute; exact I).
  split_and!; [exact Hr | exact Hu |].
  apply Ha; apply (bool_decide_unpack _); vm_compute; exact I.
Defined.

(** ** What a call on tasks leaves alone *)

(** The task document a call on tasks addresses. *)
Definition task_target (c : Call) : option string :=
  match c with
  | CreateTask oid _ _ => Some oid
  | UpdateTask id _ => Some id
  | DeleteTask id => Some id
  | UpdateUser _ _ | DeleteUser _ => None
  end.

(** The documents [us'], [ts'] differ from [us], [ts] in the task [id]
    and in occurrences of [id] in pending lists only. *)
Definition framed (id : string) (us us' : gmap string UserSchema.doc)
    (ts ts' : gmap string TaskSchema.doc) : Prop :=
  (∃ g, us' = repend g us ∧ ∀ uid l x, x ≠ id → occ x (g uid l) = occ x l) ∧
  (∀ tid, tid ≠ id → ts' !! tid = ts !! tid).

Lemma repend_id us : repend (λ _ l, l) us = us.
Proof.
  apply map_eq. intros uid. rewrite repend_lookup.
  destruct (us !! uid) as [u|]; [|done]. cbn. by rewrite set_pendingTasks_id.
Qed.

Lemma framed_refl id us ts : framed id us us ts ts.
Proof. split; [|done]. exists (λ _ l, l). by rewrite repend_id. Qed.

Lemma framed_pulled id a us us' ts ts' :
  framed id us us' ts ts' → framed id us (pulled a id us') ts ts'.
Proof.
  intros [(g & -> & Hg) Hts]. split; [|done].
  rewrite pulled_repend, repend_repend. eexists. split; [done|].
  intros uid l x Hx. cbn beta. by rewrite occ_g_pull_other, Hg.
Qed.

Lemma framed_pushed id a us us' ts ts' :
  framed id us us' ts ts' → framed id us (pushed a id us') ts ts'.
Proof.
  intros [(g & -> & Hg) Hts]. split; [|done].
  rewrite pushed_repend, repend_repend. eexists. split; [done|].
  intros uid l x Hx. cbn beta. by rewrite occ_g_push_other, Hg.
Qed.

Lemma framed_insert id t us us' ts ts' :
  framed id us us' ts ts' → framed id us us' ts (<[id := t]> ts').
Proof.
  intros [Hus Hts]. split; [done|]. intros tid Hne.
  by rewrite lookup_insert_ne, Hts.
Qed.

Lemma framed_delete id us us' ts ts' :
  framed id us us' ts ts' → framed id us us' ts (delete id ts').
Proof.
  intros [Hus Hts]. split; [done|]. intros tid Hne.
  by rewrite lookup_delete_ne, Hts.
Qed.

Ltac framed :=
  repeat first
    [ apply framed_refl | apply framed_pulled | apply framed_pushed
    | apply framed_insert | apply framed_delete ].

Ltac wp_cases :=
  repeat first
    [ wp_step
    | intros ?
    | lazymatch goal with
      | |- if ?c then _ else _ => destruct c
      | |- match ?c with _ => _ end => destruct c
      | |- wp (if ?c then _ else _) _ _ => destruct c
      | |- wp (match ?c with _ => _ end) _ _ => destruct c
      end ].

Lemma tasks_post_framed oid now body s :
  wp (tasks_post oid now body) s
    (λ _ s', framed oid (users s) (users s') (tasks s) (tasks s')).
Proof. unfold tasks_post. wp_cases; framed. Qed.

Lemma tasks_put_framed id body s :
  wp (tasks_put id body) s
    (λ _ s', framed id (users s) (users s') (tasks s) (tasks s')).
Proof. unfold tasks_put. wp_cases; framed. Qed.

Lemma tasks_delete_framed id s :
  wp (tasks_delete id) s
    (λ _ s', framed id (users s) (users s') (tasks s) (tasks s')).
Proof. unfold tasks_delete. wp_cases; framed. Qed.

(** X20. What [POST /tasks], [PUT /tasks/:id] and [DELETE /tasks/:id]
    leave alone under an identifier every cast reads alike, whatever
    they answer - also when a call is answered 500 after part of its
    writes: every task document other than the one
    addressed; the set of users; each user's name, email and creation
    date; and, in every pending list, the occurrences of every
    identifier other than the addressed task's. *)
Theorem task_calls_frame (c : Call) (id : string) (s : Store) :
  task_target c = Some id → unambiguous id = true →
  (∀ tid, tid ≠ id → tasks (perform c s).2 !! tid = tasks s !! tid) ∧
  (∀ uid, is_Some (users (perform c s).2 !! uid) ↔ is_Some (users s !! uid)) ∧
  (∀ uid u u', users s !! uid = Some u → users (perform c s).2 !! uid = Some u' →
     UserSchema.name u' = UserSchema.name u ∧
     UserSchema.email u' = UserSchema.email u ∧
     UserSchema.dateCreated u' = UserSchema.dateCreated u ∧
     ∀ x, x ≠ id →
       occ x (UserSchema.pendingTasks u') = occ x (UserSchema.pendingTasks u)).
Proof.
  intros Ht _.
  assert (framed id (users s) (users (perform c s).2) (tasks s) (tasks (perform c s).2))
    as [(g & Hus & Hg) Hts].
  { destruct c as [oid now fields|tid0 fields|tid0| |]; try done;
      injection Ht as ->; cbn [perform].
    - apply (tasks_post_framed id now fields s).
    - apply (tasks_put_framed id fields s).
    - apply (tasks_delete_framed id s). }
  split_and!; [done | |].
  - intros uid. by rewrite Hus, repend_lookup, fmap_is_Some.
  - intros uid u u' Hu. rewrite Hus, repend_lookup, Hu. intros [= <-].
    split_and!; try done. intros x Hx. by apply Hg.
Qed.

Lemma task_calls_frame_witness :
  tasks (perform give_t1_to_bob alice_bob_settled).2 !! t3
    = tasks alice_bob_settled !! t3 ∧
  (is_Some (users (perform give_t1_to_bob alice_bob_settled).2 !! u9)
     ↔ is_Some (users alice_bob_settled !! u9)).
Proof.
  destruct (task_calls_frame give_t1_to_bob t1 alice_bob_settled) as (Hts & Hdom & _);
    [reflexivity | reflexivity |].
  split; [apply Hts; discriminate | apply Hdom].
Defined.

(** ** Reading one document *)

(** The [data] of an answer that carries one document as JSON. *)
Inductive DocData :=
| NoDoc
| Doc (j : JSON)
| Failed (e : Exn).

Record DocResponse := mkDocResponse {
  doc_status : nat;
  doc_message : string;
  doc_data : DocData
}.

Definition send_doc (code : nat) (message : string) (data : DocData) : M DocResponse :=
  mret (mkDocResponse code message data).

Section reading.
(** The parts of a read that the JSON parser and the store decide:
    [JSON.parse] ([None] when it throws), whether the store accepts a
    selection, and the projection an accepted selection gives. *)
Variable JSON_parse : string → option JSON.
Variable selectable : JSON → bool.
Variable project : JSON → JSON → JSON.

(** [if (req.query.select) q = q.select(parseJSON(req.query.select, {}))] *)
Definition selection_refused (q : Params.t) : bool :=
  truthy (Params.select q)
  && negb (selectable (parseJSON JSON_parse (Params.select q) (JObj []))).

Definition selection (q : Params.t) (d : JSON) : JSON :=
  if truthy (Params.select q)
  then project (parseJSON JSON_parse (Params.select q) (JObj [])) d
  else d.

(** [q.exec()] of a [findById] query: the cast of the identifier comes
    first, then the store is reached, which refuses a selection it does
    not accept. *)
Definition exec_one {D} (find : string → M (option D)) (toJSON : string * D → JSON)
    (id : string) (q : Params.t) : M (option JSON) :=
  d ← find id;
  if selection_refused q then throw BadValue
  else mret ((λ d, selection q (toJSON (id, d))) <$> d).

(** [GET /users/:id] *)
Definition users_id_get (id : string) (q : Params.t) : M DocResponse :=
  try_catch
    (user ← exec_one User.findById UserSchema_toJSON id q;
     match user with
     | None => send_doc 404 "User not found" NoDoc
     | Some j => send_doc 200 "OK" (Doc j)
     end)
    (λ e, send_doc 400 "Invalid user id" (Failed e)).

(** [GET /tasks/:id] *)
Definition tasks_id_get (id : string) (q : Params.t) : M DocResponse :=
  try_catch
    (task ← exec_one Task.findById TaskSchema_toJSON id q;
     match task with
     | None => send_doc 404 "Task not found" NoDoc
     | Some j => send_doc 200 "OK" (Doc j)
     end)
    (λ e, send_doc 400 "Invalid task id" (Failed e)).

Lemma users_id_get_run (id : string) (q : Params.t) (s : Store) :
  users_id_get id q s =
    if isObjectId id then
      (Ok (if selection_refused q
           then mkDocResponse 400 "Invalid user id" (Failed BadValue)
           else match users s !! id with
                | None => mkDocResponse 404 "User not found" NoDoc
                | Some u =>
                    mkDocResponse 200 "OK" (Doc (selection q (UserSchema_toJSON (id, u))))
                end),
       after s (users s) (tasks s) [Access Users])
    else (Ok (mkDocResponse 400 "Invalid user id" (Failed CastError)), s).
Proof.
  unfold users_id_get, exec_one, User.findById, casting, send_doc. cbn [forallb].
  destruct (isObjectId id); [|done]. unfold_monad. cbn.
  destruct (selection_refused q); [done|]. by destruct (users s !! id).
Qed.

Lemma tasks_id_get_run (id : string) (q : Params.t) (s : Store) :
  tasks_id_get id q s =
    if isObjectId id then
      (Ok (if selection_refused q
           then mkDocResponse 400 "Invalid task id" (Failed BadValue)
           else match tasks s !! id with
                | None => mkDocResponse 404 "Task not found" NoDoc
                | Some t =>
                    mkDocResponse 200 "OK" (Doc (selection q (TaskSchema_toJSON (id, t))))
                end),
       after s (users s) (tasks s) [Access Tasks])
    else (Ok (mkDocResponse 400 "Invalid task id" (Failed CastError)), s).
Proof.
  unfold tasks_id_get, exec_one, Task.findById, casting, send_doc. cbn [forallb].
  destruct (isObjectId id); [|done]. unfold_monad. cbn.
  destruct (selection_refused q); [done|]. by destruct (tasks s !! id).
Qed.

(** X21. Creating and then reading.  After a [POST /tasks] answered 201
    with a task under an ObjectId, [GET /tasks/:id] on that identifier
    answers 200 with that task as JSON, projected when [select] is
    given; after a [POST /users] answered 201 with a user,
    [GET /users/:id] answers 200 with that user.  The selection is one
    the store accepts. *)
Theorem get_after_post
    (oid : string) (now : Z) (tb : TaskBody.t) (ub : UserBody.t) (q : Params.t)
    (s : Store) :
  isObjectId oid = true → selection_refused q = false →
  (∀ t, (tasks_post oid now tb s).1 = Ok (mkResponse 201 "Task created" (DTask oid t)) →
     (tasks_id_get oid q (tasks_post oid now tb s).2).1
       = Ok (mkDocResponse 200 "OK" (Doc (selection q (TaskSchema_toJSON (oid, t)))))) ∧
  (∀ u, (users_post oid now ub s).1 = Ok (mkResponse 201 "User created" (DUser oid u)) →
     (users_id_get oid q (users_post oid now ub s).2).1
       = Ok (mkDocResponse 200 "OK" (Doc (selection q (UserSchema_toJSON (oid, u)))))).
Proof.
  intros Hid Hsel. split.
  - intros t Hr. rewrite tasks_id_get_run, Hid, Hsel. cbn [fst].
    pose proof (tasks_post_effect oid now tb s) as H. unfold wp in H.
    destruct (_ && _); [|destruct H as [H _]; rewrite H in Hr; discriminate].
    destruct (assignee_miscast tb);
      [destruct H as (H & _); rewrite Hr in H; discriminate|].
    destruct (tasks_post_created _ _ _) as [t'|], (tasks s !! oid);
      try (destruct H as (H & _); rewrite Hr in H; discriminate).
    destruct H as (Hr' & -> & _). rewrite Hr in Hr'. injection Hr' as <-.
    by rewrite lookup_insert_eq.
  - intros u Hr. rewrite users_id_get_run, Hid, Hsel. cbn [fst].
    pose proof (users_post_effect oid now ub s) as H. unfold wp in H. cbn zeta in H.
    destruct (_ && _); [|destruct H as [H _]; rewrite H in Hr; discriminate].
    destruct H as [H|[H|H]].
    + destruct H as (H & _). rewrite H in Hr. discriminate.
    + destruct H as (H & _). rewrite Hr in H. discriminate.
    + destruct H as (Hr' & -> & _). rewrite Hr in Hr'. injection Hr' as <-.
      by rewrite lookup_insert_eq.
Qed.

(** X22. Deleting and then reading.  After a [DELETE /tasks/:id] or a
    [DELETE /users/:id] under an ObjectId, whatever it answered, reading
    the same identifier is not answered 200: it is answered 404, or 400
    when the store refuses the selection. *)
Theorem get_after_delete (id : string) (q : Params.t) (s : Store) :
  isObjectId id = true →
  (tasks_id_get id q (tasks_delete id s).2).1
    = Ok (if selection_refused q
          then mkDocResponse 400 "Invalid task id" (Failed BadValue)
          else mkDocResponse 404 "Task not found" NoDoc) ∧
  (users_id_get id q (users_delete id s).2).1
    = Ok (if selection_refused q
          then mkDocResponse 400 "Invalid user id" (Failed BadValue)
          else mkDocResponse 404 "User not found" NoDoc).
Proof.
  intros Hid. split.
  - rewrite tasks_id_get_run.
    pose proof (tasks_delete_effect id s) as H. unfold wp in H.
    rewrite Hid in *. cbn [fst].
    destruct (selection_refused q); [done|].
    destruct (tasks s !! id) eqn:E.
    + destruct H as (-> & _). by rewrite lookup_delete_eq.
    + destruct H as (_ & _ & ->). by rewrite E.
  - rewrite users_id_get_run.
    pose proof (users_delete_effect id s) as H. unfold wp in H.
    rewrite Hid in *. cbn [fst].
    destruct (selection_refused q); [done|].
    destruct (users s !! id) eqn:E.
    + destruct H as (_ & -> & _). by rewrite lookup_delete_eq.
    + destruct H as (_ & -> & _). by rewrite E.
Qed.

(** X23. One ill-formed identifier, two answers.  A read of one
    document answers 400 when the cast refuses the identifier, while the
    handlers that write under the same identifier answer 500 (the
    replacing ones once the required fields are there); none of them
    reaches the store. *)
Theorem ill_formed_id_400_on_read_500_on_write
    (id : string) (q : Params.t) (tb : TaskBody.t) (ub : UserBody.t) (s : Store) :
  uncastable id = true →
  users_id_get id q s = (Ok (mkDocResponse 400 "Invalid user id" (Failed CastError)), s) ∧
  tasks_id_get id q s = (Ok (mkDocResponse 400 "Invalid task id" (Failed CastError)), s) ∧
  status_of (users_delete id s).1 = Some 500%nat ∧
  status_of (tasks_delete id s).1 = Some 500%nat ∧
  (truthy (UserBody.name ub) && truthy (UserBody.email ub) = true →
     status_of (users_put id ub s).1 = Some 500%nat) ∧
  (truthy (TaskBody.name tb) && truthy (TaskBody.deadline tb) = true →
     status_of (tasks_put id tb s).1 = Some 500%nat).
Proof.
  intros Hid%uncastable_not_ObjectId. rewrite users_id_get_run, tasks_id_get_run, Hid.
  pose proof (users_delete_effect id s) as Hud.
  pose proof (tasks_delete_effect id s) as Htd.
  pose proof (users_put_effect id ub s) as Hup.
  pose proof (tasks_put_effect id tb s) as Htp.
  unfold wp in *. rewrite Hid in *.
  split_and!; try done.
  - by destruct Hud as (-> & _).
  - by destruct Htd as (-> & _).
  - intros Hg. rewrite Hg in Hup. by destruct Hup as (-> & _).
  - intros Hg. rewrite Hg in Htp. by destruct Htp as (-> & _).
Qed.
End reading.

Lemma get_after_post_witness :
  ∃ t, (tasks_id_get (λ _, None) (λ _, true) (λ _ d, d) t2 Params.empty
          (tasks_post t2 9 t2_for_alice alice_with_t1).2).1
       = Ok (mkDocResponse 200 "OK" (Doc (TaskSchema_toJSON (t2, t)))) ∧
       TaskSchema.assignedUserName t = "Alice".
Proof.
  destruct (get_after_post (λ _, None) (λ _, true) (λ _ d, d) t2 9 t2_for_alice
              UserBody.empty Params.empty alice_with_t1) as [Ht _];
    [reflexivity | reflexivity |].
  eexists. split; [apply Ht; vm_compute; reflexivity|]. reflexivity.
Defined.

Lemma get_after_delete_witness :
  (tasks_id_get (λ _, None) (λ _, true) (λ _ d, d) t1 Params.empty
     (tasks_delete t1 alice_with_t1).2).1
    = Ok (mkDocResponse 404 "Task not found" NoDoc).
Proof.
  destruct (get_after_delete (λ _, None) (λ _, true) (λ _ d, d) t1 Params.empty
              alice_with_t1) as [Ht _]; [reflexivity|].
  exact Ht.
Defined.

Lemma ill_formed_id_400_on_read_500_on_write_witness :
  users_id_get (λ _, None) (λ _, true) (λ _ d, d) ghost Params.empty only_alice
    = (Ok (mkDocResponse 400 "Invalid user id" (Failed CastError)), only_alice) ∧
  status_of (users_delete ghost only_alice).1 = Some 500%nat.
Proof.
  destruct (ill_formed_id_400_on_read_500_on_write (λ _, None) (λ _, true) (λ _ d, d)
              ghost Params.empty TaskBody.empty UserBody.empty only_alice)
    as (Hr & _ & Hd & _); [reflexivity|].
  split; [exact Hr | exact Hd].
Defined.

(** ** More on listing *)

Definition with_where (q : Params.t) (w : option string) : Params.t :=
  Params.mk w (Params.sort q) (Params.select q) (Params.skip q) (Params.limit q)
            (Params.count q).

Section listing_more.
Variable JSON_parse : string → option JSON.
Variable matches : JSON → JSON → bool.
Variable sorted_by : JSON → list JSON → list JSON.
Variable project : JSON → JSON → JSON.
Variable selectable : JSON → bool.

Lemma countDocuments_run (c : Coll) (f : JSON) (s : Store) :
  countDocuments matches c f s =
    (Ok (length (filter (λ d, matches f d = true) (documents c s))),
     after s (users s) (tasks s) [Access c]).
Proof. done. Qed.

Lemma parseJSON_malformed (w : string) :
  JSON_parse w = None → parseJSON JSON_parse (Some w) (JObj []) = JObj [].
Proof. intros H. unfold parseJSON. cbn. rewrite H. by destruct (truthy w). Qed.

Lemma buildQuery_malformed_where (c : Coll) (q : Params.t) (isTasks : bool) (w : string) :
  JSON_parse w = None →
  buildQuery JSON_parse c (with_where q (Some w)) isTasks
    = buildQuery JSON_parse c (with_where q None) isTasks.
Proof.
  intros H. unfold buildQuery, with_where. cbn [Params.where_ Params.sort Params.select
    Params.skip Params.limit Params.count].
  by rewrite (parseJSON_malformed w H).
Qed.

(** X24. A [where] parameter that is not JSON does not fail a list
    request: each list handler answers exactly as it does when the
    parameter is absent, with or without [count]. *)
Theorem malformed_where_is_no_filter (q : Params.t) (w : string) (s : Store) :
  JSON_parse w = None →
  tasks_get JSON_parse matches sorted_by project (with_where q (Some w)) s
    = tasks_get JSON_parse matches sorted_by project (with_where q None) s ∧
  users_get JSON_parse matches sorted_by project (with_where q (Some w)) s
    = users_get JSON_parse matches sorted_by project (with_where q None) s.
Proof.
  intros H. unfold tasks_get, users_get.
  rewrite !(buildQuery_malformed_where _ q _ w H).
  cbn [with_where Params.where_ Params.count].
  by rewrite (parseJSON_malformed w H).
Qed.



(** X27. No list request and no read of one document changes a
    document: after each of the four reading handlers, whatever the
    parameters and the answer, every user and every task is as
    before. *)
Theorem reading_writes_nothing (id : string) (q : Params.t) (s : Store) :
  users (tasks_get JSON_parse matches sorted_by project q s).2 = users s ∧
  tasks (tasks_get JSON_parse matches sorted_by project q s).2 = tasks s ∧
  users (users_get JSON_parse matches sorted_by project q s).2 = users s ∧
  tasks (users_get JSON_parse matches sorted_by project q s).2 = tasks s ∧
  users (tasks_id_get JSON_parse selectable project id q s).2 = users s ∧
  tasks (tasks_id_get JSON_parse selectable project id q s).2 = tasks s ∧
  users (users_id_get JSON_parse selectable project id q s).2 = users s ∧
  tasks (users_id_get JSON_parse selectable project id q s).2 = tasks s.
Proof.
  rewrite tasks_id_get_run, users_id_get_run.
  unfold tasks_get, users_get, try_catch.
  destruct (bool_decide (Params.count q = Some "true")); unfold mbind, M_bind;
    rewrite ?countDocuments_run, ?exec_run;
    repeat match goal with |- context [if ?b then _ else _] => destruct b end;
    by split_and!.
Qed.
End listing_more.


Lemma malformed_where_is_no_filter_witness :
  tasks_get (λ _, None) (λ _ _, true) (λ _ l, l) (λ _ d, d)
    (with_where Params.empty (Some "{oops")) alice_with_t1
  = tasks_get (λ _, None) (λ _ _, true) (λ _ l, l) (λ _ d, d)
      (with_where Params.empty None) alice_with_t1.
Proof.
  apply (malformed_where_is_no_filter (λ _, None) (λ _ _, true) (λ _ l, l) (λ _ d, d)
           Params.empty "{oops" alice_with_t1).
  reflexivity.
Defined.


